(** * Fire and smoke detection: frame buffer, detection gate, alert fan-out
      and response statistics

    A shallow embedding of [fire_detection.py] and [database.py].

    Conventions of the embedding.
    - Python floats and SQLite REAL values are the rationals they denote
      ([Q]); arithmetic on them is exact, so rounding is not modelled, and
      equalities between computed values are stated with [==].
    - Python dicts keyed by camera id ([FRAME_BUFFERS], [PENDING_CLIPS],
      [CAMERAS_CACHE]) are [gmap nat _]; list objects stored in a dict and
      mutated in place are written back with an insert.
    - An SQLite table is the list of its rows in insertion order, each row a
      record holding the columns the code reads or writes by value; the
      [cameras] table, whose key is given by the caller and which is loaded
      into a dict, is a map from that key.  Columns filled by the store's own
      clock and only used by ORDER BY in dashboard queries are left out, except
      [received_at] of [firefighter_alerts], which the code reads back.
    - Every read of a clock ([time.time()], [datetime.now()],
      CURRENT_TIMESTAMP) is an explicit argument of the function that reads
      it.
    - What the code gets from libraries ([datetime.fromisoformat], the
      percent formatting of a float, the classifier's overlay) is a variable
      of the section that uses it; an exception raised by the code is the
      result [None]. *)

From Stdlib Require Import Ascii String QArith Qround Lqa ZArith Lia.
From stdpp Require Import gmap strings list sorting pretty.

(** ** Numbers and strings *)

(** [a < b] on floats, as a boolean. *)
Definition Qltb (a b : Q) : bool := negb (Qle_bool b a).

(** Python's [max(a, b)]: the first argument unless the second is larger. *)
Definition py_max (a b : Q) : Q := if Qltb a b then b else a.

Definition lower_ascii (c : ascii) : ascii :=
  let n := nat_of_ascii c in
  if (65 <=? n)%nat && (n <=? 90)%nat then ascii_of_nat (n + 32) else c.

Definition upper_ascii (c : ascii) : ascii :=
  let n := nat_of_ascii c in
  if (97 <=? n)%nat && (n <=? 122)%nat then ascii_of_nat (n - 32) else c.

(** [str.lower()] and [str.upper()] on ASCII text. *)
Fixpoint lower (s : string) : string :=
  match s with
  | EmptyString => EmptyString
  | String c r => String (lower_ascii c) (lower r)
  end.

Fixpoint upper (s : string) : string :=
  match s with
  | EmptyString => EmptyString
  | String c r => String (upper_ascii c) (upper r)
  end.

(** [needle in hay] on strings. *)
Fixpoint contains (needle hay : string) : bool :=
  String.prefix needle hay ||
  match hay with
  | EmptyString => false
  | String _ r => contains needle r
  end.

(** ** The record store ([database.py]) *)

(** Row of [cameras], keyed by its [id]. *)
Record Camera := {
  cam_name : string;
  cam_location : string;
  cam_latitude : option Q;
  cam_longitude : option Q }.

Record Detection := {
  det_id : nat;
  det_camera_id : nat;
  det_camera_name : string;
  det_detection_type : string;
  det_confidence : Q;
  det_image_path : string;
  det_clip_path : option string;
  det_location : string;
  det_latitude : option Q;
  det_longitude : option Q;
  det_status : string }.

Record Alert := {
  al_id : nat;
  al_detection_id : nat;
  al_alert_level : string;
  al_message : string;
  al_status : string }.

Record Firefighter := {
  ff_id : nat;
  ff_name : string;
  ff_phone : string;
  ff_station : nat;
  ff_status : string }.

Record FirefighterAlert := {
  fa_id : nat;
  fa_alert_id : nat;
  fa_detection_id : nat;
  fa_firefighter_id : nat;
  fa_station_id : nat;
  fa_alert_type : string;
  fa_location : string;
  fa_area : string;
  fa_confidence : Q;
  fa_status : string;
  fa_response_type : option string;
  fa_received_at : string;
  fa_responded_at : option string }.

Record FirefighterStats := {
  fs_id : nat;
  fs_firefighter_id : nat;
  total_responded : Z;
  total_acknowledged : Z;
  total_alerts_today : Z;
  avg_response_time_seconds : Q;
  last_response_at : option string;
  stats_date : option string }.

Record DB := {
  cameras : gmap nat Camera;
  detections : list Detection;
  alerts : list Alert;
  activity : list string;
  firefighters : list Firefighter;
  firefighter_alerts : list FirefighterAlert;
  firefighter_stats : list FirefighterStats }.

(** [cursor.lastrowid] after an INSERT into an AUTOINCREMENT table none of
    whose rows is ever deleted: one more than the largest id in use. *)
Definition max_id (ids : list nat) : nat := foldr Nat.max 0%nat ids.
Definition next_rowid (ids : list nat) : nat := S (max_id ids).

Definition with_detections (d : DB) (x : list Detection) : DB :=
  {| cameras := cameras d; detections := x; alerts := alerts d;
     activity := activity d; firefighters := firefighters d;
     firefighter_alerts := firefighter_alerts d;
     firefighter_stats := firefighter_stats d |}.

Definition with_alerts (d : DB) (x : list Alert) : DB :=
  {| cameras := cameras d; detections := detections d; alerts := x;
     activity := activity d; firefighters := firefighters d;
     firefighter_alerts := firefighter_alerts d;
     firefighter_stats := firefighter_stats d |}.

Definition with_activity (d : DB) (x : list string) : DB :=
  {| cameras := cameras d; detections := detections d; alerts := alerts d;
     activity := x; firefighters := firefighters d;
     firefighter_alerts := firefighter_alerts d;
     firefighter_stats := firefighter_stats d |}.

Definition with_firefighter_alerts (d : DB) (x : list FirefighterAlert) : DB :=
  {| cameras := cameras d; detections := detections d; alerts := alerts d;
     activity := activity d; firefighters := firefighters d;
     firefighter_alerts := x;
     firefighter_stats := firefighter_stats d |}.

Definition with_firefighter_stats (d : DB) (x : list FirefighterStats) : DB :=
  {| cameras := cameras d; detections := detections d; alerts := alerts d;
     activity := activity d; firefighters := firefighters d;
     firefighter_alerts := firefighter_alerts d;
     firefighter_stats := x |}.

(** [get_cameras]: every camera, by id. *)
Definition get_cameras (d : DB) : gmap nat Camera := cameras d.

(** [log_detection]: one new row, status 'pending' and no clip yet; its id is
    returned.  (The daily counters and the half-hour history it also bumps
    are dashboard tables outside this development.) *)
Definition log_detection (d : DB) (camera_id : nat) (detection_type : string)
    (confidence : Q) (image_path location : string)
    (latitude longitude : option Q) (camera_name : string) : DB * nat :=
  let detection_id := next_rowid (det_id <$> detections d) in
  let row := {| det_id := detection_id; det_camera_id := camera_id;
                det_camera_name := camera_name;
                det_detection_type := detection_type;
                det_confidence := confidence; det_image_path := image_path;
                det_clip_path := None; det_location := location;
                det_latitude := latitude; det_longitude := longitude;
                det_status := "pending" |} in
  (with_detections d (detections d ++ [row]), detection_id).

Definition set_clip_path (clip_path : string) (r : Detection) : Detection :=
  {| det_id := det_id r; det_camera_id := det_camera_id r;
     det_camera_name := det_camera_name r;
     det_detection_type := det_detection_type r;
     det_confidence := det_confidence r; det_image_path := det_image_path r;
     det_clip_path := Some clip_path; det_location := det_location r;
     det_latitude := det_latitude r; det_longitude := det_longitude r;
     det_status := det_status r |}.

(** [update_detection_clip]: UPDATE detections SET clip_path WHERE id. *)
Definition update_detection_clip (d : DB) (detection_id : nat)
    (clip_path : string) : DB :=
  with_detections d
    ((fun r => if decide (det_id r = detection_id)
               then set_clip_path clip_path r else r) <$> detections d).

(** [create_alert]: one new row, status 'active'. *)
Definition create_alert (d : DB) (detection_id : nat)
    (alert_level message : string) : DB * nat :=
  let alert_id := next_rowid (al_id <$> alerts d) in
  let row := {| al_id := alert_id; al_detection_id := detection_id;
                al_alert_level := alert_level; al_message := message;
                al_status := "active" |} in
  (with_alerts d (alerts d ++ [row]), alert_id).

(** [add_activity]. *)
Definition add_activity (d : DB) (message : string) : DB :=
  with_activity d (activity d ++ [message]).

(** [create_firefighter_alert] and the INSERT of [broadcast_alert_to_station]:
    one new row in status 'pending', not yet responded to, stamped by the
    store with CURRENT_TIMESTAMP. *)
Definition new_firefighter_alert (new_id alert_id detection_id firefighter_id
    station_id : nat) (alert_type location area : string) (confidence : Q)
    (current_timestamp : string) : FirefighterAlert :=
  {| fa_id := new_id; fa_alert_id := alert_id;
     fa_detection_id := detection_id; fa_firefighter_id := firefighter_id;
     fa_station_id := station_id; fa_alert_type := alert_type;
     fa_location := location; fa_area := area; fa_confidence := confidence;
     fa_status := "pending"; fa_response_type := None;
     fa_received_at := current_timestamp; fa_responded_at := None |}.

Definition create_firefighter_alert (d : DB) (alert_id detection_id
    firefighter_id station_id : nat) (alert_type location area : string)
    (confidence : Q) (current_timestamp : string) : DB * nat :=
  let new_id := next_rowid (fa_id <$> firefighter_alerts d) in
  (with_firefighter_alerts d
     (firefighter_alerts d ++
      [new_firefighter_alert new_id alert_id detection_id firefighter_id
         station_id alert_type location area confidence current_timestamp]),
   new_id).

(** SELECT id FROM firefighters WHERE station = ? AND status = 'online'. *)
Definition online_in_station (station_id : nat) (f : Firefighter) : bool :=
  bool_decide (ff_station f = station_id) &&
  bool_decide (ff_status f = "online").

Definition select_online_firefighters (d : DB) (station_id : nat) : list nat :=
  ff_id <$> filter (fun f => online_in_station station_id f = true)
                   (firefighters d).

(** The loop of [broadcast_alert_to_station]: one INSERT per selected
    firefighter, [k] counting the statements already run (the store stamps
    the [k]-th row with [current_timestamp k]); the ids of the new rows are
    collected in [alert_ids]. *)
Fixpoint broadcast_loop (ffs : list nat) (k : nat)
    (station_id alert_id detection_id : nat)
    (alert_type location area : string) (confidence : Q)
    (current_timestamp : nat -> string)
    (tbl : list FirefighterAlert) (alert_ids : list nat)
    : list FirefighterAlert * list nat :=
  match ffs with
  | [] => (tbl, alert_ids)
  | ff :: rest =>
      let new_id := next_rowid (fa_id <$> tbl) in
      broadcast_loop rest (S k) station_id alert_id detection_id
        alert_type location area confidence current_timestamp
        (tbl ++ [new_firefighter_alert new_id alert_id detection_id ff
                   station_id alert_type location area confidence
                   (current_timestamp k)])
        (alert_ids ++ [new_id])
  end.

Definition broadcast_alert_to_station (d : DB) (station_id alert_id
    detection_id : nat) (alert_type location area : string) (confidence : Q)
    (current_timestamp : nat -> string) : DB * list nat :=
  let firefighters := select_online_firefighters d station_id in
  let '(tbl, alert_ids) :=
    broadcast_loop firefighters 0 station_id alert_id detection_id
      alert_type location area confidence current_timestamp
      (firefighter_alerts d) [] in
  (with_firefighter_alerts d tbl, alert_ids).

Section Responders.

(** [datetime.fromisoformat] read as seconds from a fixed origin; [None]
    when it raises. *)
Variable fromisoformat : string -> option Q.

(** The try/except of [_update_firefighter_stats]: the seconds between the
    two timestamps, and 0 as soon as one of them does not parse. *)
Definition response_time (received_at responded_at : string) : Q :=
  match fromisoformat received_at with
  | Some received =>
      match fromisoformat responded_at with
      | Some responded => responded - received
      | None => 0
      end
  | None => 0
  end.

(** INSERT OR IGNORE INTO firefighter_stats (firefighter_id, stats_date):
    [firefighter_id] is UNIQUE, the other columns take their defaults.  A
    new row is numbered after the rows of the table; the numbers that
    AUTOINCREMENT has spent on ignored inserts are not kept, so [fs_id] may
    be lower than the stored id, and no property below rests on its
    value. *)
Definition insert_or_ignore_stats (st : list FirefighterStats)
    (firefighter_id : nat) (today : string) : list FirefighterStats :=
  if bool_decide (firefighter_id ∈ (fs_firefighter_id <$> st)) then st
  else st ++ [ {| fs_id := next_rowid (fs_id <$> st);
                  fs_firefighter_id := firefighter_id;
                  total_responded := 0; total_acknowledged := 0;
                  total_alerts_today := 0; avg_response_time_seconds := 0;
                  last_response_at := None; stats_date := Some today |} ].

(** The SET clause for 'responded'; every right-hand side reads the row as it
    was before the UPDATE. *)
Definition set_responded (latency : Q) (responded_at : string)
    (r : FirefighterStats) : FirefighterStats :=
  {| fs_id := fs_id r; fs_firefighter_id := fs_firefighter_id r;
     total_responded := total_responded r + 1;
     total_acknowledged := total_acknowledged r;
     total_alerts_today := total_alerts_today r + 1;
     avg_response_time_seconds :=
       (avg_response_time_seconds r * inject_Z (total_responded r) + latency)
       / inject_Z (total_responded r + 1);
     last_response_at := Some responded_at;
     stats_date := stats_date r |}.

(** The SET clause of the other branch. *)
Definition set_acknowledged (responded_at : string)
    (r : FirefighterStats) : FirefighterStats :=
  {| fs_id := fs_id r; fs_firefighter_id := fs_firefighter_id r;
     total_responded := total_responded r;
     total_acknowledged := total_acknowledged r + 1;
     total_alerts_today := total_alerts_today r + 1;
     avg_response_time_seconds := avg_response_time_seconds r;
     last_response_at := Some responded_at;
     stats_date := stats_date r |}.

(** UPDATE firefighter_stats SET ... WHERE firefighter_id = ?. *)
Definition update_stats_where (firefighter_id : nat)
    (f : FirefighterStats -> FirefighterStats)
    (st : list FirefighterStats) : list FirefighterStats :=
  (fun r => if decide (fs_firefighter_id r = firefighter_id) then f r else r)
    <$> st.

Definition _update_firefighter_stats (d : DB) (today : string)
    (firefighter_id : nat) (response_type received_at responded_at : string)
    : DB :=
  let latency := response_time received_at responded_at in
  let st := insert_or_ignore_stats (firefighter_stats d) firefighter_id today in
  with_firefighter_stats d
    (if decide (response_type = "responded")
     then update_stats_where firefighter_id
            (set_responded latency responded_at) st
     else update_stats_where firefighter_id (set_acknowledged responded_at) st).

Definition set_response (response_type now : string)
    (r : FirefighterAlert) : FirefighterAlert :=
  {| fa_id := fa_id r; fa_alert_id := fa_alert_id r;
     fa_detection_id := fa_detection_id r;
     fa_firefighter_id := fa_firefighter_id r;
     fa_station_id := fa_station_id r; fa_alert_type := fa_alert_type r;
     fa_location := fa_location r; fa_area := fa_area r;
     fa_confidence := fa_confidence r;
     fa_status := response_type; fa_response_type := Some response_type;
     fa_received_at := fa_received_at r; fa_responded_at := Some now |}.

(** SELECT ... FROM firefighter_alerts WHERE id = ?, then [fetchone()]. *)
Definition fetch_firefighter_alert (tbl : list FirefighterAlert)
    (alert_id : nat) : option FirefighterAlert :=
  head (filter (fun r => fa_id r = alert_id) tbl).

(** [respond_to_firefighter_alert]: [now] is [datetime.now().isoformat()],
    [today] the date read in [_update_firefighter_stats].  The UPDATE
    selects by id alone; the function returns nothing and raises nothing. *)
Definition respond_to_firefighter_alert (d : DB) (alert_id : nat)
    (response_type now today : string) : DB :=
  let d1 := with_firefighter_alerts d
              ((fun r => if decide (fa_id r = alert_id)
                         then set_response response_type now r else r)
                 <$> firefighter_alerts d) in
  match fetch_firefighter_alert (firefighter_alerts d1) alert_id with
  | Some row =>
      _update_firefighter_stats d1 today (fa_firefighter_id row)
        response_type (fa_received_at row) now
  | None => d1
  end.

End Responders.

(** ** Frame buffer, clips and the detection gate ([fire_detection.py]) *)

Definition SAVE_DIR_IMG : string := "detected_images".
Definition SAVE_DIR_CLIP : string := "detected_clips".

(** Clip settings: 1 second before, 4 seconds after. *)
Definition CLIP_BEFORE_SEC : Q := 1.0.
Definition CLIP_AFTER_SEC : Q := 4.0.
Definition CLIP_DURATION_SEC : Q := CLIP_BEFORE_SEC + CLIP_AFTER_SEC.
Definition CLIP_BUFFER_SEC : Q := CLIP_DURATION_SEC + 2.0.

(** Detection thresholds. *)
Definition FIRE_CONFIDENCE_THRESHOLD : Q := 0.70.
Definition SMOKE_CONFIDENCE_THRESHOLD : Q := 0.65.

(** [os.path.join] of a directory and a file name. *)
Definition path_join (dir name : string) : string := dir +:+ "/" +:+ name.

(** One box of a classifier result: [result.names[int(box.cls[0])]] and
    [float(box.conf[0])]. *)
Record Box := { box_class_name : string; box_conf : Q }.

(** The dict [detection_info]; the key 'detection_id' is absent until a
    detection is logged. *)
Record DetectionInfo := {
  has_fire : bool;
  has_smoke : bool;
  max_fire_confidence : Q;
  max_smoke_confidence : Q;
  detection_id : option nat }.

Definition no_detection : DetectionInfo :=
  {| has_fire := false; has_smoke := false; max_fire_confidence := 0;
     max_smoke_confidence := 0; detection_id := None |}.

(** Body of the loop over the boxes of a result. *)
Definition scan_box (info : DetectionInfo) (box : Box) : DetectionInfo :=
  let class_name := lower (box_class_name box) in
  if contains "fire" class_name then
    {| has_fire := true; has_smoke := has_smoke info;
       max_fire_confidence := py_max (max_fire_confidence info) (box_conf box);
       max_smoke_confidence := max_smoke_confidence info;
       detection_id := detection_id info |}
  else if contains "smoke" class_name then
    {| has_fire := has_fire info; has_smoke := true;
       max_fire_confidence := max_fire_confidence info;
       max_smoke_confidence :=
         py_max (max_smoke_confidence info) (box_conf box);
       detection_id := detection_id info |}
  else info.

(** The raw observation of a frame: class flags and maximal confidences. *)
Definition scan_results (results : list (list Box)) : DetectionInfo :=
  foldl (foldl scan_box) no_detection results.

Definition with_detection_id (info : DetectionInfo) (i : nat) : DetectionInfo :=
  {| has_fire := has_fire info; has_smoke := has_smoke info;
     max_fire_confidence := max_fire_confidence info;
     max_smoke_confidence := max_smoke_confidence info;
     detection_id := Some i |}.

(** Entry of [PENDING_CLIPS]. *)
Record PendingClip := { pc_detection_id : nat; pc_trigger_time : Q }.

Section Detection.

(** A captured image. *)
Variable Frame : Type.
(** The classifier's overlay: [model.predict(fr)[0].plot()]. *)
Variable annotate : Frame -> Frame.
(** The format [{confidence:.1%}]. *)
Variable format_percent : Q -> string.

(** What [cv2.VideoWriter] was given for one clip file. *)
Record Clip := { clip_fps : Q; clip_frames : list Frame }.

(** The module's globals, the record store and the clip files written. *)
Record World := {
  FRAME_BUFFERS : gmap nat (list (Q * Frame));
  PENDING_CLIPS : gmap nat PendingClip;
  CAMERAS_CACHE : option (gmap nat Camera);
  database : DB;
  clip_files : gmap string Clip }.

Definition with_frame_buffers (w : World) x : World :=
  {| FRAME_BUFFERS := x; PENDING_CLIPS := PENDING_CLIPS w;
     CAMERAS_CACHE := CAMERAS_CACHE w; database := database w;
     clip_files := clip_files w |}.

Definition with_pending_clips (w : World) x : World :=
  {| FRAME_BUFFERS := FRAME_BUFFERS w; PENDING_CLIPS := x;
     CAMERAS_CACHE := CAMERAS_CACHE w; database := database w;
     clip_files := clip_files w |}.

Definition with_cameras_cache (w : World) x : World :=
  {| FRAME_BUFFERS := FRAME_BUFFERS w; PENDING_CLIPS := PENDING_CLIPS w;
     CAMERAS_CACHE := x; database := database w;
     clip_files := clip_files w |}.

Definition with_database (w : World) x : World :=
  {| FRAME_BUFFERS := FRAME_BUFFERS w; PENDING_CLIPS := PENDING_CLIPS w;
     CAMERAS_CACHE := CAMERAS_CACHE w; database := x;
     clip_files := clip_files w |}.

Definition with_clip_files (w : World) x : World :=
  {| FRAME_BUFFERS := FRAME_BUFFERS w; PENDING_CLIPS := PENDING_CLIPS w;
     CAMERAS_CACHE := CAMERAS_CACHE w; database := database w;
     clip_files := x |}.

(** [get_camera_info]: the cache is filled on first use. *)
Definition get_camera_info (w : World) (camera_id : nat)
    : World * option Camera :=
  match CAMERAS_CACHE w with
  | None =>
      let cache := get_cameras (database w) in
      (with_cameras_cache w (Some cache), cache !! camera_id)
  | Some cache => (w, cache !! camera_id)
  end.

(** [while buf and buf[0][0] < cutoff: buf.pop(0)]. *)
Fixpoint evict (cutoff : Q) (buf : list (Q * Frame)) : list (Q * Frame) :=
  match buf with
  | [] => []
  | (t, frame) :: rest =>
      if Qltb t cutoff then evict cutoff rest else (t, frame) :: rest
  end.

(** [update_frame_buffer]; [now] is its [time.time()]. *)
Definition update_frame_buffer (now : Q) (camera_id : nat) (frame : Frame)
    (w : World) : World :=
  let buf := default [] (FRAME_BUFFERS w !! camera_id) in
  let buf := buf ++ [(now, frame)] in
  let cutoff := (now - CLIP_BUFFER_SEC)%Q in
  with_frame_buffers w (<[camera_id := evict cutoff buf]> (FRAME_BUFFERS w)).

(** The buffered samples from [start_time] to [end_time], in buffer order. *)
Definition window (buf : list (Q * Frame)) (start_time end_time : Q)
    : list (Q * Frame) :=
  filter (fun s => Qle_bool start_time (fst s) && Qle_bool (fst s) end_time
                   = true) buf.

(** [selected_frames] of [save_detection_clip]: the frames of the window, or
    of the whole buffer when the window has none. *)
Definition selected_samples (buf : list (Q * Frame)) (trigger_time : Q)
    : list (Q * Frame) :=
  let start_time := (trigger_time - CLIP_BEFORE_SEC)%Q in
  let end_time := (trigger_time + CLIP_AFTER_SEC)%Q in
  match window buf start_time end_time with
  | [] => buf
  | sel => sel
  end.

Definition selected_frames (buf : list (Q * Frame)) (trigger_time : Q)
    : list Frame :=
  snd <$> selected_samples buf trigger_time.

(** [save_detection_clip]: the path of the clip written, [None] when there
    is no frame to write. *)
Definition save_detection_clip (w : World) (camera_id detection_id : nat)
    (trigger_time : Q) : World * option string :=
  match default [] (FRAME_BUFFERS w !! camera_id) with
  | [] => (w, None)
  | buf =>
      let start_time := (trigger_time - CLIP_BEFORE_SEC)%Q in
      let end_time := (trigger_time + CLIP_AFTER_SEC)%Q in
      let frames := selected_frames buf trigger_time in
      let duration := (end_time - start_time)%Q in
      let duration :=
        if Qle_bool duration 0 then CLIP_DURATION_SEC else duration in
      let fps :=
        if (1 <? length frames)%nat
        then (inject_Z (Z.of_nat (length frames)) / duration)%Q else 10%Q in
      let filename :=
        "camera" +:+ pretty camera_id +:+ "_det_" +:+ pretty detection_id
        +:+ ".mp4" in
      let save_path := path_join SAVE_DIR_CLIP filename in
      let clip := {| clip_fps := fps; clip_frames := annotate <$> frames |} in
      (with_database
         (with_clip_files w (<[save_path := clip]> (clip_files w)))
         (update_detection_clip (database w) detection_id save_path),
       Some save_path)
  end.

(** [handle_pending_clips]; [now] is its [time.time()]. *)
Definition handle_pending_clips (now : Q) (camera_id : nat) (w : World)
    : World :=
  match PENDING_CLIPS w !! camera_id with
  | None => w
  | Some pending =>
      let trigger_time := pc_trigger_time pending in
      if Qle_bool (trigger_time + CLIP_AFTER_SEC)%Q now then
        let w1 := fst (save_detection_clip w camera_id
                         (pc_detection_id pending) trigger_time) in
        with_pending_clips w1 (delete camera_id (PENDING_CLIPS w1))
      else w
  end.

(** The winning class of an observation and its confidence: fire unless
    smoke is strictly more confident. *)
Definition winning_class (info : DetectionInfo) : string * Q :=
  if Qle_bool (max_smoke_confidence info) (max_fire_confidence info)
  then ("fire", max_fire_confidence info)
  else ("smoke", max_smoke_confidence info).

Definition class_threshold (log_type : string) : Q :=
  if decide (log_type = "fire") then FIRE_CONFIDENCE_THRESHOLD
  else SMOKE_CONFIDENCE_THRESHOLD.

Definition alert_message (log_type location : string) (confidence : Q)
    : string :=
  upper log_type +:+ " detected at " +:+ location +:+ " - Confidence: "
  +:+ format_percent confidence.

(** [process_detection_results]: [timestamp] is the formatted
    [datetime.now()] of the image name and [trigger_time] the [time.time()]
    of the pending clip.  The annotated image written to [save_path] is not
    kept.  [None] is the TypeError of [camera['location']] on an unknown
    camera. *)
Definition process_detection_results (w : World) (timestamp : string)
    (trigger_time : Q) (results : list (list Box)) (camera_id : nat)
    (save_image : bool) : option (World * DetectionInfo) :=
  let detection_info := scan_results results in
  if save_image && (has_fire detection_info || has_smoke detection_info) then
    let '(log_type, confidence) := winning_class detection_info in
    let threshold := class_threshold log_type in
    if Qle_bool threshold confidence then
      let save_name :=
        "camera" +:+ pretty camera_id +:+ "_" +:+ log_type +:+ "_"
        +:+ timestamp +:+ ".jpg" in
      let save_path := path_join SAVE_DIR_IMG save_name in
      let '(w1, camera) := get_camera_info w camera_id in
      match camera with
      | None => None
      | Some camera =>
          let '(d1, detection_id) :=
            log_detection (database w1) camera_id log_type confidence
              save_path (cam_location camera) (cam_latitude camera)
              (cam_longitude camera) (cam_name camera) in
          let d2 :=
            if Qle_bool 0.85 confidence then
              let alert_level :=
                if decide (log_type = "fire") then "critical"
                else "warning" in
              let message :=
                alert_message log_type (cam_location camera) confidence in
              add_activity (fst (create_alert d1 detection_id alert_level
                                   message))
                ("ALERT: " +:+ message)
            else d1 in
          let pending := {| pc_detection_id := detection_id;
                            pc_trigger_time := trigger_time |} in
          Some (with_pending_clips (with_database w1 d2)
                  (<[camera_id := pending]> (PENDING_CLIPS w1)),
                with_detection_id detection_info detection_id)
      end
    else Some (w, detection_info)
  else Some (w, detection_info).

(** A classified frame of the capture loop with what the clocks show while
    it is handled; [cap_results] is [model.predict] on the frame, which the
    loop asks for on every fifth frame only. *)
Record Capture := {
  cap_frame : Frame;
  cap_results : list (list Box);
  cap_time_buffer : Q;
  cap_time_pending : Q;
  cap_timestamp : string;
  cap_time_trigger : Q }.

(** The gate, run for a camera on every fifth frame: the same statements in
    [detect_from_webcam] and, for each of the two cameras, in
    [detect_dual_cameras].  It returns the new cooldown counter and the
    observation. *)
Definition gate (w : World) (camera_id : nat) (detection_cooldown : Z)
    (c : Capture) : option (World * Z * DetectionInfo) :=
  let should_save := (detection_cooldown <=? 0)%Z in
  match process_detection_results w (cap_timestamp c) (cap_time_trigger c)
          (cap_results c) camera_id should_save with
  | None => None
  | Some (w1, detection_info) =>
      let cooldown1 :=
        match detection_id detection_info with
        | Some (S _) => 300%Z
        | _ => detection_cooldown
        end in
      let cooldown2 :=
        if (0 <? cooldown1)%Z then (cooldown1 - 1)%Z else cooldown1 in
      Some (w1, cooldown2, detection_info)
  end.

(** The local variables of [detect_from_webcam] with the world. *)
Record LoopState := {
  ls_world : World;
  frame_count : Z;
  detection_cooldown : Z;
  last_frame_save : Z }.

(** One turn of the loop of [detect_from_webcam] on a frame that was read.
    The live image, the window and the temperature column of camera 2 are
    display only and not kept. *)
Definition webcam_iteration (camera_id : nat) (s : LoopState) (c : Capture)
    : option LoopState :=
  let w1 := update_frame_buffer (cap_time_buffer c) camera_id (cap_frame c)
              (ls_world s) in
  let w2 := handle_pending_clips (cap_time_pending c) camera_id w1 in
  let frame_count := (frame_count s + 1)%Z in
  let last_frame_save :=
    if (10 <=? frame_count - last_frame_save s)%Z then frame_count
    else last_frame_save s in
  if (frame_count mod 5 =? 0)%Z then
    match gate w2 camera_id (detection_cooldown s) c with
    | None => None
    | Some (w3, cooldown, _) =>
        Some {| ls_world := w3; frame_count := frame_count;
                detection_cooldown := cooldown;
                last_frame_save := last_frame_save |}
    end
  else
    Some {| ls_world := w2; frame_count := frame_count;
            detection_cooldown := detection_cooldown s;
            last_frame_save := last_frame_save |}.

(** The loop, over the frames read until it is left. *)
Fixpoint webcam_run (camera_id : nat) (s : LoopState) (cs : list Capture)
    : option LoopState :=
  match cs with
  | [] => Some s
  | c :: rest =>
      match webcam_iteration camera_id s c with
      | None => None
      | Some s1 => webcam_run camera_id s1 rest
      end
  end.

(** The local variables of [detect_dual_cameras] with the world. *)
Record DualState := {
  ds_world : World;
  ds_frame_count : Z;
  detection_cooldown_1 : Z;
  detection_cooldown_2 : Z;
  ds_last_frame_save : Z }.

(** One turn of the loop of [detect_dual_cameras]: [c1] is the frame read
    from camera 1, [c2] the one read from camera 2 when there is one. *)
Definition dual_iteration (has_camera2 : bool) (s : DualState)
    (c1 : Capture) (c2 : option Capture) : option DualState :=
  let frame_count := (ds_frame_count s + 1)%Z in
  let w1 := update_frame_buffer (cap_time_buffer c1) 1 (cap_frame c1)
              (ds_world s) in
  let w2 := handle_pending_clips (cap_time_pending c1) 1 w1 in
  let last_frame_save :=
    if (10 <=? frame_count - ds_last_frame_save s)%Z then frame_count
    else ds_last_frame_save s in
  let gated := (frame_count mod 5 =? 0)%Z in
  match (if gated
         then '(w, cd, _) ← gate w2 1 (detection_cooldown_1 s) c1;
              Some (w, cd)
         else Some (w2, detection_cooldown_1 s)) with
  | None => None
  | Some (w3, cooldown_1) =>
      match (if has_camera2 then c2 else None) with
      | None =>
          Some {| ds_world := w3; ds_frame_count := frame_count;
                  detection_cooldown_1 := cooldown_1;
                  detection_cooldown_2 := detection_cooldown_2 s;
                  ds_last_frame_save := last_frame_save |}
      | Some c2 =>
          let w4 := update_frame_buffer (cap_time_buffer c2) 2
                      (cap_frame c2) w3 in
          let w5 := handle_pending_clips (cap_time_pending c2) 2 w4 in
          match (if gated
                 then '(w, cd, _) ← gate w5 2 (detection_cooldown_2 s) c2;
                      Some (w, cd)
                 else Some (w5, detection_cooldown_2 s)) with
          | None => None
          | Some (w6, cooldown_2) =>
              Some {| ds_world := w6; ds_frame_count := frame_count;
                      detection_cooldown_1 := cooldown_1;
                      detection_cooldown_2 := cooldown_2;
                      ds_last_frame_save := last_frame_save |}
          end
      end
  end.

End Detection.

Arguments Build_Clip {Frame}.
Arguments clip_fps {Frame}.
Arguments clip_frames {Frame}.
Arguments Build_World {Frame}.
Arguments FRAME_BUFFERS {Frame}.
Arguments PENDING_CLIPS {Frame}.
Arguments CAMERAS_CACHE {Frame}.
Arguments database {Frame}.
Arguments clip_files {Frame}.
Arguments with_frame_buffers {Frame}.
Arguments with_pending_clips {Frame}.
Arguments with_cameras_cache {Frame}.
Arguments with_database {Frame}.
Arguments with_clip_files {Frame}.
Arguments get_camera_info {Frame}.
Arguments evict {Frame}.
Arguments update_frame_buffer {Frame}.
Arguments window {Frame}.
Arguments selected_samples {Frame}.
Arguments selected_frames {Frame}.
Arguments save_detection_clip {Frame}.
Arguments handle_pending_clips {Frame}.
Arguments process_detection_results {Frame}.
Arguments Build_Capture {Frame}.
Arguments cap_frame {Frame}.
Arguments cap_results {Frame}.
Arguments cap_time_buffer {Frame}.
Arguments cap_time_pending {Frame}.
Arguments cap_timestamp {Frame}.
Arguments cap_time_trigger {Frame}.
Arguments gate {Frame}.
Arguments Build_LoopState {Frame}.
Arguments ls_world {Frame}.
Arguments frame_count {Frame}.
Arguments detection_cooldown {Frame}.
Arguments last_frame_save {Frame}.
Arguments webcam_iteration {Frame}.
Arguments webcam_run {Frame}.
Arguments Build_DualState {Frame}.
Arguments ds_world {Frame}.
Arguments ds_frame_count {Frame}.
Arguments detection_cooldown_1 {Frame}.
Arguments detection_cooldown_2 {Frame}.
Arguments ds_last_frame_save {Frame}.
Arguments dual_iteration {Frame}.

(** ** Runs and properties the statements below are about *)

(** The buffer of a camera: [FRAME_BUFFERS.get(camera_id, [])]. *)
Definition buffer_of {Frame} (w : World Frame) (camera_id : nat)
    : list (Q * Frame) :=
  default [] (FRAME_BUFFERS w !! camera_id).

(** A sequence of appends to the buffer of one camera, each with the time it
    is made at. *)
Definition append_all {Frame} (camera_id : nat) (w : World Frame)
    (appends : list (Q * Frame)) : World Frame :=
  foldl (fun w a => update_frame_buffer (fst a) camera_id (snd a) w)
        w appends.

(** Samples in capture-time order. *)
Definition time_ordered {Frame} (samples : list (Q * Frame)) : Prop :=
  StronglySorted (fun a b => (fst a <= fst b)%Q) samples.

(** SELECT * FROM firefighter_stats WHERE firefighter_id = ?, then
    [fetchone()], as in [get_firefighter_stats]. *)
Definition fetch_firefighter_stats (st : list FirefighterStats)
    (firefighter_id : nat) : option FirefighterStats :=
  head (filter (fun r => fs_firefighter_id r = firefighter_id) st).

(** The row of a firefighter that an UPDATE of [_update_firefighter_stats]
    starts from: the stored one, or the all-default row that INSERT OR IGNORE
    has just made. *)
Definition stats_before (st : list FirefighterStats) (firefighter_id : nat)
    (today : string) : FirefighterStats :=
  default {| fs_id := next_rowid (fs_id <$> st);
             fs_firefighter_id := firefighter_id;
             total_responded := 0; total_acknowledged := 0;
             total_alerts_today := 0; avg_response_time_seconds := 0;
             last_response_at := None; stats_date := Some today |}
          (fetch_firefighter_stats st firefighter_id).

(** What every row written by one broadcast has in common. *)
Definition broadcast_row_of (station_id alert_id detection_id : nat)
    (r : FirefighterAlert) : Prop :=
  fa_status r = "pending" /\ fa_alert_id r = alert_id
  /\ fa_detection_id r = detection_id /\ fa_station_id r = station_id
  /\ fa_response_type r = None /\ fa_responded_at r = None.

(** An observation the gate lets through when it is not cooling down: a
    class was seen and the winning confidence reaches its threshold. *)
Definition qualifies (info : DetectionInfo) : bool :=
  (has_fire info || has_smoke info)
  && Qle_bool (class_threshold (fst (winning_class info)))
              (snd (winning_class info)).

(** The cooldown counter of a camera after consecutive gate invocations, each
    run in the world as the loop has left it by then. *)
Fixpoint cooldown_after {Frame} (format_percent : Q -> string)
    (camera_id : nat) (cooldown : Z)
    (invocations : list (World Frame * Capture Frame)) : option Z :=
  match invocations with
  | [] => Some cooldown
  | (w, c) :: rest =>
      match gate format_percent w camera_id cooldown c with
      | None => None
      | Some (_, cooldown1, _) =>
          cooldown_after format_percent camera_id cooldown1 rest
      end
  end.

(** The ids of the detections logged so far. *)
Definition detection_ids {Frame} (w : World Frame) : list nat :=
  det_id <$> detections (database w).

(** ** Data for the worked examples *)

Module Examples.

(** Timestamps as the examples write them, YYYY-MM-DD?HH:MM:SS with an
    optional fraction of six digits, read as seconds since 1970-01-01; any
    other text does not parse.  It stands for [datetime.fromisoformat] on
    the timestamps the store and [isoformat()] produce. *)
Definition digit (c : ascii) : option Z :=
  let n := nat_of_ascii c in
  if (48 <=? n)%nat && (n <=? 57)%nat then Some (Z.of_nat (n - 48)) else None.

Fixpoint number_from (acc : Z) (s : string) : option Z :=
  match s with
  | EmptyString => Some acc
  | String c r =>
      match digit c with
      | Some d => number_from (10 * acc + d) r
      | None => None
      end
  end.

Definition number (s : string) : option Z :=
  match s with
  | EmptyString => None
  | _ => number_from 0 s
  end.

Definition days_from_civil (y m d : Z) : Z :=
  let y := if (m <=? 2)%Z then (y - 1)%Z else y in
  let era := (y / 400)%Z in
  let yoe := (y - era * 400)%Z in
  let mp := if (m <=? 2)%Z then (m + 9)%Z else (m - 3)%Z in
  let doy := ((153 * mp + 2) / 5 + d - 1)%Z in
  let doe := (yoe * 365 + yoe / 4 - yoe / 100 + doy)%Z in
  (era * 146097 + doe - 719468)%Z.

Definition iso_seconds (s : string) : option Q :=
  let field i n := number (substring i n s) in
  let sep c i := bool_decide (get i s = Some c) in
  let fraction :=
    if (String.length s =? 19)%nat then Some 0%Z
    else if (String.length s =? 26)%nat && sep "."%char 19%nat
         then field 20%nat 6%nat
         else None in
  match field 0%nat 4%nat, field 5%nat 2%nat, field 8%nat 2%nat,
        field 11%nat 2%nat, field 14%nat 2%nat, field 17%nat 2%nat,
        fraction with
  | Some y, Some mo, Some d, Some h, Some mi, Some se, Some us =>
      if sep "-"%char 4%nat && sep "-"%char 7%nat && sep ":"%char 13%nat
         && sep ":"%char 16%nat
         && (1 <=? mo)%Z && (mo <=? 12)%Z && (1 <=? d)%Z && (d <=? 31)%Z
         && (h <=? 23)%Z && (mi <=? 59)%Z && (se <=? 59)%Z
      then Some (inject_Z (86400 * days_from_civil y mo d + 3600 * h
                           + 60 * mi + se)
                 + inject_Z us / 1000000)%Q
      else None
  | _, _, _, _, _, _, _ => None
  end.

(** A percentage with one decimal, rounded half to even. *)
Definition percent1 (q : Q) : string :=
  let t := (q * 1000)%Q in
  let f := Qfloor t in
  let r := (t - inject_Z f)%Q in
  let n := if Qltb r (1 # 2) then f
           else if Qltb (1 # 2) r then (f + 1)%Z
           else if Z.even f then f else (f + 1)%Z in
  pretty (n / 10)%Z +:+ "." +:+ pretty (n mod 10)%Z +:+ "%".

Definition no_rows : DB :=
  {| cameras := ∅; detections := []; alerts := []; activity := [];
     firefighters := []; firefighter_alerts := [];
     firefighter_stats := [] |}.

(** A station of four, three of them online, and one firefighter of another
    station. *)
Definition roster : list Firefighter :=
  [ {| ff_id := 1; ff_name := "Rodriguez"; ff_phone := "+63-917-111-0001";
       ff_station := 1; ff_status := "online" |};
    {| ff_id := 2; ff_name := "Martinez"; ff_phone := "+63-917-111-0002";
       ff_station := 1; ff_status := "offline" |};
    {| ff_id := 3; ff_name := "Santos"; ff_phone := "+63-917-111-0003";
       ff_station := 1; ff_status := "online" |};
    {| ff_id := 4; ff_name := "Garcia"; ff_phone := "+63-917-222-0001";
       ff_station := 2; ff_status := "online" |};
    {| ff_id := 5; ff_name := "Reyes"; ff_phone := "+63-917-111-0004";
       ff_station := 1; ff_status := "online" |} ].

Definition station_db : DB :=
  {| cameras := ∅; detections := []; alerts := []; activity := [];
     firefighters := roster; firefighter_alerts := [];
     firefighter_stats := [] |}.

(** Three alerts broadcast to station 1 at 10:00:00, 10:05:00 and 10:10:00:
    firefighter 1 holds the rows 1, 4 and 7. *)
Definition three_alerts : DB :=
  let d1 := fst (broadcast_alert_to_station station_db 1 11 21 "fire"
                   "Building A - Warehouse" "Dock" 0.91
                   (fun _ => "2026-03-01 10:00:00")) in
  let d2 := fst (broadcast_alert_to_station d1 1 12 22 "smoke"
                   "Building A - Warehouse" "Dock" 0.88
                   (fun _ => "2026-03-01 10:05:00")) in
  fst (broadcast_alert_to_station d2 1 13 23 "fire"
         "Building A - Warehouse" "Dock" 0.97
         (fun _ => "2026-03-01 10:10:00")).

(** Firefighter 1 has responded to row 1 ten seconds after receiving it. *)
Definition one_response : DB :=
  respond_to_firefighter_alert iso_seconds three_alerts 1 "responded"
    "2026-03-01T10:00:10" "2026-03-01".

(** A row whose [received_at] is not a timestamp. *)
Definition garbled_alert : DB :=
  fst (create_firefighter_alert station_db 11 21 3 1 "fire"
         "Building A - Warehouse" "Dock" 0.91 "yesterday").

(** Camera 1 as [init_database] installs it, and nothing else. *)
Definition camera1 : Camera :=
  {| cam_name := "Camera 1 - Visual ML";
     cam_location := "Building A - Warehouse";
     cam_latitude := Some 14.6005%Q; cam_longitude := Some 120.9850%Q |}.

Definition start : World nat :=
  {| FRAME_BUFFERS := ∅; PENDING_CLIPS := ∅; CAMERAS_CACHE := None;
     database := {| cameras := {[ 1%nat := camera1 ]}; detections := [];
                    alerts := []; activity := []; firefighters := [];
                    firefighter_alerts := []; firefighter_stats := [] |};
     clip_files := ∅ |}.

(** Frame [k], read at time [t] with the classifier's boxes on it. *)
Definition shot (k : nat) (t : Q) (boxes : list Box) : Capture nat :=
  {| cap_frame := k; cap_results := [boxes]; cap_time_buffer := t;
     cap_time_pending := t; cap_timestamp := "20260301_100000";
     cap_time_trigger := t |}.

Definition fire (confidence : Q) : Box :=
  {| box_class_name := "Fire"; box_conf := confidence |}.
Definition smoke (confidence : Q) : Box :=
  {| box_class_name := "smoke"; box_conf := confidence |}.

Definition fresh_loop (w : World nat) : LoopState nat :=
  {| ls_world := w; frame_count := 0; detection_cooldown := 0;
     last_frame_save := 0 |}.

Definition webcam (s : LoopState nat) (cs : list (Capture nat))
    : LoopState nat :=
  default s (webcam_run (fun fr => fr) percent1 1 s cs).

(** A first session on camera 1: four frames with nothing on them ... *)
Definition four_frames : LoopState nat :=
  webcam (fresh_loop start)
    [ shot 1 100.0 []; shot 2 100.1 []; shot 3 100.2 []; shot 4 100.3 [] ].

(** ... and a fifth that shows fire at 0.90 and is logged as detection 1;
    the session is left right after. *)
Definition first_session : LoopState nat :=
  webcam four_frames [ shot 5 100.4 [fire 0.90] ].

(** A second session one second later, [PENDING_CLIPS] being a global: its
    fifth frame shows fire at 0.95 and is logged as detection 2 ... *)
Definition second_session : LoopState nat :=
  webcam (fresh_loop (ls_world first_session))
    [ shot 6 101.0 []; shot 7 101.1 []; shot 8 101.2 []; shot 9 101.3 [];
      shot 10 101.4 [fire 0.95] ].

(** ... and it runs on until the clip is written. *)
Definition second_session_done : LoopState nat :=
  webcam second_session
    [ shot 11 102.0 []; shot 12 103.0 []; shot 13 104.0 [];
      shot 14 105.0 []; shot 15 105.5 [fire 0.95] ].

(** The gate run once more, not cooling down, on the world the first
    session has left. *)
Definition regated : World nat * Z * DetectionInfo :=
  default (start, 0%Z, no_detection)
    (gate percent1 (ls_world first_session) 1 0
       (shot 10 101.4 [fire 0.95])).

End Examples.

(** ** The rest of the two files *)

(** [refresh_camera_cache]: the cache is read again from the store. *)
Definition refresh_camera_cache {Frame} (w : World Frame) : World Frame :=
  with_cameras_cache w (Some (get_cameras (database w))).

(** The two tests [frame_count - last_frame_save >= 10] of one turn of the
    loop of [detect_dual_cameras]: whether the live image of camera 1 and
    that of camera 2 are written, and [last_frame_save] after the turn.
    Only the block of camera 1 assigns [last_frame_save], and it comes
    first. *)
Definition dual_live_frames (frame_count last_frame_save : Z)
    : bool * bool * Z :=
  let save1 := (10 <=? frame_count - last_frame_save)%Z in
  let last_frame_save1 := if save1 then frame_count else last_frame_save in
  let save2 := (10 <=? frame_count - last_frame_save1)%Z in
  (save1, save2, last_frame_save1).

(** [update_alert_status]: UPDATE alerts SET status WHERE id. *)
Definition update_alert_status (d : DB) (alert_id : nat) (status : string)
    : DB :=
  with_alerts d
    ((fun a => if decide (al_id a = alert_id)
               then {| al_id := al_id a;
                       al_detection_id := al_detection_id a;
                       al_alert_level := al_alert_level a;
                       al_message := al_message a; al_status := status |}
               else a) <$> alerts d).

Definition with_firefighters (d : DB) (x : list Firefighter) : DB :=
  {| cameras := cameras d; detections := detections d; alerts := alerts d;
     activity := activity d; firefighters := x;
     firefighter_alerts := firefighter_alerts d;
     firefighter_stats := firefighter_stats d |}.

(** [add_firefighter].  Rows of [firefighters] can be deleted, so the id of
    a new row is one more than the largest id the table has ever held:
    [seq] is that number as the store keeps it (sqlite_sequence), and the id
    returned is its new value.  The status takes its default, 'online'. *)
Definition add_firefighter (d : DB) (seq : nat) (name phone : string)
    (station : nat) : DB * nat :=
  let new_id := S (Nat.max seq (max_id (ff_id <$> firefighters d))) in
  (with_firefighters d
     (firefighters d ++
      [ {| ff_id := new_id; ff_name := name; ff_phone := phone;
           ff_station := station; ff_status := "online" |} ]),
   new_id).

(** [update_firefighter]: UPDATE firefighters SET name, phone, station
    WHERE id. *)
Definition update_firefighter (d : DB) (firefighter_id : nat)
    (name phone : string) (station : nat) : DB :=
  with_firefighters d
    ((fun f => if decide (ff_id f = firefighter_id)
               then {| ff_id := ff_id f; ff_name := name; ff_phone := phone;
                       ff_station := station; ff_status := ff_status f |}
               else f) <$> firefighters d).

(** [delete_firefighter]: DELETE FROM firefighters WHERE id. *)
Definition delete_firefighter (d : DB) (firefighter_id : nat) : DB :=
  with_firefighters d
    (filter (fun f => ff_id f <> firefighter_id) (firefighters d)).

(** The calls that write to [firefighters], and a sequence of them run on a
    store and its sequence number. *)
Inductive RosterCall :=
  | AddFirefighter (name phone : string) (station : nat)
  | UpdateFirefighter (firefighter_id : nat) (name phone : string)
      (station : nat)
  | DeleteFirefighter (firefighter_id : nat).

Definition roster_call (s : DB * nat) (c : RosterCall) : DB * nat :=
  match c with
  | AddFirefighter name phone station =>
      add_firefighter (fst s) (snd s) name phone station
  | UpdateFirefighter i name phone station =>
      (update_firefighter (fst s) i name phone station, snd s)
  | DeleteFirefighter i => (delete_firefighter (fst s) i, snd s)
  end.

Definition roster_calls (s : DB * nat) (cs : list RosterCall) : DB * nat :=
  foldl roster_call s cs.

(** Python's truth value of an id argument that defaults to [None]: [None]
    and 0 are false. *)
Definition truthy (i : option nat) : bool :=
  match i with
  | Some (S _) => true
  | _ => false
  end.

(** ORDER BY received_at DESC, a comparison of texts byte by byte. *)
Definition received_not_before (a b : FirefighterAlert) : Prop :=
  String.leb (fa_received_at b) (fa_received_at a) = true.

#[global] Instance received_not_before_dec a b :
  Decision (received_not_before a b).
Proof. unfold received_not_before. apply _. Defined.

(** One row put in its place among rows already in order: before the first
    row that was received no later. *)
Fixpoint insert_by_received (r : FirefighterAlert)
    (rows : list FirefighterAlert) : list FirefighterAlert :=
  match rows with
  | [] => [r]
  | x :: rest =>
      if decide (received_not_before r x) then r :: x :: rest
      else x :: insert_by_received r rest
  end.

(** The rows latest first; rows received at the same time stay in the order
    of the table, as they come out of SQLite's sorter. *)
Definition order_by_received_desc (rows : list FirefighterAlert)
    : list FirefighterAlert :=
  foldr insert_by_received [] rows.

(** The WHERE clause shared by the two queries below, without its test of
    the status: by firefighter when that id is given, else by station when
    that one is given, else every row. *)
Definition alert_selected (firefighter_id station_id : option nat)
    (r : FirefighterAlert) : Prop :=
  if truthy firefighter_id then Some (fa_firefighter_id r) = firefighter_id
  else if truthy station_id then Some (fa_station_id r) = station_id
  else True.

#[global] Instance alert_selected_dec firefighter_id station_id r :
  Decision (alert_selected firefighter_id station_id r).
Proof. unfold alert_selected. repeat case_match; apply _. Defined.

(** [get_pending_firefighter_alerts]. *)
Definition get_pending_firefighter_alerts (d : DB)
    (firefighter_id station_id : option nat) : list FirefighterAlert :=
  order_by_received_desc
    (filter (fun r => alert_selected firefighter_id station_id r
                      /\ fa_status r = "pending")
            (firefighter_alerts d)).

(** [get_firefighter_alert_history], with its LIMIT. *)
Definition get_firefighter_alert_history (d : DB)
    (firefighter_id station_id : option nat) (limit : nat)
    : list FirefighterAlert :=
  take limit
    (order_by_received_desc
       (filter (fun r => alert_selected firefighter_id station_id r
                         /\ fa_status r <> "pending")
               (firefighter_alerts d))).

(** What [get_firefighter_stats] returns: the row of a firefighter, the
    aggregates of a station (each NULL when no row is aggregated), or the
    dict of zeros it ends with. *)
Inductive StatsReport :=
  | ReportRow (row : FirefighterStats)
  | ReportStation (responded acknowledged alerts_today : option Z)
      (avg_seconds : option Q)
  | ReportDefault.

(** SUM and AVG over the rows selected: NULL over no row. *)
Definition sql_sum (xs : list Z) : option Z :=
  match xs with
  | [] => None
  | _ => Some (foldr Z.add 0%Z xs)
  end.

Definition sql_avg (xs : list Q) : option Q :=
  match xs with
  | [] => None
  | _ => Some (foldr Qplus 0%Q xs / inject_Z (Z.of_nat (length xs)))%Q
  end.

(** firefighter_stats fs JOIN firefighters f ON fs.firefighter_id = f.id
    WHERE f.station = ?: the stats rows, once per firefighter row they
    join. *)
Definition station_stats_rows (d : DB) (station : nat)
    : list FirefighterStats :=
  fs ← firefighter_stats d;
  f ← firefighters d;
  if decide (fs_firefighter_id fs = ff_id f /\ ff_station f = station)
  then [fs] else [].

(** [get_firefighter_stats].  The row fetched after the aggregate query is
    always there, NULLs and all, so that branch never falls through to the
    zeros; the branch of a firefighter does when it finds no row. *)
Definition get_firefighter_stats (d : DB)
    (firefighter_id station_id : option nat) : StatsReport :=
  if truthy firefighter_id then
    match fetch_firefighter_stats (firefighter_stats d)
            (default 0%nat firefighter_id) with
    | Some row => ReportRow row
    | None => ReportDefault
    end
  else if truthy station_id then
    let rows := station_stats_rows d (default 0%nat station_id) in
    ReportStation (sql_sum (total_responded <$> rows))
      (sql_sum (total_acknowledged <$> rows))
      (sql_sum (total_alerts_today <$> rows))
      (sql_avg (avg_response_time_seconds <$> rows))
  else ReportDefault.

(** Row of [stats], the daily counters. *)
Record DailyStats := {
  day_id : nat;
  day_date : string;
  detections_today : Z;
  fire_today : Z;
  smoke_today : Z;
  avg_response_time : Q }.

Definition fresh_day (today : string) : DailyStats :=
  {| day_id := 1; day_date := today; detections_today := 0;
     fire_today := 0; smoke_today := 0; avg_response_time := 3.2 |}.

(** A row that a new row (1, today) cannot stand beside: [id] is the key
    and [date] is UNIQUE. *)
Definition day_conflict (today : string) (r : DailyStats) : Prop :=
  day_id r = 1%nat \/ day_date r = today.

(** INSERT OR IGNORE INTO stats (id, date) VALUES (1, today). *)
Definition insert_or_ignore_day (tbl : list DailyStats) (today : string)
    : list DailyStats :=
  if decide (Exists (day_conflict today) tbl) then tbl
  else tbl ++ [fresh_day today].

(** The SET clause of [_update_daily_stats]. *)
Definition count_detection (detection_type : string) (r : DailyStats)
    : DailyStats :=
  {| day_id := day_id r; day_date := day_date r;
     detections_today := detections_today r + 1;
     fire_today :=
       fire_today r + (if decide (detection_type = "fire") then 1 else 0);
     smoke_today :=
       smoke_today r + (if decide (detection_type = "smoke") then 1 else 0);
     avg_response_time := avg_response_time r |}.

(** [_update_daily_stats]; [today] is the date it reads. *)
Definition _update_daily_stats (tbl : list DailyStats) (today : string)
    (detection_type : string) : list DailyStats :=
  (fun r => if decide (day_date r = today)
            then count_detection detection_type r else r)
    <$> insert_or_ignore_day tbl today.

(** [reset_daily_stats]: INSERT OR REPLACE removes the rows in conflict
    and inserts the new one. *)
Definition reset_daily_stats (tbl : list DailyStats) (today : string)
    : list DailyStats :=
  filter (fun r => ~ day_conflict today r) tbl ++ [fresh_day today].

(** SELECT * FROM stats WHERE date = ?, then [fetchone()], as [get_stats]
    does after its own INSERT OR IGNORE. *)
Definition fetch_day (tbl : list DailyStats) (today : string)
    : option DailyStats :=
  head (filter (fun r => day_date r = today) tbl).

(** A [datetime], by its fields. *)
Record DateTime := {
  dt_year : Z; dt_month : Z; dt_day : Z;
  dt_hour : Z; dt_minute : Z; dt_second : Z; dt_microsecond : Z }.

#[global] Instance DateTime_eq_dec : EqDecision DateTime.
Proof. solve_decision. Defined.

(** [now.replace(minute=(now.minute // 30) * 30, second=0,
    microsecond=0)]. *)
Definition interval_start_of (now : DateTime) : DateTime :=
  {| dt_year := dt_year now; dt_month := dt_month now;
     dt_day := dt_day now; dt_hour := dt_hour now;
     dt_minute := (dt_minute now / 30) * 30;
     dt_second := 0; dt_microsecond := 0 |}.

(** Row of [detection_history]; [interval_start] holds the datetime whose
    [isoformat()] the code stores, and is UNIQUE. *)
Record HistoryRow := {
  dh_id : nat;
  interval_start : DateTime;
  fire_count : Z;
  smoke_count : Z }.

(** The DO UPDATE clause of [_update_detection_history]. *)
Definition add_to_interval (fire smoke : Z) (r : HistoryRow) : HistoryRow :=
  {| dh_id := dh_id r; interval_start := interval_start r;
     fire_count := fire_count r + fire;
     smoke_count := smoke_count r + smoke |}.

(** [_update_detection_history]: INSERT ... ON CONFLICT(interval_start) DO
    UPDATE; [now] is its [datetime.now()].  A new row is numbered after the
    rows of the table; the numbers that AUTOINCREMENT has spent on inserts
    that ended in the update are not kept, so [dh_id] may be lower than the
    stored id, and no property below rests on its value. *)
Definition _update_detection_history (tbl : list HistoryRow)
    (now : DateTime) (detection_type : string) : list HistoryRow :=
  let start := interval_start_of now in
  let fire := (if decide (detection_type = "fire") then 1 else 0)%Z in
  let smoke := (if decide (detection_type = "smoke") then 1 else 0)%Z in
  if decide (Exists (fun r => interval_start r = start) tbl) then
    (fun r => if decide (interval_start r = start)
              then add_to_interval fire smoke r else r) <$> tbl
  else
    tbl ++ [ {| dh_id := next_rowid (dh_id <$> tbl);
                interval_start := start;
                fire_count := fire; smoke_count := smoke |} ].

(** The two tests on a box in [process_detection_results]: the second is
    only reached when the first fails. *)
Definition is_fire_box (box : Box) : bool :=
  contains "fire" (lower (box_class_name box)).

Definition is_smoke_box (box : Box) : bool :=
  negb (contains "fire" (lower (box_class_name box)))
  && contains "smoke" (lower (box_class_name box)).

(** The counts stored for a half hour, 0 and 0 when it has no row. *)
Definition interval_counts (tbl : list HistoryRow) (start : DateTime)
    : Z * Z :=
  match head (filter (fun r => interval_start r = start) tbl) with
  | Some r => (fire_count r, smoke_count r)
  | None => (0%Z, 0%Z)
  end.

(** The name [save_detection_clip] gives the clip of a detection. *)
Definition clip_path_of (camera_id detection_id : nat) : string :=
  path_join SAVE_DIR_CLIP
    ("camera" +:+ pretty camera_id +:+ "_det_" +:+ pretty detection_id
     +:+ ".mp4").

(** What a step made for one camera leaves alone: the buffer and the
    pending clip of every other camera. *)
Definition others_kept {Frame} (camera_id : nat) (w w1 : World Frame)
    : Prop :=
  forall other, other <> camera_id ->
    buffer_of w1 other = buffer_of w other
    /\ PENDING_CLIPS w1 !! other = PENDING_CLIPS w !! other.

(** ** Data for the further examples *)

Module Cases.

Import Examples.

(** Ten frames of camera 1, one every half second from 100.0 s on. *)
Definition ten_frames : World nat :=
  append_all 1 start
    [ (100.0%Q, 1%nat); (100.5%Q, 2%nat); (101.0%Q, 3%nat);
      (101.5%Q, 4%nat); (102.0%Q, 5%nat); (102.5%Q, 6%nat);
      (103.0%Q, 7%nat); (103.5%Q, 8%nat); (104.0%Q, 9%nat);
      (104.5%Q, 10%nat) ].

(** The dual loop before its fifth frame, nothing seen so far. *)
Definition dual_start : DualState nat :=
  {| ds_world := start; ds_frame_count := 4; detection_cooldown_1 := 0;
     detection_cooldown_2 := 0; ds_last_frame_save := 0 |}.

(** The fifth frame: camera 1 shows fire at 0.90, camera 2 gives no frame. *)
Definition dual_fifth : DualState nat :=
  default dual_start
    (dual_iteration (fun fr => fr) percent1 true dual_start
       (shot 5 100.4 [fire 0.90]) None).

(** Three firefighters are added, the first is deleted, the second moves
    to station 3, a fourth is added. *)
Definition roster_history : list RosterCall :=
  [ AddFirefighter "Rodriguez" "+63-917-111-0001" 1;
    AddFirefighter "Martinez" "+63-917-111-0002" 1;
    AddFirefighter "Garcia" "+63-917-222-0001" 2;
    DeleteFirefighter 1;
    UpdateFirefighter 2 "Martinez" "+63-917-111-0002" 3;
    AddFirefighter "Santos" "+63-917-111-0003" 1 ].

(** 10:47:13.5 and 10:31:00 on 2026-03-01. *)
Definition quarter_to_eleven : DateTime :=
  {| dt_year := 2026; dt_month := 3; dt_day := 1; dt_hour := 10;
     dt_minute := 47; dt_second := 13; dt_microsecond := 500000 |}.

Definition half_past_ten : DateTime :=
  {| dt_year := 2026; dt_month := 3; dt_day := 1; dt_hour := 10;
     dt_minute := 31; dt_second := 0; dt_microsecond := 0 |}.

Definition one_fire : list HistoryRow :=
  _update_detection_history [] quarter_to_eleven "fire".

(** The [stats] table the morning after a day with four detections, before
    any reset. *)
Definition day_before : list DailyStats :=
  foldl (fun t detection_type =>
           _update_daily_stats t "2024-05-01" detection_type)
    [] ["fire"; "smoke"; "fire"; "fire"].

End Cases.


(** * Properties *)

(** ** The frame buffer *)

Lemma Qltb_true (a b : Q) : Qltb a b = true <-> (a < b)%Q.
Proof.
  unfold Qltb. rewrite negb_true_iff.
  destruct (Qle_bool b a) eqn:E.
  - apply Qle_bool_iff in E. split; [discriminate | intros H; lra].
  - split; [intros _ | reflexivity].
    destruct (Qlt_le_dec a b) as [H | H]; [exact H |].
    apply Qle_bool_iff in H. congruence.
Qed.

Lemma Qltb_false (a b : Q) : Qltb a b = false <-> (b <= a)%Q.
Proof.
  unfold Qltb. rewrite negb_false_iff. apply Qle_bool_iff.
Qed.

Section BufferProofs.

Context {Frame : Type}.
Implicit Types (buf : list (Q * Frame)) (w : World Frame).

Lemma StronglySorted_sublist {A} (R : relation A) (l1 l2 : list A) :
  l1 `sublist_of` l2 -> StronglySorted R l2 -> StronglySorted R l1.
Proof.
  induction 1 as [| x l1 l2 Hsub IH | x l1 l2 Hsub IH]; intros H.
  - constructor.
  - apply StronglySorted_cons in H as [Hall Hs].
    apply StronglySorted_cons. split; [| by apply IH].
    rewrite Forall_forall in Hall |- *. intros y Hy. apply Hall.
    by eapply elem_of_sublist.
  - apply StronglySorted_cons in H as [_ Hs]. by apply IH.
Qed.

Lemma time_ordered_sublist buf1 buf2 :
  buf1 `sublist_of` buf2 -> time_ordered buf2 -> time_ordered buf1.
Proof. apply StronglySorted_sublist. Qed.

Lemma suffix_sublist_of buf1 buf2 :
  buf1 `suffix_of` buf2 -> buf1 `sublist_of` buf2.
Proof. intros [k ->]. by apply sublist_inserts_l. Qed.

Lemma evict_suffix cutoff buf : evict cutoff buf `suffix_of` buf.
Proof.
  induction buf as [| [t frame] rest IH]; simpl; [done |].
  destruct (Qltb t cutoff); [| done].
  by apply suffix_cons_r.
Qed.

(** On an ordered buffer the loop stops only when nothing older than the
    cutoff is left. *)
Lemma evict_retains cutoff buf :
  time_ordered buf -> Forall (fun s => (cutoff <= fst s)%Q) (evict cutoff buf).
Proof.
  induction buf as [| [t frame] rest IH]; simpl; intros H; [constructor |].
  apply StronglySorted_cons in H as [Hall Hs].
  destruct (Qltb t cutoff) eqn:E; [by apply IH |].
  apply Qltb_false in E. constructor; [done |].
  eapply Forall_impl; [exact Hall |]. simpl. intros s Hts. lra.
Qed.

(** The buffer of the camera after one append. *)
Lemma buffer_of_update now camera_id frame w :
  buffer_of (update_frame_buffer now camera_id frame w) camera_id
  = evict (now - CLIP_BUFFER_SEC)%Q (buffer_of w camera_id ++ [(now, frame)]).
Proof.
  unfold buffer_of, update_frame_buffer. simpl. by rewrite lookup_insert_eq.
Qed.

(** Appends to one camera leave the buffers of the others alone. *)
Lemma buffer_of_update_other now camera_id other frame w :
  camera_id <> other ->
  buffer_of (update_frame_buffer now camera_id frame w) other
  = buffer_of w other.
Proof.
  intros Hne. unfold buffer_of, update_frame_buffer. simpl.
  by rewrite lookup_insert_ne.
Qed.

(** Whatever was evicted, the buffer is the tail end of all that was ever
    put in it. *)
Lemma append_all_suffix camera_id appends w :
  buffer_of (append_all camera_id w appends) camera_id
  `suffix_of` buffer_of w camera_id ++ appends.
Proof.
  revert w. induction appends as [| [now frame] rest IH]; intros w.
  - simpl. by rewrite app_nil_r.
  - change (append_all camera_id w ((now, frame) :: rest))
      with (append_all camera_id
              (update_frame_buffer now camera_id frame w) rest).
    etrans; [exact (IH (update_frame_buffer now camera_id frame w)) |].
    rewrite buffer_of_update.
    replace (buffer_of w camera_id ++ (now, frame) :: rest)
      with ((buffer_of w camera_id ++ [(now, frame)]) ++ rest)
      by (by rewrite <- app_assoc).
    apply suffix_app, evict_suffix.
Qed.

Lemma append_all_snoc camera_id appends a w :
  append_all camera_id w (appends ++ [a])
  = update_frame_buffer (fst a) camera_id (snd a)
      (append_all camera_id w appends).
Proof. unfold append_all. by rewrite foldl_app. Qed.

Lemma window_sublist buf start_time end_time :
  window buf start_time end_time `sublist_of` buf.
Proof. apply sublist_filter. Qed.

Lemma selected_samples_sublist buf trigger_time :
  selected_samples buf trigger_time `sublist_of` buf.
Proof.
  unfold selected_samples.
  pose proof (window_sublist buf (trigger_time - CLIP_BEFORE_SEC)
                (trigger_time + CLIP_AFTER_SEC)) as H.
  by destruct (window buf _ _).
Qed.

(** C7. After every append of a sequence made at non-decreasing times, on a
    buffer whose earlier samples are no later than the appended ones, the
    buffer of the camera holds only samples captured within
    [CLIP_BUFFER_SEC] of the latest append, it is in capture-time order, and
    the frames extracted for a clip at any trigger time are those of a
    selection of the buffer taken in capture-time order. *)
Theorem frame_buffer_retention_and_order
    (camera_id : nat) (w : World Frame) (earlier : list (Q * Frame))
    (now : Q) (frame : Frame) :
  time_ordered (buffer_of w camera_id ++ earlier ++ [(now, frame)]) ->
  let buf := buffer_of (append_all camera_id w (earlier ++ [(now, frame)]))
               camera_id in
  Forall (fun s => (now - CLIP_BUFFER_SEC <= fst s)%Q /\ (fst s <= now)%Q) buf
  /\ time_ordered buf
  /\ forall trigger_time,
       selected_frames buf trigger_time
       = snd <$> selected_samples buf trigger_time
       /\ selected_samples buf trigger_time `sublist_of` buf
       /\ time_ordered (selected_samples buf trigger_time).
Proof.
  intros Hsorted buf.
  set (before := buffer_of (append_all camera_id w earlier) camera_id).
  assert (Hbuf : buf = evict (now - CLIP_BUFFER_SEC)%Q
                         (before ++ [(now, frame)])).
  { unfold buf. rewrite append_all_snoc. apply buffer_of_update. }
  assert (Hsuf : before ++ [(now, frame)]
                 `suffix_of` buffer_of w camera_id ++ earlier
                             ++ [(now, frame)]).
  { rewrite app_assoc. apply suffix_app, append_all_suffix. }
  assert (Hord : time_ordered (before ++ [(now, frame)])).
  { eapply time_ordered_sublist; [apply suffix_sublist_of |]; eauto. }
  assert (Hbuf_ord : time_ordered buf).
  { rewrite Hbuf. eapply time_ordered_sublist; [| exact Hord].
    apply suffix_sublist_of, evict_suffix. }
  split; [| split; [exact Hbuf_ord |]].
  - apply Forall_and. split.
    + rewrite Hbuf. by apply evict_retains.
    + rewrite Forall_forall. intros s Hs.
      assert (Hin : s ∈ before ++ [(now, frame)]).
      { eapply elem_of_sublist; [exact Hs |]. rewrite Hbuf.
        apply suffix_sublist_of, evict_suffix. }
      apply elem_of_app in Hin as [Hin | Hin].
      * apply (StronglySorted_app_1_elem_of _ _ _ s (now, frame)) in Hord;
          [exact Hord | exact Hin | apply list_elem_of_singleton; done].
      * apply list_elem_of_singleton in Hin. subst s. simpl. lra.
  - intros trigger_time. split; [reflexivity |].
    split; [apply selected_samples_sublist |].
    eapply time_ordered_sublist; [apply selected_samples_sublist | done].
Qed.

End BufferProofs.

(** ** Responses and statistics *)

Lemma with_firefighter_alerts_id (d : DB) :
  with_firefighter_alerts d (firefighter_alerts d) = d.
Proof. by destruct d. Qed.

Lemma fetch_firefighter_alert_None tbl alert_id :
  fetch_firefighter_alert tbl alert_id = None <->
  Forall (fun r => fa_id r <> alert_id) tbl.
Proof.
  unfold fetch_firefighter_alert. rewrite head_None.
  induction tbl as [| r tbl IH]; simpl.
  - split; [constructor | done].
  - rewrite filter_cons. case_decide as E.
    + split; [done |]. intros H. by apply Forall_cons in H as [? _].
    + rewrite IH, Forall_cons. tauto.
Qed.

(** The UPDATE keeps the ids, so it rewrites exactly the rows a SELECT by
    the same id returns. *)
Lemma fetch_after_update tbl alert_id other response_type now :
  fetch_firefighter_alert
    ((fun r => if decide (fa_id r = alert_id)
               then set_response response_type now r else r) <$> tbl) other
  = (if decide (alert_id = other) then set_response response_type now
     else id) <$> fetch_firefighter_alert tbl other.
Proof.
  unfold fetch_firefighter_alert.
  induction tbl as [| r tbl IH]; simpl; [reflexivity |].
  rewrite !filter_cons.
  destruct (decide (fa_id r = alert_id)) as [E | E]; simpl.
  - destruct (decide (fa_id r = other)) as [E' | E']; simpl; [| exact IH].
    rewrite decide_True by congruence. done.
  - destruct (decide (fa_id r = other)) as [E' | E']; simpl; [| exact IH].
    rewrite decide_False by congruence. done.
Qed.

Lemma update_no_match tbl alert_id response_type now :
  Forall (fun r => fa_id r <> alert_id) tbl ->
  (fun r => if decide (fa_id r = alert_id)
            then set_response response_type now r else r) <$> tbl = tbl.
Proof.
  induction 1 as [| r tbl Hr _ IH]; simpl; [done |].
  rewrite decide_False by done. f_equal. exact IH.
Qed.

Lemma filter_none {A} (P : A -> Prop) `{!forall x, Decision (P x)}
    (l : list A) :
  Forall (fun x => ~ P x) l -> filter P l = [].
Proof.
  induction 1 as [| x l Hx _ IH]; [done |].
  by rewrite filter_cons_False.
Qed.

Lemma fetch_stats_insert_or_ignore st firefighter_id today :
  fetch_firefighter_stats (insert_or_ignore_stats st firefighter_id today)
    firefighter_id
  = Some (stats_before st firefighter_id today).
Proof.
  unfold insert_or_ignore_stats, stats_before, fetch_firefighter_stats.
  case_bool_decide as Hin.
  - apply list_elem_of_fmap in Hin as [r [-> Hr]].
    assert (Hf : r ∈ filter (fun r' => fs_firefighter_id r'
                                       = fs_firefighter_id r) st)
      by (by apply list_elem_of_filter).
    destruct (filter _ st); [by apply elem_of_nil in Hf | done].
  - rewrite filter_app.
    assert (Hnil : filter (fun r => fs_firefighter_id r = firefighter_id) st
                   = []).
    { apply filter_none. rewrite Forall_forall. intros r Hr Heq. apply Hin.
      apply list_elem_of_fmap. by exists r. }
    rewrite Hnil. simpl. rewrite filter_cons. simpl.
    by rewrite decide_True.
Qed.

Lemma fetch_stats_insert_or_ignore_other st firefighter_id other today :
  firefighter_id <> other ->
  fetch_firefighter_stats (insert_or_ignore_stats st firefighter_id today)
    other
  = fetch_firefighter_stats st other.
Proof.
  intros Hne. unfold insert_or_ignore_stats, fetch_firefighter_stats.
  case_bool_decide; [done |].
  rewrite filter_app, filter_cons. simpl.
  rewrite decide_False by done. by rewrite app_nil_r.
Qed.

Lemma fetch_stats_update_where st firefighter_id other f :
  (forall r, fs_firefighter_id (f r) = fs_firefighter_id r) ->
  fetch_firefighter_stats (update_stats_where firefighter_id f st) other
  = (if decide (firefighter_id = other) then f else id)
    <$> fetch_firefighter_stats st other.
Proof.
  intros Hf. unfold fetch_firefighter_stats, update_stats_where.
  induction st as [| r st IH]; simpl; [reflexivity |].
  rewrite !filter_cons.
  destruct (decide (fs_firefighter_id r = firefighter_id)) as [E | E]; simpl.
  - rewrite Hf.
    destruct (decide (fs_firefighter_id r = other)) as [E' | E']; simpl;
      [| exact IH].
    rewrite decide_True by congruence. done.
  - destruct (decide (fs_firefighter_id r = other)) as [E' | E']; simpl;
      [| exact IH].
    rewrite decide_False by congruence. done.
Qed.

Section ResponderProofs.

Variable fromisoformat : string -> option Q.

Abbreviation respond := (respond_to_firefighter_alert fromisoformat).
Abbreviation latency := (response_time fromisoformat).
Abbreviation fetch_alert d alert_id :=
  (fetch_firefighter_alert (firefighter_alerts d) alert_id).
Abbreviation fetch_stats d firefighter_id :=
  (fetch_firefighter_stats (firefighter_stats d) firefighter_id).

(** An id that no row has: nothing is written. *)
Lemma respond_unknown_id d alert_id response_type now today :
  fetch_alert d alert_id = None ->
  respond d alert_id response_type now today = d.
Proof.
  intros Hnone. unfold respond_to_firefighter_alert. simpl.
  rewrite fetch_after_update, Hnone. simpl.
  apply fetch_firefighter_alert_None in Hnone.
  rewrite update_no_match by done. apply with_firefighter_alerts_id.
Qed.

(** The alerts table after a call, found or not. *)
Lemma respond_alerts d alert_id response_type now today :
  firefighter_alerts (respond d alert_id response_type now today)
  = (fun r => if decide (fa_id r = alert_id)
              then set_response response_type now r else r)
    <$> firefighter_alerts d.
Proof.
  unfold respond_to_firefighter_alert. simpl.
  by destruct (fetch_firefighter_alert _ _).
Qed.

Lemma respond_fetch_alert d alert_id other response_type now today :
  fetch_alert (respond d alert_id response_type now today) other
  = (if decide (alert_id = other) then set_response response_type now
     else id) <$> fetch_alert d other.
Proof. rewrite respond_alerts. apply fetch_after_update. Qed.

(** The stats table after a call on an id that a row has. *)
Lemma respond_stats d alert_id response_type now today row :
  fetch_alert d alert_id = Some row ->
  firefighter_stats (respond d alert_id response_type now today)
  = update_stats_where (fa_firefighter_id row)
      (if decide (response_type = "responded")
       then set_responded (latency (fa_received_at row) now) now
       else set_acknowledged now)
      (insert_or_ignore_stats (firefighter_stats d) (fa_firefighter_id row)
         today).
Proof.
  intros Hrow. unfold respond_to_firefighter_alert. simpl.
  rewrite fetch_after_update, Hrow. simpl.
  destruct (decide (alert_id = alert_id)) as [_ | Hne]; [| done]. simpl.
  unfold _update_firefighter_stats. simpl. by case_decide.
Qed.

Lemma respond_stats_row d alert_id response_type now today row :
  fetch_alert d alert_id = Some row ->
  fetch_stats (respond d alert_id response_type now today)
    (fa_firefighter_id row)
  = Some ((if decide (response_type = "responded")
           then set_responded (latency (fa_received_at row) now) now
           else set_acknowledged now)
            (stats_before (firefighter_stats d) (fa_firefighter_id row)
               today)).
Proof.
  intros Hrow. rewrite (respond_stats _ _ _ _ _ _ Hrow).
  rewrite fetch_stats_update_where by (intros r; by case_decide).
  destruct (decide (fa_firefighter_id row = fa_firefighter_id row));
    [| done].
  by rewrite fetch_stats_insert_or_ignore.
Qed.

Lemma respond_stats_other d alert_id response_type now today row other :
  fetch_alert d alert_id = Some row ->
  fa_firefighter_id row <> other ->
  fetch_stats (respond d alert_id response_type now today) other
  = fetch_stats d other.
Proof.
  intros Hrow Hne. rewrite (respond_stats _ _ _ _ _ _ Hrow).
  rewrite fetch_stats_update_where by (intros r; by case_decide).
  destruct (decide (fa_firefighter_id row = other)); [done |].
  rewrite fetch_stats_insert_or_ignore_other by done.
  by destruct (fetch_firefighter_stats _ _).
Qed.

Lemma stats_before_fetched st firefighter_id today r :
  fetch_firefighter_stats st firefighter_id = Some r ->
  stats_before st firefighter_id today = r.
Proof. intros H. unfold stats_before. by rewrite H. Qed.

(** C1 (amended). A call whose id no record has is a silent no-op: the store
    is unchanged, and nothing is raised.  The call selects by id alone,
    whatever the status of the record: a record that is found gets its
    status, response type and response time overwritten and the responder's
    stats row counts the call, and a second call on the record just resolved
    overwrites it again and counts a second time. *)
Theorem respond_selects_by_id_alone d alert_id response_type now today :
  (fetch_alert d alert_id = None ->
   respond d alert_id response_type now today = d)
  /\ (forall row, fetch_alert d alert_id = Some row ->
      let f := fa_firefighter_id row in
      let counted :=
        total_alerts_today (stats_before (firefighter_stats d) f today) in
      let d1 := respond d alert_id response_type now today in
      fetch_alert d1 alert_id = Some (set_response response_type now row)
      /\ (exists r1, fetch_stats d1 f = Some r1
                     /\ total_alerts_today r1 = (counted + 1)%Z)
      /\ forall now2 today2,
           let d2 := respond d1 alert_id response_type now2 today2 in
           fetch_alert d2 alert_id
           = Some (set_response response_type now2 row)
           /\ exists r2, fetch_stats d2 f = Some r2
                         /\ total_alerts_today r2 = (counted + 2)%Z).
Proof.
  split; [apply respond_unknown_id |].
  intros row Hrow f counted d1.
  assert (H1 : fetch_alert d1 alert_id
               = Some (set_response response_type now row)).
  { unfold d1. rewrite respond_fetch_alert, Hrow.
    by destruct (decide (alert_id = alert_id)). }
  assert (Hs1 : fetch_stats d1 f
                = Some ((if decide (response_type = "responded")
                         then set_responded
                                (latency (fa_received_at row) now) now
                         else set_acknowledged now)
                          (stats_before (firefighter_stats d) f today))).
  { unfold d1, f. by apply respond_stats_row. }
  split; [exact H1 |]. split.
  { eexists. split; [exact Hs1 |]. by case_decide. }
  intros now2 today2 d2. split.
  - unfold d2. rewrite respond_fetch_alert, H1.
    by destruct (decide (alert_id = alert_id)).
  - pose proof (respond_stats_row d1 alert_id response_type now2 today2 _ H1)
      as Hs2.
    simpl in Hs2. fold f in Hs2. fold d2 in Hs2.
    rewrite (stats_before_fetched _ _ _ _ Hs1) in Hs2.
    eexists. split; [exact Hs2 |].
    unfold counted. case_decide; simpl; lia.
Qed.

(** C5 (amended). An 'acknowledged' call increments [total_acknowledged] and
    [total_alerts_today] of the responder's stats row and sets its
    [last_response_at] to the time of the call; the average, the count of
    responses, the date and the keys of the row are left as they were, and
    so is the row of every other responder. *)
Theorem acknowledged_counts_and_stamps d alert_id now today row :
  fetch_alert d alert_id = Some row ->
  let f := fa_firefighter_id row in
  let before := stats_before (firefighter_stats d) f today in
  let d1 := respond d alert_id "acknowledged" now today in
  (exists after, fetch_stats d1 f = Some after
     /\ total_acknowledged after = (total_acknowledged before + 1)%Z
     /\ total_alerts_today after = (total_alerts_today before + 1)%Z
     /\ last_response_at after = Some now
     /\ avg_response_time_seconds after = avg_response_time_seconds before
     /\ total_responded after = total_responded before
     /\ stats_date after = stats_date before
     /\ fs_id after = fs_id before
     /\ fs_firefighter_id after = fs_firefighter_id before)
  /\ forall other, f <> other -> fetch_stats d1 other = fetch_stats d other.
Proof.
  intros Hrow f before d1. split.
  - exists (set_acknowledged now before). split; [| by repeat split].
    unfold d1, before, f.
    by rewrite (respond_stats_row _ _ _ _ _ _ Hrow).
  - intros other Hne. unfold d1. by eapply respond_stats_other.
Qed.

(** C9. When the stored [received_at] or the call's own timestamp does not
    parse, the latency is 0 and the stats update is carried out all the same:
    the row of the responder is there afterwards with [total_alerts_today]
    incremented, and for 'responded' with [total_responded] incremented and
    the average updated by a latency of 0, otherwise with
    [total_acknowledged] incremented and the average as it was. *)
Theorem unparsable_timestamp_is_zero_latency d alert_id response_type
    now today row :
  fetch_alert d alert_id = Some row ->
  fromisoformat (fa_received_at row) = None \/ fromisoformat now = None ->
  let f := fa_firefighter_id row in
  let before := stats_before (firefighter_stats d) f today in
  let d1 := respond d alert_id response_type now today in
  latency (fa_received_at row) now = 0%Q
  /\ exists after, fetch_stats d1 f = Some after
     /\ total_alerts_today after = (total_alerts_today before + 1)%Z
     /\ last_response_at after = Some now
     /\ (response_type = "responded" ->
         total_responded after = (total_responded before + 1)%Z
         /\ total_acknowledged after = total_acknowledged before
         /\ avg_response_time_seconds after
            = ((avg_response_time_seconds before
                * inject_Z (total_responded before) + 0)
               / inject_Z (total_responded before + 1))%Q)
     /\ (response_type <> "responded" ->
         total_acknowledged after = (total_acknowledged before + 1)%Z
         /\ total_responded after = total_responded before
         /\ avg_response_time_seconds after
            = avg_response_time_seconds before).
Proof.
  intros Hrow Hbad f before d1.
  assert (Hzero : latency (fa_received_at row) now = 0%Q).
  { unfold response_time.
    destruct Hbad as [-> | ->]; [done |].
    by destruct (fromisoformat (fa_received_at row)). }
  split; [exact Hzero |].
  eexists. split.
  { unfold d1, f. by apply respond_stats_row. }
  rewrite Hzero. fold f. fold before.
  case_decide as Hrt; simpl; repeat split; try done.
Qed.

(** One 'responded' call, on the row the UPDATE starts from. *)
Lemma responded_step d alert_id now today row :
  fetch_alert d alert_id = Some row ->
  fetch_stats (respond d alert_id "responded" now today)
    (fa_firefighter_id row)
  = Some (set_responded (latency (fa_received_at row) now) now
            (stats_before (firefighter_stats d) (fa_firefighter_id row)
               today)).
Proof. intros Hrow. by rewrite (respond_stats_row _ _ _ _ _ _ Hrow). Qed.

(** C4. A 'responded' call with latency [L] on a responder whose row holds
    the average [a] over [n] responses (for a responder without a row yet:
    0 over 0) leaves the row with [n + 1] responses and the average
    [(a * n + L) / (n + 1)].  Hence, from zero counters and a zero average,
    three 'responded' calls with latencies 10, 20 and 30 seconds leave
    [total_responded = 3] and an average of 20. *)
Theorem responded_updates_incremental_mean :
  (forall d alert_id now today row,
     fetch_alert d alert_id = Some row ->
     let f := fa_firefighter_id row in
     let before := stats_before (firefighter_stats d) f today in
     let L := latency (fa_received_at row) now in
     exists after,
       fetch_stats (respond d alert_id "responded" now today) f = Some after
       /\ total_responded after = (total_responded before + 1)%Z
       /\ avg_response_time_seconds after
          = ((avg_response_time_seconds before
              * inject_Z (total_responded before) + L)
             / inject_Z (total_responded before + 1))%Q)
  /\ (forall d f id1 id2 id3 row1 row2 row3 now1 now2 now3
             today1 today2 today3,
     fetch_alert d id1 = Some row1 -> fa_firefighter_id row1 = f ->
     fetch_alert d id2 = Some row2 -> fa_firefighter_id row2 = f ->
     fetch_alert d id3 = Some row3 -> fa_firefighter_id row3 = f ->
     let before := stats_before (firefighter_stats d) f today1 in
     total_responded before = 0%Z ->
     (avg_response_time_seconds before == 0)%Q ->
     (latency (fa_received_at row1) now1 == 10)%Q ->
     (latency (fa_received_at row2) now2 == 20)%Q ->
     (latency (fa_received_at row3) now3 == 30)%Q ->
     let d1 := respond d id1 "responded" now1 today1 in
     let d2 := respond d1 id2 "responded" now2 today2 in
     let d3 := respond d2 id3 "responded" now3 today3 in
     exists after,
       fetch_stats d3 f = Some after
       /\ total_responded after = 3%Z
       /\ (avg_response_time_seconds after == 20)%Q).
Proof.
  split.
  - intros d alert_id now today row Hrow f before L.
    eexists. split; [by apply responded_step |]. done.
  - intros d f id1 id2 id3 row1 row2 row3 now1 now2 now3
      today1 today2 today3 Hrow1 Hf1 Hrow2 Hf2 Hrow3 Hf3 before
      Hn Ha HL1 HL2 HL3 d1 d2 d3.
    (* the rows of the three alerts keep their responder and their
       [received_at] through the calls *)
    assert (Hrow2' : exists r, fetch_alert d1 id2 = Some r
                       /\ fa_firefighter_id r = f
                       /\ fa_received_at r = fa_received_at row2).
    { unfold d1. rewrite respond_fetch_alert, Hrow2.
      case_decide; eexists; (split; [reflexivity |]); by split. }
    destruct Hrow2' as (r2 & Hr2 & Hr2f & Hr2t).
    assert (Hrow3' : exists r, fetch_alert d2 id3 = Some r
                       /\ fa_firefighter_id r = f
                       /\ fa_received_at r = fa_received_at row3).
    { unfold d2, d1. rewrite !respond_fetch_alert, Hrow3.
      repeat case_decide; eexists; (split; [reflexivity |]); by split. }
    destruct Hrow3' as (r3 & Hr3 & Hr3f & Hr3t).
    pose proof (responded_step d id1 now1 today1 row1 Hrow1) as S1.
    rewrite Hf1 in S1. fold d1 in S1. fold before in S1.
    pose proof (responded_step d1 id2 now2 today2 r2 Hr2) as S2.
    rewrite Hr2f, Hr2t in S2. fold d2 in S2.
    rewrite (stats_before_fetched _ _ _ _ S1) in S2.
    pose proof (responded_step d2 id3 now3 today3 r3 Hr3) as S3.
    rewrite Hr3f, Hr3t in S3. fold d3 in S3.
    rewrite (stats_before_fetched _ _ _ _ S2) in S3.
    eexists. split; [exact S3 |]. simpl. split; [lia |].
    rewrite Hn. simpl. rewrite Ha, HL1, HL2, HL3. reflexivity.
Qed.

End ResponderProofs.

(** ** Broadcast to a station *)

Lemma max_id_snoc ids i : max_id (ids ++ [i]) = Nat.max (max_id ids) i.
Proof.
  unfold max_id. induction ids as [| j ids IH]; simpl; [lia |].
  rewrite IH. lia.
Qed.

Lemma max_id_bound ids i : i ∈ ids -> (i <= max_id ids)%nat.
Proof.
  unfold max_id. induction 1 as [i ids | i j ids _ IH]; simpl; lia.
Qed.

Section BroadcastProofs.

Variables (station_id alert_id detection_id : nat).
Variables (alert_type location area : string) (confidence : Q).
Variable current_timestamp : nat -> string.

Abbreviation broadcast_row :=
  (broadcast_row_of station_id alert_id detection_id).

(** The loop appends one row per firefighter of its list, in order, under
    ids that grow from above every id in the table. *)
Lemma broadcast_loop_rows ffs : forall k tbl alert_ids,
  exists new_rows,
    broadcast_loop ffs k station_id alert_id detection_id alert_type
      location area confidence current_timestamp tbl alert_ids
    = (tbl ++ new_rows, alert_ids ++ (fa_id <$> new_rows))
    /\ fa_firefighter_id <$> new_rows = ffs
    /\ Forall broadcast_row new_rows
    /\ Forall (fun r => (max_id (fa_id <$> tbl) < fa_id r)%nat) new_rows
    /\ StronglySorted lt (fa_id <$> new_rows).
Proof.
  induction ffs as [| ff rest IH]; intros k tbl alert_ids.
  - exists []. simpl. rewrite !app_nil_r. repeat split; constructor.
  - simpl.
    set (row := new_firefighter_alert (next_rowid (fa_id <$> tbl)) alert_id
                  detection_id ff station_id alert_type location area
                  confidence (current_timestamp k)).
    destruct (IH (S k) (tbl ++ [row])
                (alert_ids ++ [next_rowid (fa_id <$> tbl)]))
      as (rows & Heq & Hff & Hrows & Hfresh & Hsorted).
    assert (Hmax : max_id (fa_id <$> tbl ++ [row]) = fa_id row).
    { rewrite fmap_app. simpl. rewrite max_id_snoc. simpl.
      unfold next_rowid. lia. }
    rewrite Hmax in Hfresh.
    exists (row :: rows). rewrite Heq. split; [| split; [| split; [| split]]].
    + by rewrite <- !app_assoc.
    + simpl. f_equal. exact Hff.
    + constructor; [by repeat split | done].
    + constructor; [simpl; unfold next_rowid, max_id; lia |].
      eapply Forall_impl; [exact Hfresh |]. simpl. intros r Hr.
      unfold next_rowid, max_id in *. lia.
    + simpl. constructor; [done |].
      rewrite Forall_fmap. exact Hfresh.
Qed.

(** With [id] the key of the roster, a firefighter is selected once if
    online in the station and not at all otherwise. *)
Lemma selected_once (roster : list Firefighter) (f : Firefighter) :
  NoDup (ff_id <$> roster) -> f ∈ roster ->
  length (filter (fun i => i = ff_id f)
            (ff_id <$> filter (fun g => online_in_station station_id g = true)
                         roster))
  = if online_in_station station_id f then 1%nat else 0%nat.
Proof.
  induction roster as [| g roster IH]; intros Hnd Hin.
  { by apply elem_of_nil in Hin. }
  simpl in Hnd. apply NoDup_cons in Hnd as [Hg Hnd].
  apply elem_of_cons in Hin as [-> | Hin].
  - assert (Hrest : filter (fun i => i = ff_id g)
                      (ff_id <$> filter
                         (fun g' => online_in_station station_id g' = true)
                         roster) = []).
    { apply filter_none. rewrite Forall_forall. intros i Hi ->.
      apply Hg. apply list_elem_of_fmap in Hi as (g' & -> & Hg').
      apply list_elem_of_filter in Hg' as [_ Hg'].
      apply list_elem_of_fmap. by exists g'. }
    rewrite filter_cons.
    destruct (online_in_station station_id g) eqn:E.
    + rewrite decide_True by done.
      rewrite fmap_cons, filter_cons_True by done. by rewrite Hrest.
    + rewrite decide_False by done. by rewrite Hrest.
  - assert (Hne : ff_id g <> ff_id f).
    { intros Heq. apply Hg. rewrite Heq. apply list_elem_of_fmap.
      by exists f. }
    rewrite filter_cons.
    destruct (decide (online_in_station station_id g = true)).
    + rewrite fmap_cons, filter_cons_False by done. by apply IH.
    + by apply IH.
Qed.

Lemma rows_of_firefighter (rows : list FirefighterAlert) (i : nat) :
  length (filter (fun r => fa_firefighter_id r = i) rows)
  = length (filter (fun j => j = i) (fa_firefighter_id <$> rows)).
Proof.
  induction rows as [| r rows IH]; [done |].
  rewrite fmap_cons, !filter_cons. case_decide; simpl; by rewrite IH.
Qed.

(** C6. A broadcast to a station appends to [firefighter_alerts] exactly one
    row for each firefighter of that station whose status is 'online', and
    none for any other firefighter; the rows are new (fresh, distinct ids,
    the ones returned), are all 'pending' and all carry the alert and
    detection the broadcast was given; the rows already there are kept. *)
Theorem broadcast_one_pending_row_per_online_firefighter (d : DB) :
  NoDup (ff_id <$> firefighters d) ->
  let result := broadcast_alert_to_station d station_id alert_id
                  detection_id alert_type location area confidence
                  current_timestamp in
  exists new_rows,
    firefighter_alerts (fst result) = firefighter_alerts d ++ new_rows
    /\ snd result = fa_id <$> new_rows
    /\ NoDup (fa_id <$> new_rows)
    /\ (forall r old, r ∈ new_rows -> old ∈ firefighter_alerts d ->
          fa_id old <> fa_id r)
    /\ Forall broadcast_row new_rows
    /\ (forall f, f ∈ firefighters d ->
          length (filter (fun r => fa_firefighter_id r = ff_id f) new_rows)
          = if bool_decide (ff_station f = station_id)
               && bool_decide (ff_status f = "online")
            then 1%nat else 0%nat)
    /\ (forall r, r ∈ new_rows ->
          exists f, f ∈ firefighters d /\ ff_id f = fa_firefighter_id r
                    /\ ff_station f = station_id /\ ff_status f = "online")
    /\ length new_rows
       = length (filter (fun f => ff_station f = station_id
                                  /\ ff_status f = "online")
                   (firefighters d)).
Proof.
  intros Hkey result.
  destruct (broadcast_loop_rows (select_online_firefighters d station_id)
              0 (firefighter_alerts d) [])
    as (rows & Heq & Hff & Hrows & Hfresh & Hsorted).
  exists rows. unfold result, broadcast_alert_to_station. rewrite Heq.
  cbn [fst snd firefighter_alerts with_firefighter_alerts app].
  split; [done |]. split; [done |].
  split; [| split; [| split; [exact Hrows | split; [| split]]]].
  - clear -Hsorted. induction Hsorted as [| i ids _ IH Hall];
      constructor; [| done].
    intros Hin. rewrite Forall_forall in Hall. specialize (Hall _ Hin). lia.
  - intros r old Hr Hold Heq'.
    rewrite Forall_forall in Hfresh. specialize (Hfresh _ Hr).
    assert (fa_id old <= max_id (fa_id <$> firefighter_alerts d))%nat.
    { apply max_id_bound, list_elem_of_fmap. by exists old. }
    lia.
  - intros f Hf.
    rewrite rows_of_firefighter.
    rewrite Hff. unfold select_online_firefighters.
    by rewrite selected_once.
  - intros r Hr.
    assert (Hin : fa_firefighter_id r ∈ select_online_firefighters d
                                          station_id).
    { rewrite <- Hff. apply list_elem_of_fmap. by exists r. }
    apply list_elem_of_fmap in Hin as (f & Hid & Hf).
    apply list_elem_of_filter in Hf as [Hon Hf].
    unfold online_in_station in Hon.
    apply andb_true_iff in Hon as [H1 H2].
    apply bool_decide_eq_true in H1, H2. by exists f.
  - rewrite <- (length_fmap fa_firefighter_id), Hff.
    unfold select_online_firefighters. rewrite length_fmap.
    f_equal. apply list_filter_iff. intros f. unfold online_in_station.
    rewrite andb_true_iff, !bool_decide_eq_true. done.
Qed.

End BroadcastProofs.

(** ** The detection gate *)

Lemma scan_boxes_detection_id boxes info :
  detection_id (foldl scan_box info boxes) = detection_id info.
Proof.
  revert info. induction boxes as [| box boxes IH]; intros info; [done |].
  simpl. rewrite IH. unfold scan_box.
  by repeat match goal with |- context [if ?b then _ else _] => destruct b end.
Qed.

(** The raw observation never carries a detection id. *)
Lemma scan_results_detection_id results :
  detection_id (scan_results results) = None.
Proof.
  unfold scan_results.
  assert (H : forall info,
             detection_id (foldl (foldl scan_box) info results)
             = detection_id info).
  { induction results as [| boxes results IH]; intros info; [done |].
    simpl. by rewrite IH, scan_boxes_detection_id. }
  by rewrite H.
Qed.

Lemma winning_class_cases info :
  fst (winning_class info) = "fire" \/ fst (winning_class info) = "smoke".
Proof. unfold winning_class. destruct (Qle_bool _ _); auto. Qed.

Lemma thresholds_below_alert :
  (FIRE_CONFIDENCE_THRESHOLD < 0.85)%Q /\ (SMOKE_CONFIDENCE_THRESHOLD < 0.85)%Q
  /\ ~ (FIRE_CONFIDENCE_THRESHOLD == SMOKE_CONFIDENCE_THRESHOLD)%Q.
Proof.
  unfold FIRE_CONFIDENCE_THRESHOLD, SMOKE_CONFIDENCE_THRESHOLD.
  repeat split; try reflexivity. intros H. discriminate H.
Qed.

Section GateProofs.

Context {Frame : Type}.
Variable format_percent : Q -> string.
Implicit Types (w wk : World Frame) (c ck : Capture Frame).

Abbreviation process := (process_detection_results format_percent).
Abbreviation run_gate := (gate format_percent).

(** With [save_image] false nothing is written and the raw observation is
    returned. *)
Lemma process_without_saving w timestamp trigger_time results camera_id :
  process w timestamp trigger_time results camera_id false
  = Some (w, scan_results results).
Proof. reflexivity. Qed.

(** An observation that does not qualify is returned as it is, too. *)
Lemma process_not_qualifying w timestamp trigger_time results camera_id :
  qualifies (scan_results results) = false ->
  process w timestamp trigger_time results camera_id true
  = Some (w, scan_results results).
Proof.
  unfold qualifies, process_detection_results. intros H.
  destruct (has_fire _ || has_smoke _); simpl in *; [| done].
  destruct (winning_class _) as [log_type confidence]. simpl in *.
  by rewrite H.
Qed.

(** Filling the camera cache leaves everything else as it is. *)
Lemma get_camera_info_world w camera_id :
  let w1 := fst (get_camera_info w camera_id) in
  database w1 = database w /\ PENDING_CLIPS w1 = PENDING_CLIPS w
  /\ FRAME_BUFFERS w1 = FRAME_BUFFERS w /\ clip_files w1 = clip_files w.
Proof. unfold get_camera_info. by destruct (CAMERAS_CACHE w). Qed.

(** What a logged detection leaves behind: the call was allowed to save, the
    observation qualified, the camera is known, and the world has one more
    detection row, the pending clip of the camera replaced, and one more
    alert exactly when the confidence reaches 0.85. *)
Lemma process_logged_inv w timestamp trigger_time results camera_id
    save_image w1 info i :
  process w timestamp trigger_time results camera_id save_image
  = Some (w1, info) ->
  detection_id info = Some i ->
  let obs := scan_results results in
  let log_type := fst (winning_class obs) in
  let confidence := snd (winning_class obs) in
  save_image = true /\ qualifies obs = true
  /\ info = with_detection_id obs i
  /\ i = next_rowid (detection_ids w)
  /\ (exists camera row,
        snd (get_camera_info w camera_id) = Some camera
        /\ detections (database w1) = detections (database w) ++ [row]
        /\ det_id row = i /\ det_camera_id row = camera_id
        /\ det_detection_type row = log_type
        /\ det_confidence row = confidence
        /\ det_clip_path row = None /\ det_status row = "pending")
  /\ PENDING_CLIPS w1
     = <[camera_id := {| pc_detection_id := i;
                         pc_trigger_time := trigger_time |}]>
         (PENDING_CLIPS w)
  /\ FRAME_BUFFERS w1 = FRAME_BUFFERS w
  /\ (if Qle_bool 0.85 confidence
      then exists alert,
             alerts (database w1) = alerts (database w) ++ [alert]
             /\ al_detection_id alert = i
             /\ al_alert_level alert
                = (if decide (log_type = "fire") then "critical"
                   else "warning")
             /\ al_status alert = "active"
      else alerts (database w1) = alerts (database w)).
Proof.
  intros Hp Hid obs log_type confidence.
  unfold process_detection_results in Hp. fold obs in Hp.
  assert (Hobs : detection_id obs = None)
    by apply scan_results_detection_id.
  destruct save_image; simpl in Hp;
    [| injection Hp as <- <-; congruence].
  unfold qualifies. fold obs.
  destruct (has_fire obs || has_smoke obs); simpl in Hp |- *;
    [| injection Hp as <- <-; congruence].
  unfold log_type, confidence.
  destruct (winning_class obs) as [lt conf] eqn:Hwin. simpl.
  destruct (Qle_bool (class_threshold lt) conf);
    [| injection Hp as <- <-; congruence].
  pose proof (get_camera_info_world w camera_id) as (Hdb & Hpc & Hfb & _).
  destruct (get_camera_info w camera_id) as [w0 camera]. simpl in *.
  destruct camera as [camera |]; [| done].
  injection Hp as <- <-. simpl in Hid. injection Hid as <-.
  unfold detection_ids, log_detection.
  cbn [fst snd database PENDING_CLIPS FRAME_BUFFERS with_pending_clips
       with_database].
  rewrite ?Hdb, ?Hpc, ?Hfb.
  repeat split; try done.
  - eexists camera, _. split; [done |].
    destruct (Qle_bool 0.85 conf); simpl; rewrite ?Hdb;
      repeat split; reflexivity.
  - destruct (Qle_bool 0.85 conf); simpl; rewrite ?Hdb; [| done].
    eexists. repeat split; reflexivity.
Qed.

(** Allowed to save, on a qualifying observation from a known camera, a
    detection is logged. *)
Lemma process_logs w timestamp trigger_time results camera_id camera :
  qualifies (scan_results results) = true ->
  snd (get_camera_info w camera_id) = Some camera ->
  exists w1,
    process w timestamp trigger_time results camera_id true
    = Some (w1, with_detection_id (scan_results results)
                  (next_rowid (detection_ids w))).
Proof.
  unfold qualifies, process_detection_results. intros Hq Hcam.
  apply andb_true_iff in Hq as [Hseen Hconf]. rewrite Hseen. simpl.
  destruct (winning_class _) as [lt conf]. simpl in Hconf. rewrite Hconf.
  pose proof (get_camera_info_world w camera_id) as (Hdb & _).
  destruct (get_camera_info w camera_id) as [w0 cam']. simpl in *.
  subst cam'. unfold detection_ids. rewrite <- Hdb. eexists. reflexivity.
Qed.

(** A call that logs nothing changes nothing. *)
Lemma process_quiet w timestamp trigger_time results camera_id save_image
    w1 info :
  process w timestamp trigger_time results camera_id save_image
  = Some (w1, info) ->
  detection_id info = None ->
  w1 = w /\ info = scan_results results.
Proof.
  unfold process_detection_results. intros Hp Hid.
  destruct (save_image && _); [| by injection Hp as <- <-].
  destruct (winning_class _) as [lt conf].
  destruct (Qle_bool (class_threshold lt) conf);
    [| by injection Hp as <- <-].
  destruct (get_camera_info w camera_id) as [w0 [camera |]]; [| done].
  injection Hp as <- <-. discriminate Hid.
Qed.

(** While the counter is positive the gate writes nothing, hands back the
    raw observation and takes one off the counter. *)
Lemma gate_cooling w camera_id cooldown c :
  (0 < cooldown)%Z ->
  run_gate w camera_id cooldown c
  = Some (w, (cooldown - 1)%Z, scan_results (cap_results c)).
Proof.
  intros Hpos. unfold gate.
  replace (cooldown <=? 0)%Z with false by (symmetry; apply Z.leb_gt; lia).
  rewrite process_without_saving, scan_results_detection_id.
  replace (0 <? cooldown)%Z with true by (symmetry; apply Z.ltb_lt; lia).
  done.
Qed.

(** An invocation that logged was not cooling down and leaves the counter at
    300 less the decrement of the same invocation. *)
Lemma gate_logged_inv w camera_id cooldown c w1 cooldown1 info i :
  run_gate w camera_id cooldown c = Some (w1, cooldown1, info) ->
  detection_id info = Some i ->
  (cooldown <= 0)%Z /\ cooldown1 = 299%Z
  /\ process w (cap_timestamp c) (cap_time_trigger c) (cap_results c)
       camera_id true = Some (w1, info).
Proof.
  unfold gate. intros Hg Hid.
  destruct (process _ _ _ _ _ _) as [[w' info'] |] eqn:Hp; [| done].
  injection Hg as <- <- <-.
  destruct (process_logged_inv _ _ _ _ _ _ _ _ _ Hp Hid)
    as (Hsave & _ & _ & Hi & _).
  apply Z.leb_le in Hsave. rewrite Hid, Hi. unfold next_rowid. simpl.
  split; [done |]. split; [done |].
  rewrite <- Hp. f_equal. symmetry. by apply Z.leb_le.
Qed.

Lemma gate_quiet w camera_id cooldown c w1 cooldown1 info :
  run_gate w camera_id cooldown c = Some (w1, cooldown1, info) ->
  detection_id info = None ->
  w1 = w /\ info = scan_results (cap_results c)
  /\ cooldown1 = (if (0 <? cooldown)%Z then cooldown - 1 else cooldown)%Z.
Proof.
  unfold gate. intros Hg Hid.
  destruct (process _ _ _ _ _ _) as [[w' info'] |] eqn:Hp; [| done].
  injection Hg as <- <- <-. rewrite Hid.
  by destruct (process_quiet _ _ _ _ _ _ _ _ Hp Hid).
Qed.

(** Not cooling down, on a qualifying observation from a known camera, the
    gate logs a detection. *)
Lemma gate_emits w camera_id cooldown c camera :
  (cooldown <= 0)%Z ->
  qualifies (scan_results (cap_results c)) = true ->
  snd (get_camera_info w camera_id) = Some camera ->
  exists w1,
    run_gate w camera_id cooldown c
    = Some (w1, 299%Z, with_detection_id (scan_results (cap_results c))
                         (next_rowid (detection_ids w))).
Proof.
  intros Hc Hq Hcam. unfold gate.
  replace (cooldown <=? 0)%Z with true by (symmetry; apply Z.leb_le; lia).
  destruct (process_logs w (cap_timestamp c) (cap_time_trigger c)
              (cap_results c) camera_id camera Hq Hcam) as [w1 ->].
  by exists w1.
Qed.

Lemma cooldown_after_cooling camera_id
    (invocations : list (World Frame * Capture Frame)) : forall cooldown,
  (Z.of_nat (length invocations) <= cooldown)%Z ->
  cooldown_after format_percent camera_id cooldown invocations
  = Some (cooldown - Z.of_nat (length invocations))%Z.
Proof.
  induction invocations as [| [w c] rest IH]; intros cooldown Hlen.
  - simpl. f_equal. lia.
  - simpl length in *. simpl cooldown_after.
    rewrite gate_cooling by lia. rewrite IH by lia. f_equal. lia.
Qed.

Lemma next_rowid_fresh (ids : list nat) : next_rowid ids ∉ ids.
Proof.
  intros Hin. apply max_id_bound in Hin. unfold next_rowid in Hin. lia.
Qed.

(** The clip paths after [update_detection_clip]: that of the detection
    named is set, the others are as they were. *)
Lemma update_detection_clip_paths (d : DB) (detection_id : nat)
    (clip_path : string) :
  det_clip_path <$> detections (update_detection_clip d detection_id clip_path)
  = (fun r => if decide (det_id r = detection_id)
              then Some clip_path else det_clip_path r) <$> detections d.
Proof.
  unfold update_detection_clip. cbn [detections with_detections].
  rewrite <- list_fmap_compose. apply list_fmap_ext.
  intros k r _. simpl. by case_decide.
Qed.

(** What [handle_pending_clips] makes of the slot of a camera: nothing
    before the clip is due, and from then on, with samples buffered, one
    clip file under the path of the detection in the slot, made of the
    frames around the trigger time in the slot, its path stored with that
    detection and the slot emptied. *)
Lemma pending_clip_written (annotate : Frame -> Frame) w camera_id pending
    later :
  PENDING_CLIPS w !! camera_id = Some pending ->
  let due := (pc_trigger_time pending + CLIP_AFTER_SEC)%Q in
  let path := clip_path_of camera_id (pc_detection_id pending) in
  let w1 := handle_pending_clips annotate later camera_id w in
  ((later < due)%Q -> w1 = w)
  /\ ((due <= later)%Q -> buffer_of w camera_id <> [] ->
      (exists clip,
         clip_files w1 = <[path := clip]> (clip_files w)
         /\ clip_frames clip
            = annotate <$> selected_frames (buffer_of w camera_id)
                             (pc_trigger_time pending))
      /\ database w1
         = update_detection_clip (database w) (pc_detection_id pending) path
      /\ PENDING_CLIPS w1 !! camera_id = None).
Proof.
  intros Hp due path w1. unfold w1, handle_pending_clips. rewrite Hp.
  split.
  - intros Hearly.
    replace (Qle_bool _ later) with false; [done |].
    symmetry. apply not_true_is_false. rewrite Qle_bool_iff.
    unfold due in Hearly. lra.
  - intros Hdue Hbuf.
    replace (Qle_bool _ later) with true
      by (symmetry; by apply Qle_bool_iff).
    unfold save_detection_clip. fold (buffer_of w camera_id).
    destruct (buffer_of w camera_id) as [| sample rest]; [done |].
    cbn [fst PENDING_CLIPS database clip_files with_pending_clips
         with_database with_clip_files].
    split; [| split].
    + eexists. split; reflexivity.
    + reflexivity.
    + by rewrite lookup_delete_eq.
Qed.

(** C2 (amended). The pending clips are held in one slot per camera.  A gate
    invocation never touches the slot of another camera; when it logs a
    detection it puts that detection and its trigger time in the slot of its
    camera whatever the slot held before, so a detection logged while a clip
    is pending takes the slot over; when it logs nothing, as on every
    invocation during the cooldown, all slots are left as they were.  The
    clip written later belongs to the detection logged last: in any later
    world in which the slot is still the one this detection has left,
    [handle_pending_clips] writes nothing before four seconds have passed
    since the trigger of this detection, and from then on, with samples
    buffered, it writes one clip file, under the path of this detection and
    of the frames around its trigger time, stores that path as the clip of
    this detection and of no other, and empties the slot. *)
Theorem logged_detection_takes_pending_slot w camera_id cooldown c
    w1 cooldown1 info :
  gate format_percent w camera_id cooldown c = Some (w1, cooldown1, info) ->
  (forall other, other <> camera_id ->
     PENDING_CLIPS w1 !! other = PENDING_CLIPS w !! other)
  /\ match detection_id info with
     | Some i =>
         PENDING_CLIPS w1 !! camera_id
         = Some {| pc_detection_id := i;
                   pc_trigger_time := cap_time_trigger c |}
     | None => PENDING_CLIPS w1 = PENDING_CLIPS w
     end
  /\ ((0 < cooldown)%Z -> detection_id info = None)
  /\ (forall i (annotate : Frame -> Frame) w2 later,
        detection_id info = Some i ->
        PENDING_CLIPS w2 !! camera_id = PENDING_CLIPS w1 !! camera_id ->
        let due := (cap_time_trigger c + CLIP_AFTER_SEC)%Q in
        let path := clip_path_of camera_id i in
        let w3 := handle_pending_clips annotate later camera_id w2 in
        ((later < due)%Q -> w3 = w2)
        /\ ((due <= later)%Q -> buffer_of w2 camera_id <> [] ->
            (exists clip,
               clip_files w3 = <[path := clip]> (clip_files w2)
               /\ clip_frames clip
                  = annotate <$> selected_frames (buffer_of w2 camera_id)
                                   (cap_time_trigger c))
            /\ database w3 = update_detection_clip (database w2) i path
            /\ det_clip_path <$> detections (database w3)
               = (fun r => if decide (det_id r = i)
                           then Some path else det_clip_path r)
                   <$> detections (database w2)
            /\ PENDING_CLIPS w3 !! camera_id = None)).
Proof.
  intros Hg.
  assert (Hslot : forall i, detection_id info = Some i ->
            PENDING_CLIPS w1
            = <[camera_id := {| pc_detection_id := i;
                                pc_trigger_time := cap_time_trigger c |}]>
                (PENDING_CLIPS w)).
  { intros i Hid.
    destruct (gate_logged_inv _ _ _ _ _ _ _ _ Hg Hid) as (_ & _ & Hp).
    by destruct (process_logged_inv _ _ _ _ _ _ _ _ _ Hp Hid)
      as (_ & _ & _ & _ & _ & Hpc & _). }
  split; [| split; [| split]].
  - intros other Hne.
    destruct (detection_id info) as [i |] eqn:Hid.
    + rewrite (Hslot i eq_refl). by rewrite lookup_insert_ne.
    + by destruct (gate_quiet _ _ _ _ _ _ _ Hg Hid) as (-> & _ & _).
  - destruct (detection_id info) as [i |] eqn:Hid.
    + rewrite (Hslot i eq_refl). by rewrite lookup_insert_eq.
    + by destruct (gate_quiet _ _ _ _ _ _ _ Hg Hid) as (-> & _ & _).
  - intros Hcool.
    destruct (detection_id info) as [i |] eqn:Hid; [| done].
    destruct (gate_logged_inv _ _ _ _ _ _ _ _ Hg Hid) as (Hc & _ & _). lia.
  - intros i annotate w2 later Hid Hsame due path w3.
    rewrite (Hslot i Hid), lookup_insert_eq in Hsame.
    destruct (pending_clip_written annotate w2 camera_id _ later Hsame)
      as [Hearly Hlate].
    split; [exact Hearly |].
    intros Hdue Hbuf.
    destruct (Hlate Hdue Hbuf) as (Hclip & Hdb & Hnone).
    split; [exact Hclip |]. split; [exact Hdb |]. split; [| exact Hnone].
    unfold w3. cbn [pc_detection_id] in Hdb. rewrite Hdb.
    apply update_detection_clip_paths.
Qed.

(** C8. A gate invocation that logs a detection does so for the winning
    class, fire or smoke, at a confidence that reaches the threshold of the
    class; it appends an alert exactly when that confidence reaches 0.85, and
    the alert is 'critical' for fire and 'warning' for smoke; either way the
    detection holds the pending clip slot of the camera and the counter is
    left at 299.  A qualifying observation below 0.85, seen when the gate is
    not cooling down, is logged in this way without an alert.  Both class
    thresholds are below 0.85. *)
Theorem alert_only_at_alert_threshold w camera_id cooldown c :
  let obs := scan_results (cap_results c) in
  let log_type := fst (winning_class obs) in
  let confidence := snd (winning_class obs) in
  (forall w1 cooldown1 info i,
     gate format_percent w camera_id cooldown c = Some (w1, cooldown1, info) ->
     detection_id info = Some i ->
     (class_threshold log_type <= confidence)%Q
     /\ (log_type = "fire" \/ log_type = "smoke")
     /\ ((0.85 <= confidence)%Q <->
         exists alert,
           alerts (database w1) = alerts (database w) ++ [alert]
           /\ al_detection_id alert = i
           /\ al_alert_level alert
              = (if decide (log_type = "fire") then "critical"
                 else "warning"))
     /\ ((confidence < 0.85)%Q ->
         alerts (database w1) = alerts (database w))
     /\ detection_ids w1 = detection_ids w ++ [i]
     /\ PENDING_CLIPS w1 !! camera_id
        = Some {| pc_detection_id := i;
                  pc_trigger_time := cap_time_trigger c |}
     /\ cooldown1 = 299%Z)
  /\ (forall camera,
        (cooldown <= 0)%Z ->
        snd (get_camera_info w camera_id) = Some camera ->
        (has_fire obs || has_smoke obs) = true ->
        (class_threshold log_type <= confidence)%Q ->
        (confidence < 0.85)%Q ->
        exists w1 i,
          gate format_percent w camera_id cooldown c
          = Some (w1, 299%Z, with_detection_id obs i)
          /\ detection_ids w1 = detection_ids w ++ [i]
          /\ (i ∉ detection_ids w)
          /\ alerts (database w1) = alerts (database w))
  /\ (FIRE_CONFIDENCE_THRESHOLD < 0.85)%Q
  /\ (SMOKE_CONFIDENCE_THRESHOLD < 0.85)%Q.
Proof.
  intros obs log_type confidence.
  assert (Hinv : forall w1 cooldown1 info i,
     run_gate w camera_id cooldown c = Some (w1, cooldown1, info) ->
     detection_id info = Some i ->
     (class_threshold log_type <= confidence)%Q
     /\ (log_type = "fire" \/ log_type = "smoke")
     /\ ((0.85 <= confidence)%Q <->
         exists alert,
           alerts (database w1) = alerts (database w) ++ [alert]
           /\ al_detection_id alert = i
           /\ al_alert_level alert
              = (if decide (log_type = "fire") then "critical"
                 else "warning"))
     /\ ((confidence < 0.85)%Q ->
         alerts (database w1) = alerts (database w))
     /\ detection_ids w1 = detection_ids w ++ [i]
     /\ PENDING_CLIPS w1 !! camera_id
        = Some {| pc_detection_id := i;
                  pc_trigger_time := cap_time_trigger c |}
     /\ cooldown1 = 299%Z).
  { intros w1 cooldown1 info i Hg Hid.
    destruct (gate_logged_inv _ _ _ _ _ _ _ _ Hg Hid) as (_ & Hcd & Hp).
    destruct (process_logged_inv _ _ _ _ _ _ _ _ _ Hp Hid)
      as (_ & Hq & _ & _ & Hrow & Hpc & _ & Halert).
    fold obs in Hq, Hrow, Halert. fold log_type confidence in Hrow, Halert.
    unfold qualifies in Hq. apply andb_true_iff in Hq as [_ Hq].
    apply Qle_bool_iff in Hq.
    destruct Hrow as (camera & row & _ & Hdets & Hrid & _).
    split; [exact Hq |]. split; [apply winning_class_cases |].
    split; [| split; [| split; [| split]]].
    - destruct (Qle_bool 0.85 confidence) eqn:E.
      + apply Qle_bool_iff in E.
        destruct Halert as (alert & Ha & Hd & Hl & _).
        split; [intros _; by exists alert | done].
      + split.
        * intros Hle. apply Qle_bool_iff in Hle. congruence.
        * intros (alert & Ha & _). rewrite Halert in Ha.
          apply (f_equal length) in Ha. rewrite length_app in Ha.
          simpl in Ha. lia.
    - intros Hlt. destruct (Qle_bool 0.85 confidence) eqn:E; [| done].
      apply Qle_bool_iff in E. lra.
    - unfold detection_ids. rewrite Hdets, fmap_app. simpl. by rewrite Hrid.
    - rewrite Hpc. by rewrite lookup_insert_eq.
    - exact Hcd. }
  split; [exact Hinv |]. split.
  - intros camera Hc Hcam Hseen Hthr Hlow.
    assert (Hq : qualifies obs = true).
    { unfold qualifies. rewrite Hseen. simpl. by apply Qle_bool_iff. }
    destruct (gate_emits w camera_id cooldown c camera Hc Hq Hcam)
      as [w1 Hg].
    exists w1, (next_rowid (detection_ids w)).
    destruct (Hinv _ _ _ _ Hg eq_refl) as (_ & _ & _ & Hno & Hids & _).
    split; [exact Hg |]. split; [exact Hids |].
    split; [apply next_rowid_fresh | by apply Hno].
  - destruct thresholds_below_alert as (? & ? & _). done.
Qed.

(** C10. On every gate invocation made while the counter of the camera is
    positive, the counter goes down by exactly one, whatever the frame
    shows.  An invocation that logs a detection leaves the counter at 299
    (300, less the decrement of that same invocation); whatever is seen on
    the invocations that follow, the counter is still positive on each of the
    next 299, none of which can log, and it is 0 after them, so that the
    300th invocation after the detection logs again as soon as it sees a
    qualifying observation from a known camera. *)
Theorem cooldown_counts_gate_invocations w camera_id cooldown c
    w1 cooldown1 info i :
  gate format_percent w camera_id cooldown c = Some (w1, cooldown1, info) ->
  detection_id info = Some i ->
  cooldown1 = 299%Z
  /\ (forall wk cd ck,
        (0 < cd)%Z ->
        exists info_k, gate format_percent wk camera_id cd ck
                       = Some (wk, (cd - 1)%Z, info_k)
                       /\ detection_id info_k = None)
  /\ (forall invocations : list (World Frame * Capture Frame),
        (length invocations <= 299)%nat ->
        cooldown_after format_percent camera_id cooldown1 invocations
        = Some (299 - Z.of_nat (length invocations))%Z)
  /\ (forall (invocations : list (World Frame * Capture Frame)) wk ck,
        (length invocations < 299)%nat ->
        exists cd info_k,
          cooldown_after format_percent camera_id cooldown1 invocations
          = Some cd
          /\ (0 < cd)%Z
          /\ gate format_percent wk camera_id cd ck
             = Some (wk, (cd - 1)%Z, info_k)
          /\ detection_id info_k = None)
  /\ (forall (invocations : list (World Frame * Capture Frame)) wk ck camera,
        length invocations = 299%nat ->
        qualifies (scan_results (cap_results ck)) = true ->
        snd (get_camera_info wk camera_id) = Some camera ->
        cooldown_after format_percent camera_id cooldown1 invocations
        = Some 0%Z
        /\ exists wk1 info_k j,
             gate format_percent wk camera_id 0 ck
             = Some (wk1, 299%Z, info_k)
             /\ detection_id info_k = Some j).
Proof.
  intros Hg Hid.
  destruct (gate_logged_inv _ _ _ _ _ _ _ _ Hg Hid) as (_ & -> & _).
  split; [done |]. split; [| split; [| split]].
  - intros wk cd ck Hpos. eexists. split; [by apply gate_cooling |].
    apply scan_results_detection_id.
  - intros invocations Hlen. apply cooldown_after_cooling. lia.
  - intros invocations wk ck Hlen.
    exists (299 - Z.of_nat (length invocations))%Z,
      (scan_results (cap_results ck)).
    split; [apply cooldown_after_cooling; lia |].
    split; [lia |]. split; [apply gate_cooling; lia |].
    apply scan_results_detection_id.
  - intros invocations wk ck camera Hlen Hq Hcam. split.
    + rewrite cooldown_after_cooling by lia. f_equal. lia.
    + destruct (gate_emits wk camera_id 0 ck camera) as [wk1 Hk];
        [lia | done | done |].
      by eexists wk1, _, _.
Qed.

(** *** The loop of [detect_from_webcam] *)

Variable annotate : Frame -> Frame.

Abbreviation iteration := (webcam_iteration annotate format_percent).
Abbreviation run := (webcam_run annotate format_percent).

Lemma update_detection_clip_ids (d : DB) detection_id clip_path :
  det_id <$> detections (update_detection_clip d detection_id clip_path)
  = det_id <$> detections d
  /\ alerts (update_detection_clip d detection_id clip_path) = alerts d.
Proof.
  split; [| done]. unfold update_detection_clip. simpl.
  rewrite <- list_fmap_compose. apply list_fmap_ext.
  intros k r _. simpl. by case_decide.
Qed.

(** Buffering a frame and finishing a pending clip log no detection and
    raise no alert. *)
Lemma housekeeping_logs_nothing w camera_id frame now1 now2 :
  let w2 := handle_pending_clips annotate now2 camera_id
              (update_frame_buffer now1 camera_id frame w) in
  detection_ids w2 = detection_ids w
  /\ alerts (database w2) = alerts (database w).
Proof.
  unfold handle_pending_clips, detection_ids. simpl.
  destruct (PENDING_CLIPS w !! camera_id) as [pending |]; [| done].
  destruct (Qle_bool _ now2); [| done].
  unfold save_detection_clip. simpl.
  destruct (default [] _) as [| s buf]; [done |]. simpl.
  apply update_detection_clip_ids.
Qed.

(** The iterations in which the gate cannot log: every frame that is not a
    fifth one, and every fifth one while the counter is positive. *)
Lemma iteration_quiet camera_id (s : LoopState Frame) c :
  ((frame_count s + 1) mod 5 = 0 -> 0 < detection_cooldown s)%Z ->
  exists s1,
    iteration camera_id s c = Some s1
    /\ detection_ids (ls_world s1) = detection_ids (ls_world s)
    /\ alerts (database (ls_world s1)) = alerts (database (ls_world s))
    /\ frame_count s1 = (frame_count s + 1)%Z
    /\ detection_cooldown s1
       = (if ((frame_count s + 1) mod 5 =? 0)%Z
          then detection_cooldown s - 1 else detection_cooldown s)%Z.
Proof.
  intros Hcool. unfold webcam_iteration.
  pose proof (housekeeping_logs_nothing (ls_world s) camera_id (cap_frame c)
                (cap_time_buffer c) (cap_time_pending c)) as [Hids Hal].
  destruct ((frame_count s + 1) mod 5 =? 0)%Z eqn:E.
  - apply Z.eqb_eq in E. rewrite gate_cooling by auto.
    eexists. split; [reflexivity |]. by simpl.
  - eexists. split; [reflexivity |]. by simpl.
Qed.

(** An iteration that logged a detection was a fifth frame and leaves the
    counter at 299. *)
Lemma iteration_logged_inv camera_id (s s1 : LoopState Frame) c :
  iteration camera_id s c = Some s1 ->
  detection_ids (ls_world s1) <> detection_ids (ls_world s) ->
  (frame_count s1 mod 5 = 0)%Z /\ detection_cooldown s1 = 299%Z.
Proof.
  unfold webcam_iteration. intros Hit Hnew.
  pose proof (housekeeping_logs_nothing (ls_world s) camera_id (cap_frame c)
                (cap_time_buffer c) (cap_time_pending c)) as [Hids Hal].
  simpl in Hids.
  destruct ((frame_count s + 1) mod 5 =? 0)%Z eqn:E.
  - apply Z.eqb_eq in E.
    destruct (run_gate _ _ _ _) as [[[w3 cd] info] |] eqn:Hg; [| done].
    injection Hit as <-. simpl in *.
    destruct (detection_id info) as [i |] eqn:Hid.
    + destruct (gate_logged_inv _ _ _ _ _ _ _ _ Hg Hid) as (_ & -> & _).
      done.
    + destruct (gate_quiet _ _ _ _ _ _ _ Hg Hid) as (-> & _). congruence.
  - injection Hit as <-. simpl in Hnew. congruence.
Qed.

(** As long as every fifth frame of a run finds the counter positive, the
    run goes through and logs nothing. *)
Lemma run_quiet camera_id cs : forall (s : LoopState Frame) (n : Z),
  (0 <= n)%Z ->
  (frame_count s mod 5 + Z.of_nat (length cs) + n
   <= 5 * detection_cooldown s + 4)%Z ->
  exists s2,
    run camera_id s cs = Some s2
    /\ detection_ids (ls_world s2) = detection_ids (ls_world s)
    /\ alerts (database (ls_world s2)) = alerts (database (ls_world s))
    /\ (frame_count s2 mod 5 + n <= 5 * detection_cooldown s2 + 4)%Z.
Proof.
  induction cs as [| c cs IH]; intros s n Hn Hinv.
  - exists s. simpl in *. repeat split; try done. lia.
  - simpl length in Hinv. simpl webcam_run.
    assert (Hr : (0 <= frame_count s mod 5 < 5)%Z)
      by (apply Z.mod_pos_bound; lia).
    assert (Hstep : ((frame_count s + 1) mod 5
                     = (if (frame_count s mod 5 =? 4) then 0
                        else frame_count s mod 5 + 1))%Z).
    { rewrite Z.add_mod by lia.
      destruct (frame_count s mod 5 =? 4)%Z eqn:E4.
      - apply Z.eqb_eq in E4. by rewrite E4.
      - apply Z.eqb_neq in E4. rewrite Z.mod_1_l by lia.
        apply Z.mod_small. lia. }
    destruct (iteration_quiet camera_id s c)
      as (s1 & Hit & Hids & Hal & Hfc & Hcd).
    { intros Hgate. rewrite Hstep in Hgate.
      destruct (frame_count s mod 5 =? 4)%Z eqn:E4; [| lia].
      apply Z.eqb_eq in E4. lia. }
    rewrite Hit.
    destruct (IH s1 n Hn) as (s2 & Hrun & Hids2 & Hal2 & Hinv2).
    { rewrite Hfc, Hcd, Hstep.
      destruct (frame_count s mod 5 =? 4)%Z eqn:E4.
      - apply Z.eqb_eq in E4. simpl. lia.
      - apply Z.eqb_neq in E4.
        replace (frame_count s mod 5 + 1 =? 0)%Z with false
          by (symmetry; apply Z.eqb_neq; lia).
        lia. }
    exists s2. rewrite Hrun, Hids2, Hal2. by repeat split.
Qed.

(** In both loops a counter is only ever changed by the gate of its camera:
    on a fifth frame it is what the gate returns, on any other frame it is
    kept. *)
Lemma webcam_iteration_counter camera_id (s s1 : LoopState Frame) c :
  iteration camera_id s c = Some s1 ->
  if ((frame_count s + 1) mod 5 =? 0)%Z
  then exists w w1 info,
         run_gate w camera_id (detection_cooldown s) c
         = Some (w1, detection_cooldown s1, info)
  else detection_cooldown s1 = detection_cooldown s.
Proof.
  unfold webcam_iteration. intros Hit.
  destruct ((frame_count s + 1) mod 5 =? 0)%Z.
  - destruct (run_gate _ _ _ _) as [[[w3 cd] info] |] eqn:Hg; [| done].
    injection Hit as <-. simpl. by eexists _, _, _.
  - by injection Hit as <-.
Qed.

Lemma dual_iteration_counters has_camera2 (s s1 : DualState Frame) c1
    (c2 : option (Capture Frame)) :
  dual_iteration annotate format_percent has_camera2 s c1 c2 = Some s1 ->
  let gated := ((ds_frame_count s + 1) mod 5 =? 0)%Z in
  (if gated
   then exists w w1 info,
          run_gate w 1 (detection_cooldown_1 s) c1
          = Some (w1, detection_cooldown_1 s1, info)
   else detection_cooldown_1 s1 = detection_cooldown_1 s)
  /\ match (if has_camera2 then c2 else None) with
     | Some c =>
         if gated
         then exists w w1 info,
                run_gate w 2 (detection_cooldown_2 s) c
                = Some (w1, detection_cooldown_2 s1, info)
         else detection_cooldown_2 s1 = detection_cooldown_2 s
     | None => detection_cooldown_2 s1 = detection_cooldown_2 s
     end.
Proof.
  intros Hit gated. unfold dual_iteration in Hit. fold gated in Hit.
  destruct gated.
  - destruct (run_gate _ 1%nat _ c1) as [[[w3 cd1] info1] |] eqn:Hg1;
      [| done].
    simpl in Hit.
    destruct (if has_camera2 then c2 else None) as [c |].
    + destruct (run_gate _ 2%nat _ c) as [[[w6 cd2] info2] |] eqn:Hg2;
        [| done].
      simpl in Hit. injection Hit as <-. simpl.
      split; by eexists _, _, _.
    + injection Hit as <-. simpl. split; [by eexists _, _, _ | done].
  - destruct (if has_camera2 then c2 else None) as [c |];
      by injection Hit as <-.
Qed.

(** C3. After an iteration of the capture loop in which a detection was
    logged (gate invocation N), the next 1499 frames, which hold the gate
    invocations N+1 to N+299, go through whatever they show without a new
    detection being logged or an alert raised; on each of these invocations
    the counter is positive and the gate, run on the classifier's result for
    the frame, changes nothing and returns the raw observation of that
    result: its class flags and maximal confidences. *)
Theorem cooldown_suppresses_detections camera_id
    (s0 s1 : LoopState Frame) c0 :
  webcam_iteration annotate format_percent camera_id s0 c0 = Some s1 ->
  detection_ids (ls_world s1) <> detection_ids (ls_world s0) ->
  (forall cs, (length cs <= 1499)%nat ->
     exists s2,
       webcam_run annotate format_percent camera_id s1 cs = Some s2
       /\ detection_ids (ls_world s2) = detection_ids (ls_world s1)
       /\ alerts (database (ls_world s2)) = alerts (database (ls_world s1)))
  /\ (forall cs c, (length cs <= 1498)%nat ->
        exists s2,
          webcam_run annotate format_percent camera_id s1 cs = Some s2
          /\ (((frame_count s2 + 1) mod 5 = 0)%Z ->
              (0 < detection_cooldown s2)%Z
              /\ forall w,
                   gate format_percent w camera_id (detection_cooldown s2) c
                   = Some (w, (detection_cooldown s2 - 1)%Z,
                           scan_results (cap_results c)))).
Proof.
  intros Hit Hnew.
  destruct (iteration_logged_inv _ _ _ _ Hit Hnew) as [Hfc Hcd].
  split.
  - intros cs Hlen.
    destruct (run_quiet camera_id cs s1 0) as (s2 & Hrun & Hids & Hal & _);
      [lia | rewrite Hfc, Hcd; lia |].
    by exists s2.
  - intros cs c Hlen.
    destruct (run_quiet camera_id cs s1 1) as (s2 & Hrun & _ & _ & Hinv);
      [lia | rewrite Hfc, Hcd; lia |].
    exists s2. split; [exact Hrun |]. intros Hgate.
    assert (Hr : (0 <= frame_count s2 mod 5 < 5)%Z)
      by (apply Z.mod_pos_bound; lia).
    assert (Hfour : (frame_count s2 mod 5 = 4)%Z).
    { rewrite Z.add_mod in Hgate by lia.
      assert (Hcases : (frame_count s2 mod 5 = 0 \/ frame_count s2 mod 5 = 1
                        \/ frame_count s2 mod 5 = 2
                        \/ frame_count s2 mod 5 = 3
                        \/ frame_count s2 mod 5 = 4)%Z) by lia.
      destruct Hcases as [E | [E | [E | [E | E]]]];
        rewrite E in Hgate; try discriminate Hgate. exact E. }
    assert (Hpos : (0 < detection_cooldown s2)%Z) by lia.
    split; [exact Hpos |]. intros w. by apply gate_cooling.
Qed.

End GateProofs.

(** * Further properties of the two files *)

(** ** Buffering and clips *)

Section ClipProofs.

Context {Frame : Type}.
Variable annotate : Frame -> Frame.
Implicit Types (buf : list (Q * Frame)) (w : World Frame).

Lemma evict_keeps_last cutoff buf (last : Q * Frame) :
  (cutoff <= fst last)%Q ->
  exists kept,
    evict cutoff (buf ++ [last]) = kept ++ [last]
    /\ kept `suffix_of` buf.
Proof.
  intros Hlast. induction buf as [| [t frame] rest IH]; simpl.
  - destruct last as [t frame]. simpl in *.
    replace (Qltb t cutoff) with false
      by (symmetry; by apply Qltb_false).
    by exists [].
  - destruct (Qltb t cutoff).
    + destruct IH as (kept & -> & Hsuf). exists kept.
      split; [done | by apply suffix_cons_r].
    + by exists ((t, frame) :: rest).
Qed.

(** X1. Whatever the clocks have shown, an append leaves the new sample at
    the end of the buffer of its camera, after a tail end of what the buffer
    held; the buffers of the other cameras, the pending clips, the store and
    the clip files are left as they were. *)
Theorem update_frame_buffer_keeps_latest w now camera_id (frame : Frame) :
  let w1 := update_frame_buffer now camera_id frame w in
  (exists kept,
     buffer_of w1 camera_id = kept ++ [(now, frame)]
     /\ kept `suffix_of` buffer_of w camera_id)
  /\ (forall other, other <> camera_id ->
        buffer_of w1 other = buffer_of w other)
  /\ PENDING_CLIPS w1 = PENDING_CLIPS w
  /\ database w1 = database w
  /\ clip_files w1 = clip_files w.
Proof.
  intros w1. split; [| split; [| done]].
  - unfold w1. rewrite buffer_of_update. apply evict_keeps_last.
    simpl. unfold CLIP_BUFFER_SEC, CLIP_DURATION_SEC, CLIP_BEFORE_SEC,
      CLIP_AFTER_SEC. lra.
  - intros other Hne. unfold w1. by apply buffer_of_update_other.
Qed.

Lemma selected_samples_cases buf trigger_time :
  let in_window :=
    window buf (trigger_time - CLIP_BEFORE_SEC)
      (trigger_time + CLIP_AFTER_SEC) in
  (in_window <> [] /\ selected_samples buf trigger_time = in_window)
  \/ (in_window = [] /\ selected_samples buf trigger_time = buf).
Proof.
  intros in_window. unfold selected_samples. fold in_window.
  destruct in_window; [by right | by left].
Qed.

Lemma selected_frames_nonempty buf trigger_time :
  buf <> [] -> selected_frames buf trigger_time <> [].
Proof.
  intros Hbuf. unfold selected_frames.
  destruct (selected_samples_cases buf trigger_time) as [[H ->] | [_ ->]].
  - by destruct (window _ _ _).
  - by destruct buf.
Qed.

Lemma window_spec buf start_time end_time (s : Q * Frame) :
  s ∈ window buf start_time end_time
  <-> s ∈ buf /\ (start_time <= fst s)%Q /\ (fst s <= end_time)%Q.
Proof.
  unfold window. rewrite list_elem_of_filter, andb_true_iff.
  rewrite !Qle_bool_iff. tauto.
Qed.

(** The duration of a clip is never 0 or less. *)
Lemma clip_duration trigger_time :
  Qle_bool (trigger_time + CLIP_AFTER_SEC
            - (trigger_time - CLIP_BEFORE_SEC)) 0 = false.
Proof.
  apply not_true_is_false. rewrite Qle_bool_iff.
  unfold CLIP_BEFORE_SEC, CLIP_AFTER_SEC. lra.
Qed.

(** The call on a camera that has samples buffered. *)
Lemma save_detection_clip_nonempty w camera_id detection_id trigger_time :
  buffer_of w camera_id <> [] ->
  save_detection_clip annotate w camera_id detection_id trigger_time
  = (let frames := selected_frames (buffer_of w camera_id) trigger_time in
     let n := length frames in
     let clip :=
       {| clip_fps := if (1 <? n)%nat
                      then (inject_Z (Z.of_nat n)
                            / (trigger_time + CLIP_AFTER_SEC
                               - (trigger_time - CLIP_BEFORE_SEC)))%Q
                      else 10%Q;
          clip_frames := annotate <$> frames |} in
     (with_database
        (with_clip_files w
           (<[clip_path_of camera_id detection_id := clip]> (clip_files w)))
        (update_detection_clip (database w) detection_id
           (clip_path_of camera_id detection_id)),
      Some (clip_path_of camera_id detection_id))).
Proof.
  intros Hbuf. unfold save_detection_clip. fold (buffer_of w camera_id).
  destruct (buffer_of w camera_id) as [| s rest]; [done |].
  by rewrite clip_duration.
Qed.

(** X2. Without a buffered sample for the camera [save_detection_clip]
    returns [None] and changes nothing.  With at least one it returns the
    path of the clip and writes under it a clip that is never empty: the
    annotated frames, in buffer order, of the samples taken from one second
    before to four seconds after the trigger when there are any, and of the
    whole buffer otherwise; the path is stored as [clip_path] of the
    detection, and buffers and pending clips are left as they were. *)
Theorem save_detection_clip_result w camera_id detection_id trigger_time :
  let result := save_detection_clip annotate w camera_id detection_id
                  trigger_time in
  let buf := buffer_of w camera_id in
  let in_window :=
    window buf (trigger_time - CLIP_BEFORE_SEC)
      (trigger_time + CLIP_AFTER_SEC) in
  (buf = [] -> result = (w, None))
  /\ (buf <> [] ->
      snd result = Some (clip_path_of camera_id detection_id)
      /\ (exists clip,
            clip_files (fst result) !! clip_path_of camera_id detection_id
            = Some clip
            /\ clip_frames clip <> []
            /\ clip_frames clip
               = annotate <$> (snd <$> (if decide (in_window = [])
                                        then buf else in_window)))
      /\ database (fst result)
         = update_detection_clip (database w) detection_id
             (clip_path_of camera_id detection_id)
      /\ FRAME_BUFFERS (fst result) = FRAME_BUFFERS w
      /\ PENDING_CLIPS (fst result) = PENDING_CLIPS w).
Proof.
  intros result buf in_window. split.
  - intros Hbuf. unfold result, save_detection_clip.
    fold (buffer_of w camera_id). fold buf. by rewrite Hbuf.
  - intros Hbuf. unfold result.
    rewrite (save_detection_clip_nonempty _ _ _ _ Hbuf).
    cbn [fst snd]. split; [done |]. split; [| done].
    eexists. split; [apply lookup_insert_eq |]. cbn [clip_frames]. split.
    + intros Hnil. apply fmap_nil_inv in Hnil.
      by apply (selected_frames_nonempty buf trigger_time).
    + unfold selected_frames. fold buf.
      destruct (selected_samples_cases buf trigger_time)
        as [[Hw Hsel] | [Hw Hsel]]; fold in_window in Hw, Hsel;
        rewrite Hsel.
      * by destruct (decide (in_window = [])).
      * by destruct (decide (in_window = [])).
Qed.

(** X3. The frame rate of the clip written is the number of its frames over
    the five seconds it stands for, and 10 for a clip of one frame: the
    fallback for a duration of 0 or less is never taken. *)
Theorem clip_frame_rate w camera_id detection_id trigger_time clip :
  clip_files (fst (save_detection_clip annotate w camera_id detection_id
                     trigger_time))
    !! clip_path_of camera_id detection_id = Some clip ->
  buffer_of w camera_id <> [] ->
  let n := length (clip_frames clip) in
  (clip_fps clip
   == if (1 <? n)%nat then inject_Z (Z.of_nat n) / 5 else 10)%Q.
Proof.
  intros Hclip Hbuf.
  rewrite (save_detection_clip_nonempty _ _ _ _ Hbuf) in Hclip.
  cbn [fst clip_files with_database with_clip_files] in Hclip.
  rewrite lookup_insert_eq in Hclip. injection Hclip as <-.
  cbn [clip_fps clip_frames]. rewrite length_fmap.
  destruct (1 <? _)%nat; [| reflexivity].
  unfold CLIP_BEFORE_SEC, CLIP_AFTER_SEC.
  set (k := inject_Z _). field. lra.
Qed.


(** X4. [handle_pending_clips] does nothing for a camera without a pending
    clip, and nothing before four seconds have passed since the trigger.
    From then on it empties the slot of the camera in every case: with
    samples buffered the clip is written and stored with the detection;
    with none nothing is written and the clip is given up, the slot being
    emptied all the same.  The slots of other cameras and the buffers are
    not touched, and a later call finds nothing left to do. *)
Theorem handle_pending_clips_result w now camera_id :
  let w1 := handle_pending_clips annotate now camera_id w in
  match PENDING_CLIPS w !! camera_id with
  | None => w1 = w
  | Some pending =>
      let due := (pc_trigger_time pending + CLIP_AFTER_SEC)%Q in
      let path := clip_path_of camera_id (pc_detection_id pending) in
      ((now < due)%Q -> w1 = w)
      /\ ((due <= now)%Q ->
          PENDING_CLIPS w1 = delete camera_id (PENDING_CLIPS w)
          /\ FRAME_BUFFERS w1 = FRAME_BUFFERS w
          /\ (buffer_of w camera_id = [] ->
              database w1 = database w /\ clip_files w1 = clip_files w)
          /\ (buffer_of w camera_id <> [] ->
              database w1
              = update_detection_clip (database w) (pc_detection_id pending)
                  path
              /\ is_Some (clip_files w1 !! path))
          /\ forall later,
               handle_pending_clips annotate later camera_id w1 = w1)
  end.
Proof.
  intros w1. unfold w1, handle_pending_clips.
  destruct (PENDING_CLIPS w !! camera_id) as [pending |] eqn:Hp; [| done].
  split.
  - intros Hearly.
    replace (Qle_bool _ now) with false; [done |].
    symmetry. apply not_true_is_false. rewrite Qle_bool_iff. lra.
  - intros Hdue.
    replace (Qle_bool _ now) with true
      by (symmetry; by apply Qle_bool_iff).
    destruct (decide (buffer_of w camera_id = [])) as [Hbuf | Hbuf].
    + assert (Hsave : save_detection_clip annotate w camera_id
                        (pc_detection_id pending) (pc_trigger_time pending)
                      = (w, None)).
      { unfold save_detection_clip. fold (buffer_of w camera_id).
        by rewrite Hbuf. }
      rewrite Hsave. cbn [fst].
      repeat split; try done.
      intros later. cbn [PENDING_CLIPS with_pending_clips].
      by rewrite lookup_delete_eq.
    + rewrite (save_detection_clip_nonempty _ _ _ _ Hbuf).
      cbn [fst PENDING_CLIPS FRAME_BUFFERS database clip_files
           with_pending_clips with_database with_clip_files].
      repeat split; try done.
      * by rewrite lookup_insert_eq.
      * intros later. by rewrite lookup_delete_eq.
Qed.

End ClipProofs.


(** ** Observations and the logging decision *)

Lemma py_max_cases (a b : Q) :
  (a <= py_max a b)%Q /\ (b <= py_max a b)%Q
  /\ (py_max a b = a \/ py_max a b = b).
Proof.
  unfold py_max. destruct (Qltb a b) eqn:E.
  - apply Qltb_true in E. repeat split; [lra | lra | by right].
  - apply Qltb_false in E. repeat split; [lra | lra | by left].
Qed.

Lemma scan_results_concat results :
  scan_results results = foldl scan_box no_detection (concat results).
Proof.
  unfold scan_results. generalize no_detection.
  induction results as [| boxes results IH]; intros info; [done |].
  simpl. by rewrite foldl_app, IH.
Qed.

(** X5. The observation of a frame, over all boxes of all its results: a
    class is flagged exactly when some box is of that class, a box whose
    name holds both 'fire' and 'smoke' counting as fire only; the maximal
    confidence of a class is at least that of each of its boxes, never
    below 0, and is 0 or the confidence of one of them. *)
Theorem scan_results_observation (results : list (list Box)) :
  let boxes := concat results in
  let obs := scan_results results in
  (has_fire obs = true <-> exists b, b ∈ boxes /\ is_fire_box b = true)
  /\ (has_smoke obs = true <-> exists b, b ∈ boxes /\ is_smoke_box b = true)
  /\ (forall b, b ∈ boxes -> is_fire_box b = true ->
        (box_conf b <= max_fire_confidence obs)%Q)
  /\ (forall b, b ∈ boxes -> is_smoke_box b = true ->
        (box_conf b <= max_smoke_confidence obs)%Q)
  /\ (0 <= max_fire_confidence obs)%Q
  /\ (0 <= max_smoke_confidence obs)%Q
  /\ (max_fire_confidence obs = 0%Q
      \/ exists b, b ∈ boxes /\ is_fire_box b = true
                   /\ max_fire_confidence obs = box_conf b)
  /\ (max_smoke_confidence obs = 0%Q
      \/ exists b, b ∈ boxes /\ is_smoke_box b = true
                   /\ max_smoke_confidence obs = box_conf b).
Proof.
  intros boxes obs. unfold obs. rewrite scan_results_concat. fold boxes.
  clearbody boxes. clear obs.
  induction boxes as [| box boxes IH] using rev_ind.
  - simpl. repeat split; try (intros [b [Hb _]]; by apply elem_of_nil in Hb);
      try (intros b Hb; by apply elem_of_nil in Hb);
      try discriminate; try lra; by left.
  - rewrite foldl_app. simpl.
    set (info := foldl scan_box no_detection boxes) in *.
    destruct IH as (Hf & Hs & Hfu & Hsu & Hf0 & Hs0 & Hfa & Hsa).
    assert (Hold : forall (P : Box -> Prop),
              (exists b, b ∈ boxes /\ P b) ->
              exists b, b ∈ boxes ++ [box] /\ P b).
    { intros P (b & Hb & HP). exists b. split; [| done].
      apply elem_of_app. by left. }
    assert (Hnew : box ∈ boxes ++ [box]).
    { apply elem_of_app. right. by apply list_elem_of_singleton. }
    assert (Hsplit : forall b, b ∈ boxes ++ [box] -> b ∈ boxes \/ b = box).
    { intros b Hb. apply elem_of_app in Hb as [Hb | Hb]; [by left |].
      right. by apply list_elem_of_singleton in Hb. }
    unfold scan_box, is_fire_box, is_smoke_box in *.
    destruct (contains "fire" (lower (box_class_name box))) eqn:Efire;
      [| destruct (contains "smoke" (lower (box_class_name box)))
           eqn:Esmoke];
      cbn [has_fire has_smoke max_fire_confidence max_smoke_confidence].
    + (* a fire box *)
      destruct (py_max_cases (max_fire_confidence info) (box_conf box))
        as (Hle1 & Hle2 & Hcase).
      split; [split; [intros _; by exists box | done] |].
      split.
      { rewrite Hs. split.
        - apply Hold.
        - intros (b & Hb & HP). destruct (Hsplit b Hb) as [Hb' | ->].
          + by exists b.
          + rewrite Efire in HP. discriminate HP. }
      split.
      { intros b Hb HP. destruct (Hsplit b Hb) as [Hb' | ->]; [| done].
        specialize (Hfu b Hb' HP). lra. }
      split.
      { intros b Hb HP. destruct (Hsplit b Hb) as [Hb' | ->]; [by apply Hsu |].
        rewrite Efire in HP. discriminate HP. }
      split; [lra |]. split; [done |]. split.
      { destruct Hcase as [-> | ->].
        - destruct Hfa as [H0 | H]; [by left | right].
          by apply (Hold (fun b => _ /\ _)).
        - right. by exists box. }
      { destruct Hsa as [H0 | H]; [by left | right].
        by apply (Hold (fun b => _ /\ _)). }
    + (* a smoke box *)
      destruct (py_max_cases (max_smoke_confidence info) (box_conf box))
        as (Hle1 & Hle2 & Hcase).
      split.
      { rewrite Hf. split.
        - apply Hold.
        - intros (b & Hb & HP). destruct (Hsplit b Hb) as [Hb' | ->].
          + by exists b.
          + rewrite Efire in HP. discriminate HP. }
      split; [split; [intros _; exists box; by rewrite Efire, Esmoke
                     | done] |].
      split.
      { intros b Hb HP. destruct (Hsplit b Hb) as [Hb' | ->]; [by apply Hfu |].
        rewrite Efire in HP. discriminate HP. }
      split.
      { intros b Hb HP. destruct (Hsplit b Hb) as [Hb' | ->]; [| done].
        specialize (Hsu b Hb' HP). lra. }
      split; [done |]. split; [lra |]. split.
      { destruct Hfa as [H0 | H]; [by left | right].
        by apply (Hold (fun b => _ /\ _)). }
      { destruct Hcase as [-> | ->].
        - destruct Hsa as [H0 | H]; [by left | right].
          by apply (Hold (fun b => _ /\ _)).
        - right. exists box. by rewrite Efire, Esmoke. }
    + (* a box of another class *)
      split.
      { rewrite Hf. split; [apply Hold |].
        intros (b & Hb & HP). destruct (Hsplit b Hb) as [Hb' | ->].
        - by exists b.
        - rewrite Efire in HP. discriminate HP. }
      split.
      { rewrite Hs. split; [apply Hold |].
        intros (b & Hb & HP). destruct (Hsplit b Hb) as [Hb' | ->].
        - by exists b.
        - rewrite Efire, Esmoke in HP. discriminate HP. }
      split.
      { intros b Hb HP. destruct (Hsplit b Hb) as [Hb' | ->]; [by apply Hfu |].
        rewrite Efire in HP. discriminate HP. }
      split.
      { intros b Hb HP. destruct (Hsplit b Hb) as [Hb' | ->]; [by apply Hsu |].
        rewrite Efire, Esmoke in HP. discriminate HP. }
      split; [done |]. split; [done |]. split.
      { destruct Hfa as [H0 | H]; [by left | right].
        by apply (Hold (fun b => _ /\ _)). }
      { destruct Hsa as [H0 | H]; [by left | right].
        by apply (Hold (fun b => _ /\ _)). }
Qed.


Section LoggingProofs.

Context {Frame : Type}.
Variable format_percent : Q -> string.
Variable annotate : Frame -> Frame.
Implicit Types (w : World Frame) (c : Capture Frame).

(** X6. Only the winning class is tested against its threshold, and fire
    wins every tie: when the fire confidence of a frame is at least its
    smoke confidence but below 0.70, nothing is logged and nothing changes,
    also when the smoke confidence reaches 0.65. *)
Theorem weak_fire_hides_smoke w timestamp trigger_time results camera_id
    save_image :
  let obs := scan_results results in
  (max_smoke_confidence obs <= max_fire_confidence obs)%Q ->
  (max_fire_confidence obs < FIRE_CONFIDENCE_THRESHOLD)%Q ->
  winning_class obs = ("fire", max_fire_confidence obs)
  /\ process_detection_results format_percent w timestamp trigger_time
       results camera_id save_image
     = Some (w, obs).
Proof.
  intros obs Hle Hlow.
  assert (Hwin : winning_class obs = ("fire", max_fire_confidence obs)).
  { unfold winning_class.
    by replace (Qle_bool _ _) with true
      by (symmetry; by apply Qle_bool_iff). }
  split; [exact Hwin |].
  destruct save_image; [| reflexivity].
  apply process_not_qualifying. fold obs. unfold qualifies.
  rewrite Hwin. cbn [fst snd]. apply andb_false_iff. right.
  apply not_true_is_false. rewrite Qle_bool_iff.
  unfold class_threshold. rewrite decide_True by done. lra.
Qed.

(** X7. [process_detection_results] raises in one case only: it is allowed
    to save, the observation qualifies, and the camera is not among the
    cached cameras, so that [camera['location']] fails; in every other
    case it returns. *)
Theorem process_raises_on_unknown_camera w timestamp trigger_time results
    camera_id save_image :
  process_detection_results format_percent w timestamp trigger_time results
    camera_id save_image = None
  <-> save_image = true
      /\ qualifies (scan_results results) = true
      /\ snd (get_camera_info w camera_id) = None.
Proof.
  split.
  - intros Hnone. destruct save_image; [| discriminate Hnone].
    split; [done |].
    destruct (qualifies (scan_results results)) eqn:Hq.
    + split; [done |].
      destruct (snd (get_camera_info w camera_id)) as [camera |] eqn:Hcam;
        [| done].
      destruct (process_logs format_percent w timestamp trigger_time results
                  camera_id camera Hq Hcam) as [w1 Hp].
      congruence.
    + rewrite process_not_qualifying in Hnone by done. discriminate Hnone.
  - intros (-> & Hq & Hcam). unfold process_detection_results.
    unfold qualifies in Hq. apply andb_true_iff in Hq as [Hseen Hconf].
    rewrite Hseen. simpl.
    destruct (winning_class _) as [lt conf]. simpl in Hconf. rewrite Hconf.
    destruct (get_camera_info w camera_id) as [w0 cam']. simpl in Hcam.
    by subst cam'.
Qed.

(** X8. The cameras are read from the store once: the first
    [get_camera_info] fills the cache, and from then on every call answers
    from the cache and leaves the world alone, whatever has become of the
    store in between; only [refresh_camera_cache] makes the calls follow
    the store again. *)
Theorem camera_cache_is_read_once w camera_id :
  let cache := default (cameras (database w)) (CAMERAS_CACHE w) in
  let w1 := fst (get_camera_info w camera_id) in
  snd (get_camera_info w camera_id) = cache !! camera_id
  /\ CAMERAS_CACHE w1 = Some cache
  /\ (forall d other,
        get_camera_info (with_database w1 d) other
        = (with_database w1 d, cache !! other))
  /\ (forall d other,
        snd (get_camera_info (refresh_camera_cache (with_database w1 d))
               other)
        = cameras d !! other).
Proof.
  intros cache w1. unfold w1, cache, get_camera_info, refresh_camera_cache.
  destruct (CAMERAS_CACHE w) as [cached |] eqn:E; simpl.
  - rewrite E. repeat split; try done;
      try (intros d other; simpl; by rewrite ?E).
  - by repeat split.
Qed.


Lemma others_kept_trans camera_id w w1 w2 :
  others_kept camera_id w w1 -> others_kept camera_id w1 w2 ->
  others_kept camera_id w w2.
Proof.
  intros H1 H2 other Hne. destruct (H1 other Hne) as [<- <-].
  by apply H2.
Qed.

Lemma update_frame_buffer_others now camera_id (frame : Frame) w :
  others_kept camera_id w (update_frame_buffer now camera_id frame w).
Proof.
  intros other Hne. split; [| done].
  by apply buffer_of_update_other.
Qed.

Lemma handle_pending_clips_others now camera_id w :
  others_kept camera_id w (handle_pending_clips annotate now camera_id w).
Proof.
  intros other Hne. unfold handle_pending_clips.
  destruct (PENDING_CLIPS w !! camera_id) as [pending |]; [| done].
  destruct (Qle_bool _ now); [| done].
  unfold save_detection_clip, buffer_of.
  destruct (default [] (FRAME_BUFFERS w !! camera_id)); simpl;
    by rewrite lookup_delete_ne.
Qed.

Lemma gate_others w camera_id cooldown c w1 cooldown1 info :
  gate format_percent w camera_id cooldown c = Some (w1, cooldown1, info) ->
  others_kept camera_id w w1
  /\ buffer_of w1 camera_id = buffer_of w camera_id.
Proof.
  intros Hg. destruct (detection_id info) as [i |] eqn:Hid.
  - destruct (gate_logged_inv _ _ _ _ _ _ _ _ _ Hg Hid) as (_ & _ & Hp).
    destruct (process_logged_inv _ _ _ _ _ _ _ _ _ _ Hp Hid)
      as (_ & _ & _ & _ & _ & Hpc & Hfb & _).
    split; [| unfold buffer_of; by rewrite Hfb].
    intros other Hne. unfold buffer_of. rewrite Hfb. split; [done |].
    rewrite Hpc. by rewrite lookup_insert_ne.
  - destruct (gate_quiet _ _ _ _ _ _ _ _ Hg Hid) as (-> & _).
    split; [by intros other Hne | done].
Qed.

(** X9. One turn of the loop of [detect_dual_cameras] touches the buffers
    and pending clips of cameras 1 and 2 only, and when no frame of camera 2
    is handled (there is no second camera, or its read failed) the buffer,
    the pending clip and the counter of camera 2 are as they were, whatever
    camera 1 has seen and logged. *)
Theorem dual_loop_keeps_to_its_cameras has_camera2 (s s1 : DualState Frame)
    c1 (c2 : option (Capture Frame)) :
  dual_iteration annotate format_percent has_camera2 s c1 c2 = Some s1 ->
  (forall other, other <> 1%nat -> other <> 2%nat ->
     buffer_of (ds_world s1) other = buffer_of (ds_world s) other
     /\ PENDING_CLIPS (ds_world s1) !! other
        = PENDING_CLIPS (ds_world s) !! other)
  /\ ((if has_camera2 then c2 else None) = None ->
      buffer_of (ds_world s1) 2 = buffer_of (ds_world s) 2
      /\ PENDING_CLIPS (ds_world s1) !! 2%nat
         = PENDING_CLIPS (ds_world s) !! 2%nat
      /\ detection_cooldown_2 s1 = detection_cooldown_2 s)
  /\ ds_frame_count s1 = (ds_frame_count s + 1)%Z.
Proof.
  intros Hit. unfold dual_iteration in Hit.
  set (gated := ((ds_frame_count s + 1) mod 5 =? 0)%Z) in Hit.
  set (wa := update_frame_buffer (cap_time_buffer c1) 1 (cap_frame c1)
               (ds_world s)) in Hit.
  set (wb := handle_pending_clips annotate (cap_time_pending c1) 1 wa)
    in Hit.
  assert (Hb : others_kept 1 (ds_world s) wb).
  { eapply others_kept_trans; [apply update_frame_buffer_others |].
    apply handle_pending_clips_others. }
  destruct (if gated
            then '(w, cd, _) ← gate format_percent wb 1
                                  (detection_cooldown_1 s) c1; Some (w, cd)
            else Some (wb, detection_cooldown_1 s))
    as [[w3 cd1] |] eqn:H1; [| done].
  assert (H3 : others_kept 1 (ds_world s) w3).
  { destruct gated.
    - destruct (gate _ _ _ _ _) as [[[w cd] info] |] eqn:Hg; [| done].
      simpl in H1. injection H1 as <- <-.
      eapply others_kept_trans; [exact Hb |]. by eapply gate_others.
    - by injection H1 as <- <-. }
  destruct (if has_camera2 then c2 else None) as [c |] eqn:Hc2.
  - set (wc := update_frame_buffer (cap_time_buffer c) 2 (cap_frame c) w3)
      in Hit.
    set (wd := handle_pending_clips annotate (cap_time_pending c) 2 wc)
      in Hit.
    assert (Hd : others_kept 2 w3 wd).
    { eapply others_kept_trans; [apply update_frame_buffer_others |].
      apply handle_pending_clips_others. }
    destruct (if gated
              then '(w, cd, _) ← gate format_percent wd 2
                                    (detection_cooldown_2 s) c; Some (w, cd)
              else Some (wd, detection_cooldown_2 s))
      as [[w6 cd2] |] eqn:H2; [| done].
    assert (H6 : others_kept 2 w3 w6).
    { destruct gated.
      - destruct (gate _ wd _ _ _) as [[[w cd] info] |] eqn:Hg; [| done].
        simpl in H2. injection H2 as <- <-.
        eapply others_kept_trans; [exact Hd |]. by eapply gate_others.
      - by injection H2 as <- <-. }
    injection Hit as <-. simpl. split; [| done].
    intros other Hn1 Hn2.
    destruct (H3 other Hn1) as [<- <-]. by apply H6.
  - injection Hit as <-. simpl. split; [| split; [| done]].
    + intros other Hn1 _. by apply H3.
    + intros _. by destruct (H3 2%nat ltac:(done)) as [-> ->].
Qed.

End LoggingProofs.

(** X10. In the loop of [detect_dual_cameras] the live image of camera 2 is
    never written: its test of [last_frame_save] comes after camera 1 has
    set that variable to the current frame count, or after the same test
    has just failed for camera 1. *)
Theorem dual_loop_never_saves_camera2_frame (frame_count last_frame_save : Z) :
  snd (fst (dual_live_frames frame_count last_frame_save)) = false.
Proof.
  unfold dual_live_frames. cbn [fst snd].
  destruct (10 <=? frame_count - last_frame_save)%Z eqn:E; [| exact E].
  apply Z.leb_gt. lia.
Qed.


(** ** Detections and alerts in the store *)

Lemma with_detections_id (d : DB) : with_detections d (detections d) = d.
Proof. by destruct d. Qed.

Lemma with_alerts_id (d : DB) : with_alerts d (alerts d) = d.
Proof. by destruct d. Qed.

Lemma fmap_unless_id {A} (key : A -> nat) (f : A -> A) (i : nat)
    (rows : list A) :
  i ∉ key <$> rows ->
  (fun r => if decide (key r = i) then f r else r) <$> rows = rows.
Proof.
  induction rows as [| r rows IH]; [done |].
  rewrite fmap_cons, not_elem_of_cons. intros [Hne Hin].
  rewrite fmap_cons, decide_False by done. by rewrite IH.
Qed.

(** X11. The id [log_detection] returns is new to the table and not 0, and
    the row it names has no clip yet.  [update_detection_clip] with that id
    puts the path on that row and on no other; with an id no row has it
    changes nothing. *)
Theorem clip_path_reaches_logged_detection (d : DB) (camera_id : nat)
    (detection_type : string) (confidence : Q) (image_path location : string)
    (latitude longitude : option Q) (camera_name clip_path : string) :
  let logged := log_detection d camera_id detection_type confidence
                  image_path location latitude longitude camera_name in
  let i := snd logged in
  (i ∉ det_id <$> detections d) /\ i <> 0%nat
  /\ (exists row,
        detections (fst logged) = detections d ++ [row]
        /\ det_id row = i /\ det_clip_path row = None
        /\ det_status row = "pending"
        /\ detections (update_detection_clip (fst logged) i clip_path)
           = detections d ++ [set_clip_path clip_path row])
  /\ (forall j, j ∉ det_id <$> detections d ->
        update_detection_clip d j clip_path = d).
Proof.
  intros logged i.
  assert (Hfresh : i ∉ det_id <$> detections d) by apply next_rowid_fresh.
  split; [exact Hfresh |]. split; [done |]. split.
  - eexists. split; [reflexivity |]. repeat split.
    unfold update_detection_clip, logged, log_detection.
    cbn [fst detections with_detections]. rewrite fmap_app.
    rewrite (fmap_unless_id det_id (set_clip_path clip_path)) by exact Hfresh.
    simpl. by rewrite decide_True.
  - intros j Hj. unfold update_detection_clip.
    rewrite (fmap_unless_id det_id (set_clip_path clip_path)) by exact Hj.
    apply with_detections_id.
Qed.

(** X12. [create_alert] appends an 'active' alert under an id new to the
    table, which it returns; [update_alert_status] with that id changes the
    status of that alert, and nothing else of it or of any other alert; with
    an id no alert has it changes nothing. *)
Theorem alert_status_follows_update (d : DB) (detection_id : nat)
    (alert_level message status : string) :
  let created := create_alert d detection_id alert_level message in
  let i := snd created in
  (i ∉ al_id <$> alerts d)
  /\ alerts (fst created)
     = alerts d ++ [ {| al_id := i; al_detection_id := detection_id;
                        al_alert_level := alert_level;
                        al_message := message; al_status := "active" |} ]
  /\ alerts (update_alert_status (fst created) i status)
     = alerts d ++ [ {| al_id := i; al_detection_id := detection_id;
                        al_alert_level := alert_level;
                        al_message := message; al_status := status |} ]
  /\ (forall j, j ∉ al_id <$> alerts d -> update_alert_status d j status = d).
Proof.
  intros created i.
  assert (Hfresh : i ∉ al_id <$> alerts d) by apply next_rowid_fresh.
  split; [exact Hfresh |]. split; [done |]. split.
  - unfold update_alert_status, created, create_alert.
    cbn [fst alerts with_alerts]. rewrite fmap_app.
    rewrite (fmap_unless_id al_id
               (fun a => {| al_id := al_id a;
                            al_detection_id := al_detection_id a;
                            al_alert_level := al_alert_level a;
                            al_message := al_message a;
                            al_status := status |})) by exact Hfresh.
    simpl. by rewrite decide_True.
  - intros j Hj. unfold update_alert_status.
    rewrite (fmap_unless_id al_id
               (fun a => {| al_id := al_id a;
                            al_detection_id := al_detection_id a;
                            al_alert_level := al_alert_level a;
                            al_message := al_message a;
                            al_status := status |})) by exact Hj.
    apply with_alerts_id.
Qed.


(** ** The roster of firefighters *)

Lemma filter_ext_in {A} (P1 P2 : A -> Prop)
    `{!forall x, Decision (P1 x), !forall x, Decision (P2 x)} (l : list A) :
  Forall (fun x => P1 x <-> P2 x) l -> filter P1 l = filter P2 l.
Proof.
  induction 1 as [| x l Hx _ IH]; [done |].
  rewrite !filter_cons. destruct (decide (P1 x)), (decide (P2 x));
    try tauto; by rewrite IH.
Qed.

(** What every call that writes to [firefighters] keeps: [id] is a key, no
    id is above the sequence number, and every firefighter is 'online'. *)
Lemma roster_call_keeps (s : DB * nat) (c : RosterCall) :
  NoDup (ff_id <$> firefighters (fst s)) ->
  Forall (fun f => (ff_id f <= snd s)%nat) (firefighters (fst s)) ->
  Forall (fun f => ff_status f = "online") (firefighters (fst s)) ->
  let s1 := roster_call s c in
  NoDup (ff_id <$> firefighters (fst s1))
  /\ Forall (fun f => (ff_id f <= snd s1)%nat) (firefighters (fst s1))
  /\ Forall (fun f => ff_status f = "online") (firefighters (fst s1))
  /\ (snd s <= snd s1)%nat
  /\ firefighter_alerts (fst s1) = firefighter_alerts (fst s)
  /\ firefighter_stats (fst s1) = firefighter_stats (fst s).
Proof.
  destruct s as [d seq]. cbn [fst snd]. intros Hkey Hseq Hon.
  destruct c as [name phone station | i name phone station | i];
    cbn [roster_call fst snd].
  - unfold add_firefighter. cbn [fst snd firefighters with_firefighters
                                  firefighter_alerts firefighter_stats].
    split; [| split; [| split; [| split; [lia | done]]]].
    + rewrite fmap_app. apply NoDup_app. split; [done |]. split.
      * intros j Hj Hnew. apply list_elem_of_singleton in Hnew.
        apply max_id_bound in Hj. simpl in Hnew. lia.
      * apply NoDup_singleton.
    + apply Forall_app. split; [| by constructor].
      eapply Forall_impl; [exact Hseq |]. simpl. lia.
    + apply Forall_app. split; [done | by constructor].
  - unfold update_firefighter. cbn [firefighters with_firefighters
                                    firefighter_alerts firefighter_stats].
    split; [| split; [| split; [| done]]].
    + rewrite <- list_fmap_compose.
      erewrite list_fmap_ext; [exact Hkey |].
      intros k f _. simpl. by case_decide.
    + apply Forall_fmap. eapply Forall_impl; [exact Hseq |].
      intros f Hf. simpl. by case_decide.
    + apply Forall_fmap. eapply Forall_impl; [exact Hon |].
      intros f Hf. simpl. by case_decide.
  - unfold delete_firefighter. cbn [firefighters with_firefighters
                                    firefighter_alerts firefighter_stats].
    split; [| split; [| split; [| done]]].
    + apply (sublist_NoDup _ (ff_id <$> firefighters d));
        [exact Hkey |].
      apply fmap_sublist. apply sublist_filter.
    + rewrite Forall_forall in Hseq |- *. intros f Hf.
      apply list_elem_of_filter in Hf as [_ Hf]. by apply Hseq.
    + rewrite Forall_forall in Hon |- *. intros f Hf.
      apply list_elem_of_filter in Hf as [_ Hf]. by apply Hon.
Qed.

Lemma roster_calls_keep (cs : list RosterCall) : forall (s : DB * nat),
  NoDup (ff_id <$> firefighters (fst s)) ->
  Forall (fun f => (ff_id f <= snd s)%nat) (firefighters (fst s)) ->
  Forall (fun f => ff_status f = "online") (firefighters (fst s)) ->
  let s1 := roster_calls s cs in
  NoDup (ff_id <$> firefighters (fst s1))
  /\ Forall (fun f => (ff_id f <= snd s1)%nat) (firefighters (fst s1))
  /\ Forall (fun f => ff_status f = "online") (firefighters (fst s1))
  /\ (snd s <= snd s1)%nat
  /\ firefighter_alerts (fst s1) = firefighter_alerts (fst s)
  /\ firefighter_stats (fst s1) = firefighter_stats (fst s).
Proof.
  induction cs as [| c cs IH]; intros s Hkey Hseq Hon.
  - simpl. by repeat split.
  - destruct (roster_call_keeps s c Hkey Hseq Hon)
      as (Hkey1 & Hseq1 & Hon1 & Hle1 & Ha1 & Hs1).
    destruct (IH (roster_call s c) Hkey1 Hseq1 Hon1)
      as (Hkey2 & Hseq2 & Hon2 & Hle2 & Ha2 & Hs2).
    simpl. unfold roster_calls in *.
    split; [done |]. split; [done |]. split; [done |].
    split; [lia |]. split; congruence.
Qed.

(** X13. Starting from an empty table, after any sequence of
    [add_firefighter], [update_firefighter] and [delete_firefighter] calls
    the ids of the firefighters are pairwise different and none is above
    the sequence number, so that an id is never given out twice; every
    firefighter is 'online', no call ever writing another status; the
    alerts and the stats of firefighters are what they were, also those of
    a firefighter deleted.  A broadcast to a station then reaches every
    firefighter of that station, once each. *)
Theorem roster_is_keyed_and_online (d : DB) (seq : nat)
    (calls : list RosterCall) (station_id alert_id detection_id : nat)
    (alert_type location area : string) (confidence : Q)
    (current_timestamp : nat -> string) :
  firefighters d = [] ->
  let s := roster_calls (d, seq) calls in
  let result := broadcast_alert_to_station (fst s) station_id alert_id
                  detection_id alert_type location area confidence
                  current_timestamp in
  NoDup (ff_id <$> firefighters (fst s))
  /\ Forall (fun f => (ff_id f <= snd s)%nat /\ ff_status f = "online")
       (firefighters (fst s))
  /\ (seq <= snd s)%nat
  /\ firefighter_alerts (fst s) = firefighter_alerts d
  /\ firefighter_stats (fst s) = firefighter_stats d
  /\ exists new_rows,
       firefighter_alerts (fst result) = firefighter_alerts d ++ new_rows
       /\ fa_firefighter_id <$> new_rows
          = ff_id <$> filter (fun f => ff_station f = station_id)
                        (firefighters (fst s)).
Proof.
  intros Hempty s result.
  destruct (roster_calls_keep calls (d, seq))
    as (Hkey & Hseq & Hon & Hle & Ha & Hs);
    [cbn [fst snd]; rewrite Hempty; constructor ..|].
  fold s in Hkey, Hseq, Hon, Hle, Ha, Hs. cbn [fst snd] in Hle, Ha, Hs.
  split; [exact Hkey |]. split; [by apply Forall_and |].
  split; [exact Hle |]. split; [exact Ha |]. split; [exact Hs |].
  destruct (broadcast_loop_rows station_id alert_id detection_id alert_type
              location area confidence current_timestamp
              (select_online_firefighters (fst s) station_id)
              0 (firefighter_alerts (fst s)) [])
    as (rows & Heq & Hff & _).
  exists rows. unfold result, broadcast_alert_to_station. rewrite Heq.
  cbn [fst firefighter_alerts with_firefighter_alerts]. rewrite Ha.
  split; [done |]. rewrite Hff. unfold select_online_firefighters.
  f_equal. apply filter_ext_in.
  eapply Forall_impl; [exact Hon |]. intros f Hf. simpl.
  unfold online_in_station.
  rewrite andb_true_iff, !bool_decide_eq_true. tauto.
Qed.


(** ** Pending alerts and their history *)

#[global] Instance received_not_before_total : Total received_not_before.
Proof.
  intros a b. unfold received_not_before.
  destruct (String.leb_total (fa_received_at b) (fa_received_at a));
    [by left | by right].
Qed.

Lemma insert_by_received_Permutation r rows :
  insert_by_received r rows ≡ₚ r :: rows.
Proof.
  induction rows as [| x rest IH]; simpl; [done |].
  case_decide; [done |]. rewrite IH. apply Permutation_swap.
Qed.

Lemma order_by_received_desc_Permutation rows :
  order_by_received_desc rows ≡ₚ rows.
Proof.
  induction rows as [| r rest IH]; simpl; [done |].
  by rewrite insert_by_received_Permutation, IH.
Qed.

Lemma insert_by_received_Sorted r rows :
  Sorted received_not_before rows ->
  Sorted received_not_before (insert_by_received r rows).
Proof.
  induction rows as [| x rest IH]; intros Hs; simpl.
  - by repeat constructor.
  - case_decide as Hrx.
    + constructor; [done |]. by constructor.
    + apply Sorted_inv in Hs as [Hrest Hhd].
      constructor; [by apply IH |].
      destruct rest as [| y rest']; simpl.
      * constructor. by destruct (total received_not_before x r).
      * case_decide.
        -- constructor. by destruct (total received_not_before x r).
        -- constructor. by apply HdRel_inv in Hhd.
Qed.

Lemma order_by_received_desc_Sorted rows :
  Sorted received_not_before (order_by_received_desc rows).
Proof.
  induction rows as [| r rest IH]; simpl; [constructor |].
  by apply insert_by_received_Sorted.
Qed.

Lemma elem_of_get_pending (d : DB) firefighter_id station_id r :
  r ∈ get_pending_firefighter_alerts d firefighter_id station_id
  <-> r ∈ firefighter_alerts d
      /\ alert_selected firefighter_id station_id r
      /\ fa_status r = "pending".
Proof.
  unfold get_pending_firefighter_alerts.
  rewrite order_by_received_desc_Permutation, list_elem_of_filter. tauto.
Qed.

Lemma elem_of_get_history (d : DB) firefighter_id station_id limit r :
  r ∈ get_firefighter_alert_history d firefighter_id station_id limit ->
  r ∈ firefighter_alerts d
  /\ alert_selected firefighter_id station_id r
  /\ fa_status r <> "pending".
Proof.
  unfold get_firefighter_alert_history.
  intros Hr. apply subseteq_take in Hr.
  rewrite order_by_received_desc_Permutation, list_elem_of_filter in Hr.
  tauto.
Qed.

Section HistoryProofs.

Variable fromisoformat : string -> option Q.

(** X14. The pending alerts of a firefighter, of a station or of all are
    the rows selected whose status is 'pending', latest received first; the
    history holds only rows selected whose status is something else, so no
    row is ever in both.  After a response of any type other than 'pending'
    to an id, the pending alerts are those of before without the rows of
    that id. *)
Theorem response_leaves_the_pending_list (d : DB)
    (firefighter_id station_id : option nat) (limit alert_id : nat)
    (response_type now today : string) :
  response_type <> "pending" ->
  let d1 := respond_to_firefighter_alert fromisoformat d alert_id
              response_type now today in
  (forall r, r ∈ get_pending_firefighter_alerts d firefighter_id station_id
             <-> r ∈ firefighter_alerts d
                 /\ alert_selected firefighter_id station_id r
                 /\ fa_status r = "pending")
  /\ Sorted received_not_before
       (get_pending_firefighter_alerts d firefighter_id station_id)
  /\ (forall r,
        r ∈ get_firefighter_alert_history d firefighter_id station_id limit ->
        r ∈ firefighter_alerts d
        /\ alert_selected firefighter_id station_id r
        /\ r ∉ get_pending_firefighter_alerts d firefighter_id station_id)
  /\ (forall r,
        r ∈ get_pending_firefighter_alerts d1 firefighter_id station_id
        <-> r ∈ get_pending_firefighter_alerts d firefighter_id station_id
            /\ fa_id r <> alert_id).
Proof.
  intros Hrt d1.
  split; [intros r; apply elem_of_get_pending |].
  split; [apply order_by_received_desc_Sorted |].
  split.
  - intros r Hr. apply elem_of_get_history in Hr as (Hin & Hsel & Hst).
    split; [done |]. split; [done |].
    rewrite elem_of_get_pending. tauto.
  - intros r. rewrite !elem_of_get_pending. unfold d1.
    rewrite respond_alerts, list_elem_of_fmap. split.
    + intros ((r0 & -> & Hr0) & Hsel & Hst).
      destruct (decide (fa_id r0 = alert_id)) as [E | E].
      * simpl in Hst. done.
      * done.
    + intros ((Hin & Hsel & Hst) & Hne).
      split; [| done]. exists r. split; [| done].
      by rewrite decide_False.
Qed.

End HistoryProofs.


(** ** Reading the statistics of firefighters *)

Lemma elem_of_station_stats_rows (d : DB) (station : nat) fs :
  fs ∈ station_stats_rows d station
  <-> fs ∈ firefighter_stats d
      /\ exists f, f ∈ firefighters d /\ ff_id f = fs_firefighter_id fs
                   /\ ff_station f = station.
Proof.
  unfold station_stats_rows. rewrite list_elem_of_bind. split.
  - intros (fs0 & Hin & Hfs0).
    apply list_elem_of_bind in Hin as (f & Hin & Hf).
    case_decide as E; [| by apply elem_of_nil in Hin].
    apply list_elem_of_singleton in Hin. subst fs0.
    split; [done |]. exists f. destruct E. by repeat split.
  - intros (Hfs & f & Hf & Hid & Hst). exists fs. split; [| done].
    apply list_elem_of_bind. exists f. split; [| done].
    rewrite decide_True by done. by apply list_elem_of_singleton.
Qed.

(** X15. [get_firefighter_stats] looks at the station only when no
    firefighter id is given, 0 counting as not given.  For a firefighter it
    returns the stored row, and the zeros when there is none.  For a station
    it aggregates the stats rows of the firefighters now on the roster of
    that station, and when there are none it returns NULL aggregates, not
    the zeros.  Without either id it returns the zeros. *)
Theorem get_firefighter_stats_cases (d : DB)
    (firefighter_id station_id : option nat) :
  let report := get_firefighter_stats d firefighter_id station_id in
  (forall n, firefighter_id = Some (S n) ->
     report = match fetch_firefighter_stats (firefighter_stats d) (S n) with
              | Some row => ReportRow row
              | None => ReportDefault
              end)
  /\ (forall n, truthy firefighter_id = false -> station_id = Some (S n) ->
        let rows := station_stats_rows d (S n) in
        (forall fs,
           fs ∈ rows
           <-> fs ∈ firefighter_stats d
               /\ exists f, f ∈ firefighters d
                            /\ ff_id f = fs_firefighter_id fs
                            /\ ff_station f = S n)
        /\ (rows = [] -> report = ReportStation None None None None)
        /\ (rows <> [] ->
            report
            = ReportStation
                (Some (foldr Z.add 0%Z (total_responded <$> rows)))
                (Some (foldr Z.add 0%Z (total_acknowledged <$> rows)))
                (Some (foldr Z.add 0%Z (total_alerts_today <$> rows)))
                (Some (foldr Qplus 0%Q (avg_response_time_seconds <$> rows)
                       / inject_Z (Z.of_nat (length rows)))%Q)))
  /\ (truthy firefighter_id = false -> truthy station_id = false ->
      report = ReportDefault).
Proof.
  intros report. unfold report, get_firefighter_stats. split; [| split].
  - by intros n ->.
  - intros n -> ->. cbn [truthy].
    change (default 0%nat (Some (S n))) with (S n).
    set (rows := station_stats_rows d (S n)).
    split; [intros fs; apply elem_of_station_stats_rows |]. split.
    + by intros ->.
    + intros Hrows. destruct rows as [| fs rows]; [done |].
      rewrite !fmap_cons. cbn [sql_sum sql_avg length].
      by rewrite length_fmap.
  - by intros -> ->.
Qed.

Section StatsReadProofs.

Variable fromisoformat : string -> option Q.

(** X16. What a response has written is what [get_firefighter_stats] reads
    back for the responder: the row the UPDATE started from, or the
    defaults for a first response, with [total_alerts_today] incremented,
    exactly one of the two other counters incremented and the other as it
    was ([total_responded] for 'responded', [total_acknowledged] for any
    other response type), and [last_response_at] at the time of the call;
    any station id passed along is ignored. *)
Theorem stats_read_back_after_response (d : DB) (alert_id : nat)
    (response_type now today : string) (station_id : option nat)
    (row : FirefighterAlert) :
  fetch_firefighter_alert (firefighter_alerts d) alert_id = Some row ->
  fa_firefighter_id row <> 0%nat ->
  let before := stats_before (firefighter_stats d) (fa_firefighter_id row)
                  today in
  exists after,
    get_firefighter_stats
      (respond_to_firefighter_alert fromisoformat d alert_id response_type
         now today)
      (Some (fa_firefighter_id row)) station_id
    = ReportRow after
    /\ total_alerts_today after = (total_alerts_today before + 1)%Z
    /\ last_response_at after = Some now
    /\ (if decide (response_type = "responded")
        then total_responded after = (total_responded before + 1)%Z
             /\ total_acknowledged after = total_acknowledged before
        else total_acknowledged after = (total_acknowledged before + 1)%Z
             /\ total_responded after = total_responded before)
    /\ fs_firefighter_id after = fa_firefighter_id row.
Proof.
  intros Hrow Hne before.
  pose proof (respond_stats_row fromisoformat d alert_id response_type now
                today row Hrow) as Hs.
  destruct (fa_firefighter_id row) as [| n] eqn:Hf; [done |].
  unfold get_firefighter_stats. cbn [truthy].
  change (default 0%nat (Some (S n))) with (S n). rewrite Hs.
  eexists. split; [reflexivity |].
  assert (Hid : fs_firefighter_id before = S n).
  { unfold before, stats_before.
    destruct (fetch_firefighter_stats (firefighter_stats d) (S n))
      as [r |] eqn:E; [| done].
    simpl. unfold fetch_firefighter_stats in E.
    apply head_Some_elem_of in E. by apply list_elem_of_filter in E as [E _]. }
  fold before. case_decide; simpl; repeat split; done.
Qed.

End StatsReadProofs.


(** ** The daily counters *)

Lemma insert_or_ignore_day_conflict tbl today :
  Exists (day_conflict today) tbl -> insert_or_ignore_day tbl today = tbl.
Proof. intros H. unfold insert_or_ignore_day. by rewrite decide_True. Qed.

(** A table as [reset_daily_stats] leaves it, with the row of today last:
    the update counts on that row and on no other. *)
Lemma update_daily_stats_today rest row today detection_type :
  Forall (fun r => ~ day_conflict today r) rest ->
  day_date row = today ->
  _update_daily_stats (rest ++ [row]) today detection_type
  = rest ++ [count_detection detection_type row].
Proof.
  intros Hrest Hrow. unfold _update_daily_stats.
  rewrite insert_or_ignore_day_conflict.
  - rewrite fmap_app. simpl. rewrite decide_True by done. f_equal.
    induction Hrest as [| r rest Hr _ IH]; [done |].
    rewrite fmap_cons, IH. f_equal. rewrite decide_False; [done |].
    intros Hd. apply Hr. by right.
  - apply Exists_app. right. constructor. by right.
Qed.

Lemma fetch_day_last rest row today :
  Forall (fun r => ~ day_conflict today r) rest ->
  day_date row = today ->
  fetch_day (rest ++ [row]) today = Some row.
Proof.
  intros Hrest Hrow. unfold fetch_day. rewrite filter_app.
  rewrite (filter_none (fun r => day_date r = today) rest).
  - simpl. by rewrite filter_cons_True.
  - eapply Forall_impl; [exact Hrest |]. intros r Hr Hd. apply Hr.
    by right.
Qed.

(** X17. After [reset_daily_stats], today's row counts the detections
    logged since: their number, and how many of them were fire and how many
    smoke.  But a table whose row 1 is of another day is left as it is by
    [_update_daily_stats], which neither replaces that row nor can insert
    one beside it: until the next reset no detection is counted. *)
Theorem daily_counters_need_a_reset (tbl : list DailyStats)
    (today : string) (types : list string) :
  (forall detection_type,
     Exists (fun r => day_id r = 1%nat) tbl ->
     Forall (fun r => day_date r <> today) tbl ->
     _update_daily_stats tbl today detection_type = tbl
     /\ fetch_day tbl today = None)
  /\ fetch_day
       (foldl (fun t detection_type =>
                 _update_daily_stats t today detection_type)
          (reset_daily_stats tbl today) types) today
     = Some {| day_id := 1; day_date := today;
               detections_today := Z.of_nat (length types);
               fire_today :=
                 Z.of_nat (length (filter (fun t => t = "fire") types));
               smoke_today :=
                 Z.of_nat (length (filter (fun t => t = "smoke") types));
               avg_response_time := 3.2 |}.
Proof.
  split.
  - intros detection_type Hone Hdates. split.
    + unfold _update_daily_stats.
      rewrite insert_or_ignore_day_conflict.
      * clear Hone. induction Hdates as [| r rest Hr _ IH]; [done |].
        rewrite fmap_cons, decide_False by done. by f_equal.
      * eapply Exists_impl; [exact Hone |]. intros r Hr. by left.
    + unfold fetch_day. by rewrite filter_none.
  - set (rest := filter (fun r => ~ day_conflict today r) tbl).
    assert (Hrest : Forall (fun r => ~ day_conflict today r) rest).
    { rewrite Forall_forall. intros r Hr.
      by apply list_elem_of_filter in Hr as [Hr _]. }
    assert (Hrun : forall row,
      day_date row = today ->
      exists row1,
        foldl (fun t detection_type =>
                 _update_daily_stats t today detection_type)
          (rest ++ [row]) types = rest ++ [row1]
        /\ day_id row1 = day_id row /\ day_date row1 = today
        /\ avg_response_time row1 = avg_response_time row
        /\ detections_today row1
           = (detections_today row + Z.of_nat (length types))%Z
        /\ fire_today row1
           = (fire_today row
              + Z.of_nat (length (filter (fun t => t = "fire") types)))%Z
        /\ smoke_today row1
           = (smoke_today row
              + Z.of_nat (length (filter (fun t => t = "smoke") types)))%Z).
    { induction types as [| ty types IH]; intros row Hrow.
      - exists row. simpl. repeat split; try done; lia.
      - simpl foldl. rewrite update_daily_stats_today by done.
        destruct (IH (count_detection ty row))
          as (row1 & Hfold & Hid & Hdate & Havg & Hn & Hf & Hs);
          [done |].
        exists row1. rewrite Hfold, Hid, Hdate, Havg, Hn, Hf, Hs.
        rewrite !filter_cons. simpl.
        repeat split; try done; repeat case_decide; simpl length; lia. }
    destruct (Hrun (fresh_day today) eq_refl)
      as (row1 & Hfold & Hid & Hdate & Havg & Hn & Hf & Hs).
    unfold reset_daily_stats. fold rest. rewrite Hfold.
    rewrite fetch_day_last by done. f_equal.
    destruct row1. simpl in *. by subst.
Qed.


(** ** The half-hour history *)

Lemma interval_counts_app_fresh tbl row start :
  Forall (fun r => interval_start r <> start) tbl ->
  interval_counts (tbl ++ [row]) start
  = if decide (interval_start row = start)
    then (fire_count row, smoke_count row) else (0%Z, 0%Z).
Proof.
  intros Hnone. unfold interval_counts. rewrite filter_app.
  rewrite (filter_none (fun r => interval_start r = start) tbl) by done.
  simpl. rewrite filter_cons. by case_decide.
Qed.

Lemma interval_counts_update tbl start other fire smoke :
  interval_counts
    ((fun r => if decide (interval_start r = start)
               then add_to_interval fire smoke r else r) <$> tbl) other
  = if decide (start = other)
    then match head (filter (fun r => interval_start r = other) tbl) with
         | Some r => ((fire_count r + fire)%Z, (smoke_count r + smoke)%Z)
         | None => (0%Z, 0%Z)
         end
    else interval_counts tbl other.
Proof.
  unfold interval_counts. induction tbl as [| r tbl IH]; simpl.
  { by case_decide. }
  rewrite !filter_cons.
  destruct (decide (interval_start r = start)) as [E | E]; simpl.
  - destruct (decide (interval_start r = other)) as [E' | E']; simpl.
    + by rewrite decide_True by congruence.
    + exact IH.
  - destruct (decide (interval_start r = other)) as [E' | E']; simpl.
    + by rewrite decide_False by congruence.
    + exact IH.
Qed.

(** X18. A detection is counted in the half hour it falls in: the interval
    starts on the hour or the half hour, at or up to 29 minutes before the
    time of the detection, seconds dropped.  The table keeps one row per
    half hour; the counts of that half hour, 0 before its first detection,
    grow by one for the class of the detection, and the counts of every
    other half hour are left as they were. *)
Theorem detection_history_counts_by_half_hour (tbl : list HistoryRow)
    (now : DateTime) (detection_type : string) :
  NoDup (interval_start <$> tbl) ->
  (0 <= dt_minute now < 60)%Z ->
  let start := interval_start_of now in
  let tbl1 := _update_detection_history tbl now detection_type in
  (dt_minute start = 0 \/ dt_minute start = 30)%Z
  /\ (dt_minute start <= dt_minute now < dt_minute start + 30)%Z
  /\ interval_start_of start = start
  /\ NoDup (interval_start <$> tbl1)
  /\ interval_counts tbl1 start
     = ((fst (interval_counts tbl start)
         + if decide (detection_type = "fire") then 1 else 0)%Z,
        (snd (interval_counts tbl start)
         + if decide (detection_type = "smoke") then 1 else 0)%Z)
  /\ (forall other, other <> start ->
        interval_counts tbl1 other = interval_counts tbl other).
Proof.
  intros Hkey Hmin start tbl1.
  assert (Hm : (dt_minute start = 0 /\ dt_minute now < 30
                \/ dt_minute start = 30 /\ 30 <= dt_minute now)%Z).
  { unfold start, interval_start_of. cbn [dt_minute].
    destruct (Z.lt_ge_cases (dt_minute now) 30) as [Hlt | Hge].
    - left. rewrite Z.div_small by lia. lia.
    - right. replace (dt_minute now / 30)%Z with 1%Z; [lia |].
      apply Z.div_unique with (r := (dt_minute now - 30)%Z); lia. }
  split; [lia |]. split; [lia |]. split.
  { unfold interval_start_of. cbn [dt_year dt_month dt_day dt_hour dt_minute].
    fold start. destruct Hm as [[Hm _] | [Hm _]]; unfold start in Hm |- *;
      unfold interval_start_of in Hm |- *; cbn [dt_minute] in Hm |- *;
      by rewrite Hm. }
  unfold tbl1, _update_detection_history. fold start.
  set (fire := (if decide (detection_type = "fire") then 1 else 0)%Z).
  set (smoke := (if decide (detection_type = "smoke") then 1 else 0)%Z).
  destruct (decide (Exists (fun r => interval_start r = start) tbl))
    as [Hex | Hnone].
  - split; [| split].
    + rewrite <- list_fmap_compose.
      erewrite list_fmap_ext; [exact Hkey |].
      intros k r _. simpl. by case_decide.
    + rewrite interval_counts_update, decide_True by done.
      unfold interval_counts.
      destruct (head (filter _ tbl)) as [r |] eqn:E; [done |].
      exfalso. apply head_None in E.
      apply Exists_exists in Hex as (r & Hr & Hs).
      assert (Hin : r ∈ filter (fun r => interval_start r = start) tbl)
        by (by apply list_elem_of_filter).
      rewrite E in Hin. by apply elem_of_nil in Hin.
    + intros other Hne. rewrite interval_counts_update.
      by rewrite decide_False.
  - assert (Hall : Forall (fun r => interval_start r <> start) tbl).
    { rewrite Forall_forall. intros r Hr Hs. apply Hnone.
      apply Exists_exists. by exists r. }
    split; [| split].
    + rewrite fmap_app. apply NoDup_app. split; [done |]. split.
      * intros i Hi Hnew. apply list_elem_of_singleton in Hnew. simpl in Hnew.
        apply list_elem_of_fmap in Hi as (r & -> & Hr).
        rewrite Forall_forall in Hall. by apply (Hall r).
      * apply NoDup_singleton.
    + rewrite interval_counts_app_fresh by done. simpl.
      rewrite decide_True by done. unfold interval_counts.
      by rewrite (filter_none _ tbl) by done.
    + intros other Hne. unfold interval_counts. rewrite filter_app.
      simpl. rewrite filter_cons. simpl.
      rewrite decide_False by done. by rewrite app_nil_r.
Qed.

(** * Worked examples *)

Section Worked.

Import Examples.

Abbreviation respond := (respond_to_firefighter_alert iso_seconds).

Local Ltac by_computation := vm_compute; reflexivity.

(** The buffer after appends at 0, 1 and 3 seconds and a last one at 9
    seconds keeps the samples of the last 7 seconds. *)
Lemma frame_buffer_retention_example :
  time_ordered (buffer_of start 1
                ++ [(0%Q, 1%nat); (1%Q, 2%nat); (3%Q, 3%nat)]
                ++ [(9%Q, 4%nat)])
  /\ buffer_of (append_all 1 start
                  ([(0%Q, 1%nat); (1%Q, 2%nat); (3%Q, 3%nat)]
                   ++ [(9%Q, 4%nat)])) 1
     = [(3%Q, 3%nat); (9%Q, 4%nat)]
  /\ time_ordered
       (buffer_of (append_all 1 start
                     ([(0%Q, 1%nat); (1%Q, 2%nat); (3%Q, 3%nat)]
                      ++ [(9%Q, 4%nat)])) 1).
Proof.
  assert (H : time_ordered (buffer_of start 1
                ++ [(0%Q, 1%nat); (1%Q, 2%nat); (3%Q, 3%nat)]
                ++ [(9%Q, 4%nat)])).
  { unfold time_ordered. simpl.
    repeat (constructor; simpl); unfold Qle; simpl; lia. }
  split; [exact H |]. split; [by_computation |].
  exact (proj1 (proj2 (frame_buffer_retention_and_order 1 start
                         [(0%Q, 1%nat); (1%Q, 2%nat); (3%Q, 3%nat)]
                         9%Q 4%nat H))).
Defined.

(** A station with three online firefighters and one offline: three rows. *)
Lemma broadcast_three_rows_example :
  NoDup (ff_id <$> firefighters station_db)
  /\ length (firefighter_alerts
               (fst (broadcast_alert_to_station station_db 1 11 21 "fire"
                       "Building A - Warehouse" "Dock" 0.91
                       (fun _ => "2026-03-01 10:00:00"))))
     = 3%nat.
Proof.
  assert (H : NoDup (ff_id <$> firefighters station_db)).
  { apply (bool_decide_eq_true_1 (NoDup _)). by_computation. }
  split; [exact H |].
  destruct (broadcast_one_pending_row_per_online_firefighter 1 11 21 "fire"
              "Building A - Warehouse" "Dock" 0.91
              (fun _ => "2026-03-01 10:00:00") station_db H)
    as (rows & Heq & _ & _ & _ & _ & _ & _ & Hlen).
  rewrite Heq, length_app, Hlen. by_computation.
Defined.

(** A call on an id that no row has leaves the store as it is. *)
Lemma respond_unknown_id_example :
  fetch_firefighter_alert (firefighter_alerts three_alerts) 99 = None
  /\ respond three_alerts 99 "responded" "2026-03-01T10:00:10" "2026-03-01"
     = three_alerts.
Proof.
  assert (H : fetch_firefighter_alert (firefighter_alerts three_alerts) 99
              = None) by by_computation.
  split; [exact H |].
  exact (proj1 (respond_selects_by_id_alone iso_seconds three_alerts 99
                  "responded" "2026-03-01T10:00:10" "2026-03-01") H).
Defined.

(** Row 1 has been responded to at 10:00:10.  A second call on it at
    10:20:00 is not refused: the response time of the row is overwritten and
    the stats of firefighter 1 count a second response, with a second
    latency in the average. *)
Lemma respond_again_overwrites_resolved_record :
  let d := one_response in
  let d2 := respond d 1 "responded" "2026-03-01T10:20:00" "2026-03-01" in
  fa_status <$> fetch_firefighter_alert (firefighter_alerts d) 1
  = Some "responded"
  /\ fa_responded_at <$> fetch_firefighter_alert (firefighter_alerts d) 1
     = Some (Some "2026-03-01T10:00:10")
  /\ fa_responded_at <$> fetch_firefighter_alert (firefighter_alerts d2) 1
     = Some (Some "2026-03-01T10:20:00")
  /\ total_responded <$> fetch_firefighter_stats (firefighter_stats d) 1
     = Some 1%Z
  /\ total_responded <$> fetch_firefighter_stats (firefighter_stats d2) 1
     = Some 2%Z
  /\ firefighter_alerts d2 <> firefighter_alerts d
  /\ firefighter_stats d2 <> firefighter_stats d.
Proof.
  repeat split; try by_computation.
  - intros H.
    apply (f_equal (fun t => fa_responded_at
                               <$> fetch_firefighter_alert t 1)) in H.
    vm_compute in H. discriminate H.
  - intros H.
    apply (f_equal (fun t => total_responded
                               <$> fetch_firefighter_stats t 1)) in H.
    vm_compute in H. discriminate H.
Qed.

(** Three responses of firefighter 1, 10, 20 and 30 seconds after the
    alerts were received. *)
Lemma three_responses_example :
  exists after,
    fetch_firefighter_stats
      (firefighter_stats
         (respond
            (respond
               (respond three_alerts 1 "responded" "2026-03-01T10:00:10"
                  "2026-03-01")
               4 "responded" "2026-03-01T10:05:20" "2026-03-01")
            7 "responded" "2026-03-01T10:10:30" "2026-03-01")) 1
    = Some after
    /\ total_responded after = 3%Z
    /\ (avg_response_time_seconds after == 20)%Q.
Proof.
  destruct (fetch_firefighter_alert (firefighter_alerts three_alerts) 1)
    as [row1 |] eqn:H1; [| vm_compute in H1; discriminate H1].
  destruct (fetch_firefighter_alert (firefighter_alerts three_alerts) 4)
    as [row2 |] eqn:H2; [| vm_compute in H2; discriminate H2].
  destruct (fetch_firefighter_alert (firefighter_alerts three_alerts) 7)
    as [row3 |] eqn:H3; [| vm_compute in H3; discriminate H3].
  apply (proj2 (responded_updates_incremental_mean iso_seconds)
           three_alerts 1%nat 1%nat 4%nat 7%nat row1 row2 row3
           "2026-03-01T10:00:10" "2026-03-01T10:05:20" "2026-03-01T10:10:30"
           "2026-03-01" "2026-03-01" "2026-03-01" H1);
    [ | exact H2 | | exact H3 | | | | | | ];
    vm_compute in H1, H2, H3;
    injection H1 as <-; injection H2 as <-; injection H3 as <-;
    by_computation.
Defined.

(** Firefighter 1 acknowledges row 4 at 10:05:20, after the response to
    row 1. *)
Lemma acknowledged_example :
  exists after,
    fetch_firefighter_stats
      (firefighter_stats
         (respond one_response 4 "acknowledged" "2026-03-01T10:05:20"
            "2026-03-01")) 1
    = Some after
    /\ total_acknowledged after = 1%Z
    /\ total_responded after = 1%Z
    /\ last_response_at after = Some "2026-03-01T10:05:20".
Proof.
  destruct (fetch_firefighter_alert (firefighter_alerts one_response) 4)
    as [row |] eqn:Hrow; [| vm_compute in Hrow; discriminate Hrow].
  destruct (acknowledged_counts_and_stamps iso_seconds one_response 4
              "2026-03-01T10:05:20" "2026-03-01" row Hrow)
    as [(after & Hf & Hack & _ & Hlast & _ & Hresp & _) _].
  vm_compute in Hrow. injection Hrow as <-.
  exists after. split; [exact Hf |].
  split; [rewrite Hack; by_computation |].
  split; [rewrite Hresp; by_computation | exact Hlast].
Defined.

(** The same acknowledgement moves [last_response_at] of the row of
    firefighter 1 from the time of the earlier response to its own. *)
Lemma acknowledging_moves_last_response_at :
  let d := one_response in
  let d1 := respond d 4 "acknowledged" "2026-03-01T10:05:20" "2026-03-01" in
  fa_firefighter_id <$> fetch_firefighter_alert (firefighter_alerts d) 4
  = Some 1%nat
  /\ last_response_at <$> fetch_firefighter_stats (firefighter_stats d) 1
     = Some (Some "2026-03-01T10:00:10")
  /\ last_response_at <$> fetch_firefighter_stats (firefighter_stats d1) 1
     = Some (Some "2026-03-01T10:05:20").
Proof. repeat split; by_computation. Qed.

(** A response to a row whose [received_at] reads "yesterday". *)
Lemma unparsable_timestamp_example :
  iso_seconds "yesterday" = None
  /\ exists after,
       fetch_firefighter_stats
         (firefighter_stats
            (respond garbled_alert 1 "responded" "2026-03-01T10:00:10"
               "2026-03-01")) 3
       = Some after
       /\ total_responded after = 1%Z
       /\ total_alerts_today after = 1%Z
       /\ (avg_response_time_seconds after == 0)%Q.
Proof.
  split; [by_computation |].
  destruct (fetch_firefighter_alert (firefighter_alerts garbled_alert) 1)
    as [row |] eqn:Hrow; [| vm_compute in Hrow; discriminate Hrow].
  assert (Hbad : iso_seconds (fa_received_at row) = None
                 \/ iso_seconds "2026-03-01T10:00:10" = None).
  { left. vm_compute in Hrow. injection Hrow as <-. by_computation. }
  destruct (unparsable_timestamp_is_zero_latency iso_seconds garbled_alert 1
              "responded" "2026-03-01T10:00:10" "2026-03-01" row Hrow Hbad)
    as (_ & after & Hf & Htoday & _ & Hresp & _).
  destruct (Hresp eq_refl) as (Hn & _ & Havg).
  vm_compute in Hrow. injection Hrow as <-.
  exists after. split; [exact Hf |].
  split; [rewrite Hn; by_computation |].
  split; [rewrite Htoday; by_computation |].
  rewrite Havg. by_computation.
Defined.

(** The gate on the world the first session left, with the clip of
    detection 1 pending: detection 2 is logged and takes the slot, and the
    clip written four seconds later is stored with detection 2, detection 1
    getting none. *)
Lemma pending_slot_taken_example :
  PENDING_CLIPS (ls_world first_session) !! 1%nat
  = Some {| pc_detection_id := 1; pc_trigger_time := 100.4 |}
  /\ gate percent1 (ls_world first_session) 1 0 (shot 10 101.4 [fire 0.95])
     = Some regated
  /\ detection_id (snd regated) = Some 2%nat
  /\ PENDING_CLIPS (fst (fst regated)) !! 1%nat
     = Some {| pc_detection_id := 2; pc_trigger_time := 101.4 |}
  /\ det_clip_path
       <$> detections
             (database (handle_pending_clips (fun fr => fr) 105.4 1
                          (fst (fst regated))))
     = [None; Some "detected_clips/camera1_det_2.mp4"].
Proof.
  assert (Hg : gate percent1 (ls_world first_session) 1 0
                 (shot 10 101.4 [fire 0.95])
               = Some (fst (fst regated), snd (fst regated), snd regated))
    by by_computation.
  assert (Hid : detection_id (snd regated) = Some 2%nat) by by_computation.
  split; [by_computation |]. split; [by_computation |].
  split; [exact Hid |].
  destruct (logged_detection_takes_pending_slot percent1 _ _ _ _ _ _ _ Hg)
    as (_ & Hslot & _ & Hclip).
  split; [rewrite Hid in Hslot; exact Hslot |].
  destruct (Hclip 2%nat (fun fr => fr) (fst (fst regated)) 105.4%Q Hid
              eq_refl) as [_ Hdue].
  destruct Hdue as (_ & _ & Hpaths & _).
  - apply Qle_bool_iff. by_computation.
  - intros Hbuf. vm_compute in Hbuf. discriminate Hbuf.
  - rewrite Hpaths. by_computation.
Defined.

(** Two sessions of [detect_from_webcam] one second apart.  The first logs
    detection 1 at 100.4 s and leaves its clip pending; the second, whose
    counter starts at 0, logs detection 2 at 101.4 s, within the four seconds
    that follow the first trigger.  The pending clip is then that of
    detection 2, and the one clip written in the end is for detection 2:
    detection 1 gets none. *)
Lemma second_detection_replaces_pending_clip :
  PENDING_CLIPS (ls_world first_session) !! 1%nat
  = Some {| pc_detection_id := 1; pc_trigger_time := 100.4 |}
  /\ (101.4 < 100.4 + CLIP_AFTER_SEC)%Q
  /\ detection_ids (ls_world second_session) = [1; 2]%nat
  /\ PENDING_CLIPS (ls_world second_session) !! 1%nat
     = Some {| pc_detection_id := 2; pc_trigger_time := 101.4 |}
  /\ PENDING_CLIPS (ls_world second_session) !! 1%nat
     <> PENDING_CLIPS (ls_world first_session) !! 1%nat
  /\ fst <$> map_to_list (clip_files (ls_world second_session_done))
     = ["detected_clips/camera1_det_2.mp4"]
  /\ det_clip_path <$> detections (database (ls_world second_session_done))
     = [None; Some "detected_clips/camera1_det_2.mp4"].
Proof.
  repeat split; try by_computation.
  intros H. vm_compute in H. discriminate H.
Qed.

(** After the fifth frame of the first session has been logged, five more
    frames that all show fire at 0.95 go through without a detection. *)
Lemma cooldown_suppresses_example :
  webcam_iteration (fun fr => fr) percent1 1 four_frames
    (shot 5 100.4 [fire 0.90]) = Some first_session
  /\ detection_ids (ls_world first_session)
     <> detection_ids (ls_world four_frames)
  /\ exists s2,
       webcam_run (fun fr => fr) percent1 1 first_session
         [ shot 6 101.0 [fire 0.95]; shot 7 101.1 [fire 0.95];
           shot 8 101.2 [fire 0.95]; shot 9 101.3 [fire 0.95];
           shot 10 101.4 [fire 0.95] ] = Some s2
       /\ detection_ids (ls_world s2) = [1%nat].
Proof.
  assert (H1 : webcam_iteration (fun fr => fr) percent1 1 four_frames
                 (shot 5 100.4 [fire 0.90]) = Some first_session)
    by by_computation.
  assert (H2 : detection_ids (ls_world first_session)
               <> detection_ids (ls_world four_frames)).
  { intros H. vm_compute in H. discriminate H. }
  split; [exact H1 |]. split; [exact H2 |].
  destruct (proj1 (cooldown_suppresses_detections percent1 (fun fr => fr) 1
                     four_frames first_session (shot 5 100.4 [fire 0.90])
                     H1 H2)
              [ shot 6 101.0 [fire 0.95]; shot 7 101.1 [fire 0.95];
                shot 8 101.2 [fire 0.95]; shot 9 101.3 [fire 0.95];
                shot 10 101.4 [fire 0.95] ])
    as (s2 & Hrun & Hids & _); [simpl; lia |].
  exists s2. split; [exact Hrun |]. rewrite Hids. by_computation.
Defined.

(** Smoke at 0.70 on camera 1, the gate not cooling down: logged, with the
    clip pending, and no alert. *)
Lemma logged_without_alert_example :
  exists w1 i,
    gate percent1 start 1 0 (shot 5 100.4 [smoke 0.70])
    = Some (w1, 299%Z,
            with_detection_id (scan_results [[smoke 0.70]]) i)
    /\ detection_ids w1 = detection_ids start ++ [i]
    /\ (i ∉ detection_ids start)
    /\ alerts (database w1) = alerts (database start).
Proof.
  apply (proj1 (proj2 (alert_only_at_alert_threshold percent1 start 1 0
                         (shot 5 100.4 [smoke 0.70]))) camera1).
  - lia.
  - by_computation.
  - by_computation.
  - vm_compute. discriminate.
  - by_computation.
Defined.

(** After detection 2, 299 invocations that all show fire at 0.99 bring the
    counter of camera 1 down to 0. *)
Lemma cooldown_countdown_example :
  gate percent1 (ls_world first_session) 1 0 (shot 10 101.4 [fire 0.95])
  = Some regated
  /\ detection_id (snd regated) = Some 2%nat
  /\ cooldown_after percent1 1 (snd (fst regated))
       (replicate 299 (start, shot 1 100.0 [fire 0.99]))
     = Some 0%Z.
Proof.
  assert (Hg : gate percent1 (ls_world first_session) 1 0
                 (shot 10 101.4 [fire 0.95])
               = Some (fst (fst regated), snd (fst regated), snd regated))
    by by_computation.
  assert (Hid : detection_id (snd regated) = Some 2%nat) by by_computation.
  split; [by_computation |]. split; [exact Hid |].
  destruct (cooldown_counts_gate_invocations percent1 _ _ _ _ _ _ _ _ Hg Hid)
    as (_ & _ & Hcount & _).
  rewrite (Hcount (replicate 299 (start, shot 1 100.0 [fire 0.99])))
    by (rewrite length_replicate; lia).
  rewrite length_replicate. reflexivity.
Defined.

End Worked.

(** * Further worked examples *)

Section WorkedFurther.

Import Examples Cases.

Local Ltac by_computation := vm_compute; reflexivity.

(** Ten buffered frames, all within the window of a trigger at 101 s: a
    clip of ten frames at 2 frames a second. *)
Lemma clip_frame_rate_example :
  exists clip,
    clip_files (fst (save_detection_clip (fun fr => fr) ten_frames 1 7
                       101.0)) !! clip_path_of 1 7 = Some clip
    /\ length (clip_frames clip) = 10%nat
    /\ (clip_fps clip == 2)%Q.
Proof.
  destruct (clip_files (fst (save_detection_clip (fun fr => fr) ten_frames
                               1 7 101.0)) !! clip_path_of 1 7)
    as [clip |] eqn:Hclip; [| vm_compute in Hclip; discriminate Hclip].
  assert (Hbuf : buffer_of ten_frames 1 <> []).
  { intros H. vm_compute in H. discriminate H. }
  pose proof (clip_frame_rate (fun fr => fr) ten_frames 1 7 101.0 clip
                Hclip Hbuf) as Hfps.
  assert (Hlen : length (clip_frames clip) = 10%nat).
  { vm_compute in Hclip. injection Hclip as <-. reflexivity. }
  exists clip. split; [reflexivity |]. split; [exact Hlen |].
  rewrite Hfps. cbv zeta. rewrite Hlen. reflexivity.
Defined.

(** Fire at 0.68 with smoke at 0.66 is not logged, though smoke at 0.66 on
    its own is. *)
Lemma weak_fire_hides_smoke_example :
  process_detection_results percent1 start "20260301_100000" 100.4
    [[fire 0.68; smoke 0.66]] 1 true
  = Some (start, scan_results [[fire 0.68; smoke 0.66]])
  /\ (snd <$> process_detection_results percent1 start "20260301_100000"
                100.4 [[smoke 0.66]] 1 true)
     = Some (with_detection_id (scan_results [[smoke 0.66]]) 1).
Proof.
  split; [| by_computation].
  apply (weak_fire_hides_smoke percent1 start "20260301_100000" 100.4
           [[fire 0.68; smoke 0.66]] 1 true).
  - vm_compute. discriminate.
  - by_computation.
Defined.

(** Camera 1 logs a detection in the dual loop while camera 2 gives no
    frame: nothing of camera 2 has moved. *)
Lemma dual_loop_example :
  dual_iteration (fun fr => fr) percent1 true dual_start
    (shot 5 100.4 [fire 0.90]) None = Some dual_fifth
  /\ detection_cooldown_1 dual_fifth = 299%Z
  /\ detection_cooldown_2 dual_fifth = 0%Z
  /\ buffer_of (ds_world dual_fifth) 2 = buffer_of (ds_world dual_start) 2
  /\ PENDING_CLIPS (ds_world dual_fifth) !! 2%nat
     = PENDING_CLIPS (ds_world dual_start) !! 2%nat.
Proof.
  assert (H : dual_iteration (fun fr => fr) percent1 true dual_start
                (shot 5 100.4 [fire 0.90]) None = Some dual_fifth)
    by by_computation.
  split; [exact H |]. split; [by_computation |].
  destruct (dual_loop_keeps_to_its_cameras percent1 (fun fr => fr) true
              dual_start dual_fifth (shot 5 100.4 [fire 0.90]) None H)
    as (_ & Hidle & _).
  destruct (Hidle eq_refl) as (Hbuf & Hslot & Hcd).
  split; [rewrite Hcd; reflexivity |]. by split.
Defined.

(** A roster with a deletion and a move: the ids given out are 1 to 4, id 1
    is not given out again, and the two firefighters now at station 1 are
    the ones a broadcast to station 1 reaches. *)
Lemma roster_example :
  firefighters no_rows = []
  /\ ff_id <$> firefighters (fst (roster_calls (no_rows, 0%nat)
                                    roster_history))
     = [2; 3; 4]%nat
  /\ NoDup (ff_id <$> firefighters (fst (roster_calls (no_rows, 0%nat)
                                           roster_history)))
  /\ fa_firefighter_id
     <$> firefighter_alerts
           (fst (broadcast_alert_to_station
                   (fst (roster_calls (no_rows, 0%nat) roster_history))
                   1 11 21 "fire" "Building A - Warehouse" "Dock" 0.91
                   (fun _ => "2026-03-01 10:00:00")))
     = [4%nat].
Proof.
  assert (H : firefighters no_rows = []) by reflexivity.
  split; [exact H |]. split; [by_computation |].
  destruct (roster_is_keyed_and_online no_rows 0 roster_history 1 11 21
              "fire" "Building A - Warehouse" "Dock" 0.91
              (fun _ => "2026-03-01 10:00:00") H)
    as (Hkey & _ & _ & _ & _ & rows & Heq & Hrows).
  split; [exact Hkey |].
  rewrite Heq, fmap_app, Hrows. by_computation.
Defined.

(** Firefighter 1 has three alerts pending; after the response to row 1 the
    pending ones are rows 7 and 4, the latest first. *)
Lemma pending_after_response_example :
  "responded" <> "pending"
  /\ fa_id <$> get_pending_firefighter_alerts three_alerts (Some 1%nat) None
     = [7; 4; 1]%nat
  /\ fa_id <$> get_pending_firefighter_alerts one_response (Some 1%nat) None
     = [7; 4]%nat
  /\ Forall (fun r => fa_id r <> 1%nat)
       (get_pending_firefighter_alerts one_response (Some 1%nat) None).
Proof.
  assert (H : "responded" <> "pending") by discriminate.
  split; [exact H |]. split; [by_computation |]. split; [by_computation |].
  destruct (response_leaves_the_pending_list iso_seconds three_alerts
              (Some 1%nat) None 20 1 "responded" "2026-03-01T10:00:10"
              "2026-03-01" H) as (_ & _ & _ & Hmoved).
  apply Forall_forall. intros r Hr. by apply Hmoved in Hr as [_ Hr].
Defined.

(** The first response of firefighter 1, read back: one alert, one
    response, no acknowledgement. *)
Lemma stats_read_back_example :
  exists after,
    get_firefighter_stats one_response (Some 1%nat) (Some 2%nat)
    = ReportRow after
    /\ total_alerts_today after = 1%Z
    /\ last_response_at after = Some "2026-03-01T10:00:10"
    /\ total_responded after = 1%Z
    /\ total_acknowledged after = 0%Z.
Proof.
  destruct (fetch_firefighter_alert (firefighter_alerts three_alerts) 1)
    as [row |] eqn:Hrow; [| vm_compute in Hrow; discriminate Hrow].
  assert (Hne : fa_firefighter_id row <> 0%nat).
  { vm_compute in Hrow. injection Hrow as <-. discriminate. }
  destruct (stats_read_back_after_response iso_seconds three_alerts 1
              "responded" "2026-03-01T10:00:10" "2026-03-01" (Some 2%nat)
              row Hrow Hne)
    as (after & Hget & Htoday & Hlast & Hcount & _).
  destruct (decide ("responded" = "responded")) as [_ | Hno]; [| done].
  destruct Hcount as [Hresp Hack].
  vm_compute in Hrow. injection Hrow as <-.
  exists after. split; [exact Hget |].
  split; [rewrite Htoday; by_computation |].
  split; [exact Hlast |].
  split; [rewrite Hresp | rewrite Hack]; by_computation.
Defined.

(** A fire at 10:47 and a smoke at 10:31 are counted in the same half hour,
    the one that starts at 10:30. *)
Lemma half_hour_example :
  NoDup (interval_start <$> one_fire)
  /\ interval_start_of quarter_to_eleven = interval_start_of half_past_ten
  /\ interval_counts
       (_update_detection_history one_fire half_past_ten "smoke")
       (interval_start_of half_past_ten)
     = (1%Z, 1%Z).
Proof.
  assert (H : NoDup (interval_start <$> one_fire)).
  { apply (bool_decide_eq_true_1 (NoDup _)). by_computation. }
  split; [exact H |]. split; [by_computation |].
  destruct (detection_history_counts_by_half_hour one_fire half_past_ten
              "smoke" H) as (_ & _ & _ & _ & Hcount & _).
  { unfold half_past_ten. cbn [dt_minute]. lia. }
  rewrite Hcount. by_computation.
Defined.

(** The day after, a fire is not counted and no row of the new day can be
    read; after a reset a fire and a smoke give 2, 1 and 1. *)
Lemma daily_counters_example :
  _update_daily_stats day_before "2024-05-02" "fire" = day_before
  /\ fetch_day day_before "2024-05-02" = None
  /\ (detections_today
        <$> fetch_day
              (foldl (fun t detection_type =>
                        _update_daily_stats t "2024-05-02" detection_type)
                 (reset_daily_stats day_before "2024-05-02")
                 ["fire"; "smoke"]) "2024-05-02")
     = Some 2%Z.
Proof.
  destruct (daily_counters_need_a_reset day_before "2024-05-02"
              ["fire"; "smoke"]) as [Hstale Hcount].
  destruct (Hstale "fire") as [Hsame Hnone].
  - apply (bool_decide_eq_true_1 (Exists _ _)). by_computation.
  - apply (bool_decide_eq_true_1 (Forall _ _)). by_computation.
  - split; [exact Hsame |]. split; [exact Hnone |].
    rewrite Hcount. reflexivity.
Defined.

End WorkedFurther.
